(** * RPLIDAR serial diagnostic: a shallow embedding of
      [rplidar_cpp_diagnostic.cpp] and the properties of its test matrix.

    The program talks to the operating system (serial ports, a clock, the
    console, one output file).  The embedding threads a [State] through every
    member function of [RPLidarDiagnostic]: the fields of the object plus the
    history of everything the program has done to the outside world.  The
    outside world itself is a [Host]: for every system call it says what the
    call returns, given the whole history so far.  All theorems hold for every
    host.

    The POSIX branch of the source (the [#else] of [#ifdef _WIN32]) is the one
    embedded. *)

From Stdlib Require Import ZArith List String Ascii Bool Lia.
From Stdlib Require Import Strings.Byte DecimalString.
Import ListNotations.
Open Scope Z_scope.

(* ------------------------------------------------------------------ *)
(** ** Data *)

(** [struct TestResult].  [test_duration_ms] is a [double] that the source
    leaves uninitialised until one of the two return paths of [testPort]
    assigns it: [None] is the uninitialised value.  Durations are kept as the
    difference of two clock readings, in clock ticks. *)
Record TestResult := mkTestResult {
  port : string;
  baudrate : Z;
  raw_communication : bool;
  device_info_success : bool;
  health_check_success : bool;
  scan_start_success : bool;
  scan_points_received : Z;
  error_message : string;
  test_duration_ms : option Z
}.

Definition set_raw_communication (b : bool) (r : TestResult) : TestResult :=
  mkTestResult (port r) (baudrate r) b (device_info_success r)
    (health_check_success r) (scan_start_success r) (scan_points_received r)
    (error_message r) (test_duration_ms r).

Definition set_device_info_success (b : bool) (r : TestResult) : TestResult :=
  mkTestResult (port r) (baudrate r) (raw_communication r) b
    (health_check_success r) (scan_start_success r) (scan_points_received r)
    (error_message r) (test_duration_ms r).

Definition set_health_check_success (b : bool) (r : TestResult) : TestResult :=
  mkTestResult (port r) (baudrate r) (raw_communication r)
    (device_info_success r) b (scan_start_success r) (scan_points_received r)
    (error_message r) (test_duration_ms r).

Definition set_scan_start_success (b : bool) (r : TestResult) : TestResult :=
  mkTestResult (port r) (baudrate r) (raw_communication r)
    (device_info_success r) (health_check_success r) b
    (scan_points_received r) (error_message r) (test_duration_ms r).

Definition set_scan_points_received (n : Z) (r : TestResult) : TestResult :=
  mkTestResult (port r) (baudrate r) (raw_communication r)
    (device_info_success r) (health_check_success r) (scan_start_success r)
    n (error_message r) (test_duration_ms r).

Definition set_error_message (m : string) (r : TestResult) : TestResult :=
  mkTestResult (port r) (baudrate r) (raw_communication r)
    (device_info_success r) (health_check_success r) (scan_start_success r)
    (scan_points_received r) m (test_duration_ms r).

Definition set_test_duration_ms (d : Z) (r : TestResult) : TestResult :=
  mkTestResult (port r) (baudrate r) (raw_communication r)
    (device_info_success r) (health_check_success r) (scan_start_success r)
    (scan_points_received r) (error_message r) (Some d).

(** The [speed_t] constants that [openSerial] selects between. *)
Inductive speed_t := B115200 | B230400 | B460800 | B921600 | B256000.

(** What one [readData] call meets: [select] reports nothing readable within
    the timeout, or [read] fails with -1, or [read] delivers bytes. *)
Inductive ReadOutcome :=
| NotReady
| ReadFail
| ReadBytes (data : list byte).

(** Everything the program prints on [std::cout], one constructor per
    message of the source, carrying the values that are printed. *)
Inductive ConsoleMsg :=
| MsgTesting (p : string) (baud : Z)
| MsgRawTesting
| MsgRawOk (bytes : Z)
| MsgRawNoResponse
| MsgInfoTesting
| MsgInfoOk (bytes : Z)
| MsgModel (model : Z)
| MsgFirmware (b8 b9 : Z)
| MsgHardware (hw : Z)
| MsgInfoBadHeader (b0 b1 : Z)
| MsgInfoInsufficient (bytes : Z)
| MsgHealthTesting
| MsgHealthOk
| MsgHealthStatus (status : Z)
| MsgHealthErrorCode (error_code : Z)
| MsgHealthBadHeader
| MsgHealthFailed (bytes : Z)
| MsgScanTesting
| MsgScanRead (bytes points : Z)
| MsgScanNoData (attempt : Z)
| MsgScanOk (total_points : Z)
| MsgScanNone
| MsgBanner
| MsgNoPorts
| MsgFoundPorts (ports : list string)
| MsgResultWorking (points : Z)
| MsgResultPartial
| MsgResultBasic
| MsgResultFailed (err : string)
| MsgDuration (d : option Z)
| MsgSummaryBanner
| MsgWorkingFound (p : string) (baud points : Z)
| MsgNoWorking
| MsgPartialLine (p : string) (baud : Z) (info health raw : bool)
| MsgSaved.

(** The history of the run: every system call with what it returned, and
    every console message, oldest first. *)
Inductive Event :=
| EvAccess (path : string) (found : bool)
| EvOpen (path : string) (fd : Z)
| EvConfigure (fd : Z) (speed : speed_t)
| EvClose (fd : Z)
| EvWrite (fd : Z) (data : list byte) (ret : Z)
| EvRead (fd : Z) (max_length timeout_ms : Z) (r : ReadOutcome)
| EvSleep (ms : Z)
| EvClock (t : Z)
| EvLocaltime (s : string)
| EvFileOpen (name : string) (ok : bool)
| EvFileClose
| EvCout (m : ConsoleMsg).

(** The outside world.  Each field answers one kind of call from the history
    so far and the call's arguments. *)
Record Host := mkHost {
  h_access : list Event -> string -> bool;
  h_open : list Event -> string -> Z;
  h_write : list Event -> Z -> list byte -> Z;
  h_read : list Event -> Z -> Z -> Z -> ReadOutcome;
  h_clock : list Event -> Z;
  h_localtime : list Event -> string;
  h_file_open : list Event -> string -> bool
}.

(** One operand of [log_file << ...]: text, an integer, or a [double]. *)
Inductive LogItem :=
| LTxt (s : string)
| LInt (z : Z)
| LDbl (d : option Z).

(** The fields of [RPLidarDiagnostic] together with the history.
    [log_is_open] is [log_file.is_open()]; [log_file] is what has been
    inserted into the stream since it was opened. *)
Record State := mkState {
  serial_fd : Z;
  log_is_open : bool;
  log_file : list LogItem;
  results : list TestResult;
  trace : list Event
}.

Definition set_serial_fd (fd : Z) (s : State) : State :=
  mkState fd (log_is_open s) (log_file s) (results s) (trace s).

Definition set_log (o : bool) (l : list LogItem) (s : State) : State :=
  mkState (serial_fd s) o l (results s) (trace s).

Definition set_results (rs : list TestResult) (s : State) : State :=
  mkState (serial_fd s) (log_is_open s) (log_file s) rs (trace s).

Definition set_trace (tr : list Event) (s : State) : State :=
  mkState (serial_fd s) (log_is_open s) (log_file s) (results s) tr.

(* ------------------------------------------------------------------ *)
(** ** The state monad of the member functions *)

Definition M (A : Type) : Type := State -> A * State.

Definition ret {A} (a : A) : M A := fun s => (a, s).

Definition bind {A B} (c : M A) (k : A -> M B) : M B :=
  fun s => let (a, s') := c s in k a s'.

Declare Scope diag_scope.
Delimit Scope diag_scope with diag.
Notation "x <- c ;; k" := (bind c (fun x => k))
  (at level 61, c at next level, right associativity) : diag_scope.
Notation "' pat <- c ;; k" := (bind c (fun x => match x with pat => k end))
  (at level 61, pat pattern, c at next level, right associativity) : diag_scope.
Notation "c ;; k" := (bind c (fun _ => k))
  (at level 61, right associativity) : diag_scope.
Open Scope diag_scope.

Definition get {A} (f : State -> A) : M A := fun s => (f s, s).

Definition modify (f : State -> State) : M unit := fun s => (tt, f s).

Definition emit (e : Event) : M unit :=
  modify (fun s => set_trace (trace s ++ [e]) s).

Definition cout (m : ConsoleMsg) : M unit := emit (EvCout m).

Definition sleep_for (ms : Z) : M unit := emit (EvSleep ms).

(** A range-based [for] with the loop-carried locals in [acc]. *)
Fixpoint for_each {A S} (l : list A) (body : A -> S -> M S) (acc : S) : M S :=
  match l with
  | [] => ret acc
  | x :: l' => acc' <- body x acc ;; for_each l' body acc'
  end.

(** [log_file << item]; a closed stream drops what is inserted. *)
Definition log_put (i : LogItem) : M unit :=
  modify (fun s =>
    if log_is_open s then set_log true (log_file s ++ [i]) s else s).

Definition bool_text (b : bool) : string :=
  if b then "true"%string else "false"%string.

(** [uint8_t] as an [int], after integer promotion. *)
Definition u8 (b : byte) : Z := Z.of_N (Byte.to_N b).

(** [buffer[i]], on the bytes that the read has stored in the buffer. *)
Definition at_ (buffer : list byte) (i : nat) : byte := nth i buffer x00.

(** [std::to_string] of an [int]. *)
Definition to_string (i : Z) : string :=
  NilZero.string_of_int (Z.to_int i).

(** The double quote and the newline of the string literals of the source. *)
Definition dq : string := String "034" EmptyString.
Definition nl : string := String "010" EmptyString.

Infix "+++" := String.append (right associativity, at level 60).

(** What [readData] hands back for each outcome of the system calls: the
    count it returns and the bytes that are in the buffer afterwards. *)
Definition read_returns (max_length : Z) (r : ReadOutcome) : Z * list byte :=
  match r with
  | NotReady => (0, [])
  | ReadFail => (-1, [])
  | ReadBytes data =>
      let stored := firstn (Z.to_nat max_length) data in
      (Z.of_nat (List.length stored), stored)
  end.

(* ------------------------------------------------------------------ *)
(** ** The member functions of [RPLidarDiagnostic] *)

Section Program.

Variable host : Host.

(** *** System calls: ask the host, record the answer *)

Definition sys_access (path : string) : M bool := fun s =>
  let found := h_access host (trace s) path in
  (found, set_trace (trace s ++ [EvAccess path found]) s).

Definition sys_open (path : string) : M Z := fun s =>
  let fd := h_open host (trace s) path in
  (fd, set_trace (trace s ++ [EvOpen path fd]) s).

Definition sys_write (fd : Z) (data : list byte) : M Z := fun s =>
  let n := h_write host (trace s) fd data in
  (n, set_trace (trace s ++ [EvWrite fd data n]) s).

Definition sys_read (fd max_length timeout_ms : Z) : M ReadOutcome := fun s =>
  let r := h_read host (trace s) fd max_length timeout_ms in
  (r, set_trace (trace s ++ [EvRead fd max_length timeout_ms r]) s).

Definition clock_now : M Z := fun s =>
  let t := h_clock host (trace s) in
  (t, set_trace (trace s ++ [EvClock t]) s).

(** [std::ofstream::open]: whether the file is open afterwards. *)
Definition sys_file_open (name : string) : M bool := fun s =>
  let ok := h_file_open host (trace s) name in
  (ok, set_trace (trace s ++ [EvFileOpen name ok]) s).

(** *** getCurrentTimeString *)
Definition getCurrentTimeString : M string := fun s =>
  let str := h_localtime host (trace s) in
  (str, set_trace (trace s ++ [EvLocaltime str]) s).

(** *** The constructor.  The result of [log_file.open] is not looked at:
    when the file could not be opened the stream is not open, and every
    insertion that follows is dropped. *)
Definition log_file_name : string := "rplidar_diagnostic_results.json".

Definition constructor : M unit :=
  modify (set_serial_fd (-1)) ;;
  ok <- sys_file_open log_file_name ;;
  modify (set_log ok []) ;;
  log_put (LTxt ("{" +++ nl +++ "  " +++ dq +++ "timestamp" +++ dq +++ ": "
                 +++ dq)) ;;
  ts <- getCurrentTimeString ;;
  log_put (LTxt ts) ;;
  log_put (LTxt (dq +++ "," +++ nl)) ;;
  log_put (LTxt ("  " +++ dq +++ "test_results" +++ dq +++ ": [" +++ nl)).

(** *** findSerialPorts *)
Definition prefixes : list string :=
  ["/dev/ttyUSB"; "/dev/ttyACM"; "/dev/ttyS"]%string.

(** The body of the inner loop, [i] running from 0 to 9. *)
Definition findSerialPorts_try (prefix : string) (i : Z)
    (ports : list string) : M (list string) :=
  let port := prefix +++ to_string i in
  found <- sys_access port ;;
  if found then ret (ports ++ [port]) else ret ports.

Definition findSerialPorts : M (list string) :=
  for_each prefixes (fun prefix ports =>
    for_each [0; 1; 2; 3; 4; 5; 6; 7; 8; 9] (findSerialPorts_try prefix)
      ports) [].

(** *** closeSerial *)
Definition closeSerial : M unit :=
  fd <- get serial_fd ;;
  if negb (fd =? -1) then
    emit (EvClose fd) ;;
    modify (set_serial_fd (-1))
  else ret tt.

(** *** openSerial *)
Definition speed_of_baudrate (baudrate : Z) : speed_t :=
  if baudrate =? 115200 then B115200
  else if baudrate =? 230400 then B230400
  else if baudrate =? 460800 then B460800
  else if baudrate =? 921600 then B921600
  else if baudrate =? 256000 then B256000
  else B115200.

(** [tcgetattr] ... [tcflush] configure the descriptor; they are one event,
    their results are not looked at by the source. *)
Definition openSerial (port : string) (baudrate : Z) : M bool :=
  closeSerial ;;
  fd <- sys_open port ;;
  modify (set_serial_fd fd) ;;
  if fd =? -1 then ret false
  else
    emit (EvConfigure fd (speed_of_baudrate baudrate)) ;;
    ret true.

(** *** writeData *)
Definition writeData (data : list byte) : M bool :=
  fd <- get serial_fd ;;
  n <- sys_write fd data ;;
  ret (n =? Z.of_nat (List.length data)).

(** *** readData: the returned count and the bytes now in the buffer.
    [read] never stores more than [max_length] bytes. *)
Definition readData (max_length timeout_ms : Z) : M (Z * list byte) :=
  fd <- get serial_fd ;;
  r <- sys_read fd max_length timeout_ms ;;
  ret (read_returns max_length r).

(** *** testPort, phase by phase *)
Definition reset_cmd : list byte := [xa5; x40].
Definition info_cmd : list byte := [xa5; x50].
Definition health_cmd : list byte := [xa5; x52].
Definition scan_cmd : list byte := [xa5; x20].
Definition stop_cmd : list byte := [xa5; x25].

(** Test 1: raw communication. *)
Definition testPort_raw (result : TestResult) : M TestResult :=
  cout MsgRawTesting ;;
  ok <- writeData reset_cmd ;;
  if ok then
    sleep_for 100 ;;
    '(bytes, _) <- readData 256 500 ;;
    if bytes >? 0 then
      cout (MsgRawOk bytes) ;;
      ret (set_raw_communication true result)
    else
      cout MsgRawNoResponse ;;
      ret result
  else ret result.

(** Test 2: device info. *)
Definition testPort_info (result : TestResult) : M TestResult :=
  cout MsgInfoTesting ;;
  ok <- writeData info_cmd ;;
  if ok then
    sleep_for 100 ;;
    '(bytes, buffer) <- readData 256 1000 ;;
    if bytes >=? 7 then
      if (u8 (at_ buffer 0) =? 165) && (u8 (at_ buffer 1) =? 90) then
        cout (MsgInfoOk bytes) ;;
        (if bytes >=? 20 then
           cout (MsgModel (u8 (at_ buffer 7))) ;;
           cout (MsgFirmware (u8 (at_ buffer 8)) (u8 (at_ buffer 9))) ;;
           cout (MsgHardware (u8 (at_ buffer 10)))
         else ret tt) ;;
        ret (set_device_info_success true result)
      else
        cout (MsgInfoBadHeader (u8 (at_ buffer 0)) (u8 (at_ buffer 1))) ;;
        ret result
    else
      cout (MsgInfoInsufficient bytes) ;;
      ret result
  else ret result.

(** [uint16_t error_code = (buffer[9] << 8) | buffer[8]]: the operands are
    promoted to [int], the result is cut to 16 bits. *)
Definition health_error_code (buffer : list byte) : Z :=
  (Z.lor (Z.shiftl (u8 (at_ buffer 9)) 8) (u8 (at_ buffer 8))) mod 65536.

(** Test 3: health. *)
Definition testPort_health (result : TestResult) : M TestResult :=
  cout MsgHealthTesting ;;
  ok <- writeData health_cmd ;;
  if ok then
    sleep_for 100 ;;
    '(bytes, buffer) <- readData 256 1000 ;;
    if bytes >=? 10 then
      if (u8 (at_ buffer 0) =? 165) && (u8 (at_ buffer 1) =? 90) then
        let status := u8 (at_ buffer 7) in
        let error_code := health_error_code buffer in
        cout MsgHealthOk ;;
        cout (MsgHealthStatus status) ;;
        cout (MsgHealthErrorCode error_code) ;;
        ret (set_health_check_success true result)
      else
        cout MsgHealthBadHeader ;;
        ret result
    else
      cout (MsgHealthFailed bytes) ;;
      ret result
  else ret result.

Definition max_attempts : Z := 20.

(** The [while (attempts < max_attempts)] loop of test 4.  [remaining] is
    [max_attempts - attempts]; the loop returns [scan_start_success] and
    [total_points]. *)
Fixpoint scan_loop (remaining : nat) (attempts total_points : Z)
  : M (bool * Z) :=
  match remaining with
  | O => ret (false, total_points)
  | S remaining' =>
      '(bytes, _) <- readData 2048 200 ;;
      if bytes >? 0 then
        let points_in_buffer := Z.quot bytes 5 in
        let total_points := total_points + points_in_buffer in
        cout (MsgScanRead bytes points_in_buffer) ;;
        if total_points >? 10 then ret (true, total_points)
        else
          sleep_for 100 ;;
          scan_loop remaining' (attempts + 1) total_points
      else
        cout (MsgScanNoData (attempts + 1)) ;;
        sleep_for 100 ;;
        scan_loop remaining' (attempts + 1) total_points
  end.

(** Test 4: start scan. *)
Definition testPort_scan (result : TestResult) : M TestResult :=
  cout MsgScanTesting ;;
  ok <- writeData scan_cmd ;;
  if ok then
    sleep_for 500 ;;
    '(success, total_points) <- scan_loop (Z.to_nat max_attempts) 0 0 ;;
    let result :=
      if success then set_scan_start_success true result else result in
    let result := set_scan_points_received total_points result in
    (if scan_start_success result then cout (MsgScanOk total_points)
     else cout MsgScanNone) ;;
    ret result
  else ret result.

(** Stop scan. *)
Definition testPort_stop : M unit :=
  writeData stop_cmd ;;
  sleep_for 100.

Definition testPort (port : string) (baudrate : Z) : M TestResult :=
  let result :=
    mkTestResult port baudrate false false false false 0 EmptyString None in
  start_time <- clock_now ;;
  cout (MsgTesting port baudrate) ;;
  opened <- openSerial port baudrate ;;
  if negb opened then
    let result := set_error_message "Failed to open serial port" result in
    end_time <- clock_now ;;
    ret (set_test_duration_ms (end_time - start_time) result)
  else
    result <- testPort_raw result ;;
    result <- testPort_info result ;;
    result <- testPort_health result ;;
    result <- testPort_scan result ;;
    testPort_stop ;;
    closeSerial ;;
    end_time <- clock_now ;;
    ret (set_test_duration_ms (end_time - start_time) result).

(** *** writeResultToJson *)
Definition log_puts (items : list LogItem) : M unit :=
  for_each items (fun i _ => log_put i) tt.

Definition json_of_result (result : TestResult) : list LogItem :=
  [ LTxt ("    {" +++ nl);
    LTxt ("      " +++ dq +++ "port" +++ dq +++ ": " +++ dq);
    LTxt (port result); LTxt (dq +++ "," +++ nl);
    LTxt ("      " +++ dq +++ "baudrate" +++ dq +++ ": ");
    LInt (baudrate result); LTxt ("," +++ nl);
    LTxt ("      " +++ dq +++ "raw_communication" +++ dq +++ ": ");
    LTxt (bool_text (raw_communication result)); LTxt ("," +++ nl);
    LTxt ("      " +++ dq +++ "device_info_success" +++ dq +++ ": ");
    LTxt (bool_text (device_info_success result)); LTxt ("," +++ nl);
    LTxt ("      " +++ dq +++ "health_check_success" +++ dq +++ ": ");
    LTxt (bool_text (health_check_success result)); LTxt ("," +++ nl);
    LTxt ("      " +++ dq +++ "scan_start_success" +++ dq +++ ": ");
    LTxt (bool_text (scan_start_success result)); LTxt ("," +++ nl);
    LTxt ("      " +++ dq +++ "scan_points_received" +++ dq +++ ": ");
    LInt (scan_points_received result); LTxt ("," +++ nl);
    LTxt ("      " +++ dq +++ "error_message" +++ dq +++ ": " +++ dq);
    LTxt (error_message result); LTxt (dq +++ "," +++ nl);
    LTxt ("      " +++ dq +++ "test_duration_ms" +++ dq +++ ": ");
    LDbl (test_duration_ms result); LTxt nl;
    LTxt "    }" ].

Definition writeResultToJson (result : TestResult) : M unit :=
  log_puts (json_of_result result).

(** *** printSummary *)

(** The first loop: stop at the first working configuration. *)
Fixpoint printSummary_working (rs : list TestResult) : M bool :=
  match rs with
  | [] => ret false
  | result :: rs' =>
      if scan_start_success result then
        cout (MsgWorkingFound (port result) (baudrate result)
                (scan_points_received result)) ;;
        ret true
      else printSummary_working rs'
  end.

Definition printSummary : M unit :=
  cout MsgSummaryBanner ;;
  rs <- get results ;;
  found_working <- printSummary_working rs ;;
  (if negb found_working then
     cout MsgNoWorking ;;
     for_each rs (fun result _ =>
       if device_info_success result || health_check_success result
          || raw_communication result
       then cout (MsgPartialLine (port result) (baudrate result)
                    (device_info_success result)
                    (health_check_success result)
                    (raw_communication result))
       else ret tt) tt
   else ret tt) ;;
  cout MsgSaved.

(** *** runFullDiagnostic *)
Definition baudrates : list Z := [115200; 256000; 230400; 460800; 921600].

(** The body of the inner loop; [first_result] is the loop-carried flag. *)
Definition runFullDiagnostic_cell (port : string) (baudrate : Z)
    (first_result : bool) : M bool :=
  result <- testPort port baudrate ;;
  modify (fun s => set_results (results s ++ [result]) s) ;;
  (if negb first_result then log_put (LTxt ("," +++ nl)) else ret tt) ;;
  writeResultToJson result ;;
  (if scan_start_success result then
     cout (MsgResultWorking (scan_points_received result))
   else if device_info_success result || health_check_success result then
     cout MsgResultPartial
   else if raw_communication result then cout MsgResultBasic
   else cout (MsgResultFailed (error_message result))) ;;
  cout (MsgDuration (test_duration_ms result)) ;;
  ret false.

Definition runFullDiagnostic : M unit :=
  cout MsgBanner ;;
  ports <- findSerialPorts ;;
  match ports with
  | [] => cout MsgNoPorts
  | _ =>
      cout (MsgFoundPorts ports) ;;
      for_each ports (fun port first_result =>
        for_each baudrates (fun baudrate first_result =>
          runFullDiagnostic_cell port baudrate first_result) first_result)
        true ;;
      printSummary
  end.

(** *** finalizeLogs *)
Definition log_close : M unit :=
  o <- get log_is_open ;;
  if o then
    emit EvFileClose ;;
    modify (fun s => set_log false (log_file s) s)
  else ret tt.

Definition count_configs (rs : list TestResult) : M (Z * Z) :=
  for_each rs (fun result '(working_configs, partial_configs) =>
    if scan_start_success result then
      ret (working_configs + 1, partial_configs)
    else if device_info_success result || health_check_success result
            || raw_communication result
    then ret (working_configs, partial_configs + 1)
    else ret (working_configs, partial_configs)) (0, 0).

Definition finalizeLogs : M unit :=
  log_put (LTxt (nl +++ "  ]," +++ nl)) ;;
  log_put (LTxt ("  " +++ dq +++ "summary" +++ dq +++ ": {" +++ nl)) ;;
  rs <- get results ;;
  log_put (LTxt ("    " +++ dq +++ "total_tests" +++ dq +++ ": ")) ;;
  log_put (LInt (Z.of_nat (List.length rs))) ;;
  log_put (LTxt ("," +++ nl)) ;;
  '(working_configs, partial_configs) <- count_configs rs ;;
  log_put (LTxt ("    " +++ dq +++ "working_configurations" +++ dq +++ ": ")) ;;
  log_put (LInt working_configs) ;;
  log_put (LTxt ("," +++ nl)) ;;
  log_put (LTxt ("    " +++ dq +++ "partial_configurations" +++ dq +++ ": ")) ;;
  log_put (LInt partial_configs) ;;
  log_put (LTxt nl) ;;
  log_put (LTxt ("  }" +++ nl)) ;;
  log_put (LTxt ("}" +++ nl)) ;;
  log_close.

(** *** The destructor *)
Definition destructor : M unit :=
  closeSerial ;;
  finalizeLogs.

(** *** main.  Before the constructor body runs, [results] is empty, the
    stream is closed and [serial_fd] holds whatever was in memory. *)
Definition fresh_object (fd0 : Z) : State := mkState fd0 false [] [] [].

Definition main (fd0 : Z) : Z * State :=
  (constructor ;;
   runFullDiagnostic ;;
   destructor ;;
   ret 0) (fresh_object fd0).

End Program.

(* ------------------------------------------------------------------ *)
(** ** Reading a history *)

(** The message that announces a cell, and the cells that a history
    announces, in order. *)
Definition is_testing_msg (m : ConsoleMsg) : bool :=
  match m with MsgTesting _ _ => true | _ => false end.

Definition tested (tr : list Event) : list (string * Z) :=
  flat_map (fun e => match e with
                     | EvCout (MsgTesting p b) => [(p, b)]
                     | _ => []
                     end) tr.

Definition not_testing (e : Event) : bool :=
  match e with EvCout m => negb (is_testing_msg m) | _ => true end.

(** The events one probe phase may add: console output other than the
    announcement of a cell, delays, writes and reads.  The three protocol
    probes read into a 256-byte buffer. *)
Definition probe_event (e : Event) : bool :=
  match e with
  | EvCout m => negb (is_testing_msg m)
  | EvSleep _ | EvWrite _ _ _ | EvRead _ _ _ _ => true
  | _ => false
  end.

Definition protocol_event (e : Event) : bool :=
  match e with
  | EvCout m => negb (is_testing_msg m)
  | EvSleep _ | EvWrite _ _ _ => true
  | EvRead _ max_length _ _ => max_length =? 256
  | _ => false
  end.

(** The reads of the scan loop are the ones into the 2048-byte buffer. *)
Definition is_scan_read (e : Event) : bool :=
  match e with
  | EvRead _ max_length _ _ => max_length =? 2048
  | _ => false
  end.

(** The heuristic points of one event: a scan read that received bytes
    counts [floor (bytes / 5)], everything else counts nothing. *)
Definition scan_points (e : Event) : Z :=
  match e with
  | EvRead _ max_length _ r =>
      if max_length =? 2048 then
        let bytes := fst (read_returns max_length r) in
        if 0 <? bytes then bytes / 5 else 0
      else 0
  | _ => 0
  end.

Definition heuristic_total (tr : list Event) : Z :=
  fold_right (fun e acc => scan_points e + acc) 0 tr.

Definition scan_attempts (tr : list Event) : nat :=
  List.length (filter is_scan_read tr).

(** Every scan read of [tr] is issued while the running total, which starts
    at [total], is still at most 10. *)
Fixpoint reads_below_threshold (total : Z) (tr : list Event) : bool :=
  match tr with
  | [] => true
  | e :: tr' =>
      (if is_scan_read e then total <=? 10 else true)
      && reads_below_threshold (total + scan_points e) tr'
  end.

(** What [closeSerial] does to the outside world when [serial_fd] is [fd]. *)
Definition closing (fd : Z) : list Event :=
  if fd =? -1 then [] else [EvClose fd].

(** The history at the moment [testPort] calls [open], and the descriptor
    that this call returns. *)
Definition cell_before (host : Host) (p : string) (b : Z) (s : State)
  : list Event :=
  trace s ++ [EvClock (h_clock host (trace s)); EvCout (MsgTesting p b)]
          ++ closing (serial_fd s).

Definition cell_fd (host : Host) (p : string) (b : Z) (s : State) : Z :=
  h_open host (cell_before host p b s) p.

(** The events that one call of [testPort] adds to the history. *)
Definition cell_events (host : Host) (p : string) (b : Z) (s : State)
  : list Event :=
  skipn (List.length (trace s)) (trace (snd (testPort host p b s))).

(** The value of [openSerial(port, baudrate)] inside [testPort]. *)
Definition open_succeeds (host : Host) (p : string) (b : Z) (s : State)
  : bool :=
  fst (openSerial host p b
         (snd ((start_time <- clock_now host ;; cout (MsgTesting p b)) s))).

(** What the matrix prints as the verdict of a cell. *)
Definition verdict (result : TestResult) : ConsoleMsg :=
  if scan_start_success result then
    MsgResultWorking (scan_points_received result)
  else if device_info_success result || health_check_success result then
    MsgResultPartial
  else if raw_communication result then MsgResultBasic
  else MsgResultFailed (error_message result).

(** The separator that precedes an entry of [test_results]. *)
Definition separator (first_result : bool) : list LogItem :=
  if first_result then [] else [LTxt ("," +++ nl)].

(** Writes and reads on the serial line. *)
Definition is_serial_io (e : Event) : bool :=
  match e with
  | EvWrite _ _ _ | EvRead _ _ _ _ => true
  | _ => false
  end.

(** *** Four concrete hosts *)

(** The bytes of the last command written to the serial line. *)
Definition last_command (tr : list Event) : list byte :=
  fold_left (fun acc e => match e with EvWrite _ data _ => data | _ => acc end)
    tr [].

Definition opcode_is (c : byte) (cmd : list byte) : bool :=
  match cmd with
  | [_; op] => Byte.eqb op c
  | _ => false
  end.

(** A 27-byte GET_INFO answer and a 10-byte GET_HEALTH answer. *)
Definition info_response (serial : byte) : list byte :=
  [xa5; x5a; x14; x00; x00; x00; x04; x18; x01; x1d; x07] ++ repeat serial 16.

Definition health_response : list byte :=
  [xa5; x5a; x03; x00; x00; x00; x06; x00; x00; x00].

(** A device that answers every command; its serial number is 16 copies of
    [serial]. *)
Definition host_lidar (serial : byte) : Host :=
  mkHost
    (fun _ path => String.eqb path "/dev/ttyUSB0")
    (fun _ _ => 3)
    (fun _ _ data => Z.of_nat (List.length data))
    (fun tr _ _ _ =>
       let cmd := last_command tr in
       if opcode_is x40 cmd then ReadBytes [x00; x00; x00; x00]
       else if opcode_is x50 cmd then ReadBytes (info_response serial)
       else if opcode_is x52 cmd then ReadBytes health_response
       else if opcode_is x20 cmd then ReadBytes (repeat x00 25)
       else NotReady)
    (fun tr => Z.of_nat (List.length tr))
    (fun _ => "2024-01-01 12:00:00"%string)
    (fun _ _ => true).

(** A port that opens and accepts writes, with nothing ever to read. *)
Definition host_silent : Host :=
  mkHost
    (fun _ path => String.eqb path "/dev/ttyUSB0")
    (fun _ _ => 3)
    (fun _ _ data => Z.of_nat (List.length data))
    (fun _ _ _ _ => NotReady)
    (fun tr => Z.of_nat (List.length tr))
    (fun _ => "2024-01-01 12:00:00"%string)
    (fun _ _ => true).

(** A port that exists and cannot be opened. *)
Definition host_open_fails : Host :=
  mkHost
    (fun _ path => String.eqb path "/dev/ttyUSB0")
    (fun _ _ => -1)
    (fun _ _ _ => -1)
    (fun _ _ _ _ => NotReady)
    (fun tr => Z.of_nat (List.length tr))
    (fun _ => "2024-01-01 12:00:00"%string)
    (fun _ _ => true).

(** No serial port at all. *)
Definition host_no_ports : Host :=
  mkHost
    (fun _ _ => false)
    (fun _ _ => -1)
    (fun _ _ _ => -1)
    (fun _ _ _ _ => NotReady)
    (fun tr => Z.of_nat (List.length tr))
    (fun _ => "2024-01-01 12:00:00"%string)
    (fun _ _ => true).

(** A device that answers every command, on a machine where the report
    file cannot be opened. *)
Definition host_unwritable : Host :=
  mkHost
    (fun _ path => String.eqb path "/dev/ttyUSB0")
    (fun _ _ => 3)
    (fun _ _ data => Z.of_nat (List.length data))
    (h_read (host_lidar x11))
    (fun tr => Z.of_nat (List.length tr))
    (fun _ => "2024-01-01 12:00:00"%string)
    (fun _ _ => false).

(** The object right after its constructor has run on [host]. *)
Definition constructed (host : Host) : State :=
  snd (constructor host (fresh_object 0)).

(** Whether the report file opens when [main] runs on [host], the time
    stamp that the constructor then takes, and what closing the report adds
    to the history. *)
Definition report_opened (host : Host) : bool :=
  h_file_open host [] log_file_name.

Definition report_time (host : Host) : string :=
  h_localtime host [EvFileOpen log_file_name (report_opened host)].

Definition file_closing (opened : bool) : list Event :=
  if opened then [EvFileClose] else [].

(** The events that a computation adds to the history of [s]. *)
Definition events_of {A} (c : M A) (s : State) : list Event :=
  skipn (List.length (trace s)) (trace (snd (c s))).

(** A response with a valid header: at least [min_bytes] bytes were
    received and the first two are 0xA5, 0x5A. *)
Definition header_ok (min_bytes : Z) (resp : ReadOutcome) : bool :=
  let (bytes, buffer) := read_returns 256 resp in
  (min_bytes <=? bytes)
  && Byte.eqb (at_ buffer 0) xa5 && Byte.eqb (at_ buffer 1) x5a.

(** Some read of the history was answered by a response that satisfies
    [ok]. *)
Definition answered (ok : ReadOutcome -> bool) (ev : list Event) : bool :=
  existsb (fun e => match e with EvRead _ _ _ r => ok r | _ => false end) ev.

Definition is_health_field (e : Event) : bool :=
  match e with
  | EvCout (MsgHealthStatus _) | EvCout (MsgHealthErrorCode _) => true
  | _ => false
  end.

Definition is_info_field (e : Event) : bool :=
  match e with
  | EvCout (MsgModel _) | EvCout (MsgFirmware _ _) | EvCout (MsgHardware _) =>
      true
  | _ => false
  end.

(** Every name that [findSerialPorts] probes, in the order it probes them. *)
Definition candidates : list string :=
  flat_map (fun prefix =>
              map (fun i => prefix +++ to_string i)
                [0; 1; 2; 3; 4; 5; 6; 7; 8; 9]) prefixes.

(** [sub] is [l] with some elements left out. *)
Inductive subseq {A} : list A -> list A -> Prop :=
| subseq_nil : subseq [] []
| subseq_skip x sub l : subseq sub l -> subseq sub (x :: l)
| subseq_take x sub l : subseq sub l -> subseq (x :: sub) (x :: l).

Definition is_access (e : Event) : bool :=
  match e with EvAccess _ _ => true | _ => false end.

Fixpoint remove_first (fd : Z) (l : list Z) : list Z :=
  match l with
  | [] => []
  | x :: l' => if x =? fd then l' else x :: remove_first fd l'
  end.

(** The effect of one event on the set of open serial descriptors: a
    successful [open] adds its descriptor, [close] removes it. *)
Definition fd_step (cur : list Z) (e : Event) : list Z :=
  match e with
  | EvOpen _ fd => if fd =? -1 then cur else fd :: cur
  | EvClose fd => remove_first fd cur
  | _ => cur
  end.

(** The serial descriptors that are open at the end of a history. *)
Definition open_fds (tr : list Event) : list Z := fold_left fd_step tr [].

(** Starting with [cur] open, at most one descriptor is open before and
    after every event of [tr]. *)
Fixpoint fds_ok (cur : list Z) (tr : list Event) : bool :=
  (List.length cur <=? 1)%nat
  && match tr with
     | [] => true
     | e :: tr' => fds_ok (fd_step cur e) tr'
     end.

(** The descriptors that the object holds when its field is [fd]. *)
Definition held (fd : Z) : list Z := if fd =? -1 then [] else [fd].

Definition is_open_close (e : Event) : bool :=
  match e with EvOpen _ _ | EvClose _ => true | _ => false end.

(** The cells of the matrix, in the order in which the loops visit them. *)
Definition cells (ports : list string) : list (string * Z) :=
  flat_map (fun p => map (pair p) baudrates) ports.

Definition cell_of (r : TestResult) : string * Z := (port r, baudrate r).

(** The entries of [test_results] as the loop writes them, separators
    included. *)
Fixpoint entries (first_result : bool) (rs : list TestResult)
  : list LogItem :=
  match rs with
  | [] => []
  | r :: rs' => separator first_result ++ json_of_result r ++ entries false rs'
  end.

(** What every result of [testPort] looks like. *)
Definition result_wf (r : TestResult) : Prop :=
  test_duration_ms r <> None
  /\ (error_message r = EmptyString
      \/ error_message r = "Failed to open serial port"%string).

Definition is_file_event (e : Event) : bool :=
  match e with EvFileOpen _ _ | EvFileClose => true | _ => false end.

(** The loops of [runFullDiagnostic], over any list of cells. *)
Definition matrix_loop (host : Host) (cs : list (string * Z))
    (first_result : bool) : M bool :=
  for_each cs (fun c first_result =>
                 runFullDiagnostic_cell host (fst c) (snd c) first_result)
    first_result.

(** The counts of the summary, as sets of results. *)
Definition is_working (r : TestResult) : bool := scan_start_success r.

Definition is_partial (r : TestResult) : bool :=
  negb (scan_start_success r)
  && (device_info_success r || health_check_success r || raw_communication r).

Definition working_count (rs : list TestResult) : Z :=
  Z.of_nat (List.length (filter is_working rs)).

Definition partial_count (rs : list TestResult) : Z :=
  Z.of_nat (List.length (filter is_partial rs)).

(** The head of the document, up to the opening bracket of [test_results]. *)
Definition report_header (timestamp : string) : list LogItem :=
  [ LTxt ("{" +++ nl +++ "  " +++ dq +++ "timestamp" +++ dq +++ ": " +++ dq);
    LTxt timestamp;
    LTxt (dq +++ "," +++ nl);
    LTxt ("  " +++ dq +++ "test_results" +++ dq +++ ": [" +++ nl) ].

(** The closing bracket of [test_results] and the summary object. *)
Definition summary_block (total working partial : Z) : list LogItem :=
  [ LTxt (nl +++ "  ]," +++ nl);
    LTxt ("  " +++ dq +++ "summary" +++ dq +++ ": {" +++ nl);
    LTxt ("    " +++ dq +++ "total_tests" +++ dq +++ ": ");
    LInt total; LTxt ("," +++ nl);
    LTxt ("    " +++ dq +++ "working_configurations" +++ dq +++ ": ");
    LInt working; LTxt ("," +++ nl);
    LTxt ("    " +++ dq +++ "partial_configurations" +++ dq +++ ": ");
    LInt partial; LTxt nl;
    LTxt ("  }" +++ nl);
    LTxt ("}" +++ nl) ].

(** The integer that follows the key [key] of the summary. *)
Fixpoint summary_field (key : string) (items : list LogItem) : option Z :=
  match items with
  | LTxt t :: ((LInt z :: _) as rest) =>
      if String.eqb t ("    " +++ dq +++ key +++ dq +++ ": ") then Some z
      else summary_field key rest
  | _ :: rest => summary_field key rest
  | [] => None
  end.

(** The whole document for a timestamp and a sequence of results. *)
Definition report (timestamp : string) (rs : list TestResult)
  : list LogItem :=
  report_header timestamp ++ entries true rs
    ++ summary_block (Z.of_nat (List.length rs)) (working_count rs)
         (partial_count rs).

(** Console output other than the announcement of a cell. *)
Definition is_cout (e : Event) : bool :=
  match e with EvCout m => negb (is_testing_msg m) | _ => false end.

(** The ports that discovery returns when [main] runs on [host]. *)
Definition discovered (host : Host) : list string :=
  fst (findSerialPorts host
         (snd (cout MsgBanner (constructed host)))).

Definition cell_eq_dec (x y : string * Z) : {x = y} + {x <> y}.
Proof. decide equality; [apply Z.eq_dec | apply string_dec]. Defined.

(** The events by which the program touches a serial port. *)
Definition is_port_event (e : Event) : bool :=
  match e with
  | EvOpen _ _ | EvConfigure _ _ | EvClose _ | EvWrite _ _ _
  | EvRead _ _ _ _ => true
  | _ => false
  end.

Definition is_file_close (e : Event) : bool :=
  match e with EvFileClose => true | _ => false end.

(** A state with three results on record: one working, one partial, one
    that failed to open. *)
Definition three_results : State :=
  mkState (-1) true []
    [ mkTestResult "/dev/ttyUSB0" 115200 true true true true 15 EmptyString
        (Some 36);
      mkTestResult "/dev/ttyUSB0" 256000 true false false false 0 EmptyString
        (Some 70);
      mkTestResult "/dev/ttyUSB1" 115200 false false false false 0
        "Failed to open serial port" (Some 3) ]
    [].

(** The console output of a history. *)
Definition console (tr : list Event) : list ConsoleMsg :=
  flat_map (fun e => match e with EvCout m => [m] | _ => [] end) tr.

(** The 16 bytes that follow model, firmware and hardware version in a
    device-info response. *)
Definition serial_number (response : list byte) : list byte :=
  firstn 16 (skipn 11 response).

(** The characters of the report.  A number that the stream formats (an
    integer, or a [double] in fixed notation) is one atom; an uninitialised
    [double] is an atom that is no number. *)
Inductive jchar :=
| JC (c : ascii)
| JNumber
| JIndeterminate.

Definition txt (s : string) : list jchar := map JC (list_ascii_of_string s).

Definition jchars_of (i : LogItem) : list jchar :=
  match i with
  | LTxt s => txt s
  | LInt _ => [JNumber]
  | LDbl (Some _) => [JNumber]
  | LDbl None => [JIndeterminate]
  end.

Definition document_text (log : list LogItem) : list jchar :=
  flat_map jchars_of log.

Definition is_ws (c : jchar) : bool :=
  match c with
  | JC c => (c =? " ")%char || (c =? "010")%char || (c =? "013")%char
            || (c =? "009")%char
  | _ => false
  end.

Fixpoint skip_ws (l : list jchar) : list jchar :=
  match l with
  | c :: l' => if is_ws c then skip_ws l' else l
  | [] => []
  end.

(** Characters that may stand unescaped inside a JSON string: printable
    ASCII without the double quote and the backslash. *)
Definition safe_char (c : ascii) : bool :=
  let n := nat_of_ascii c in
  (32 <=? n)%nat && (n <? 127)%nat && negb (n =? 34)%nat
  && negb (n =? 92)%nat.

Definition safe_text (s : string) : bool :=
  forallb safe_char (list_ascii_of_string s).

Definition quote : jchar := JC "034".

(** The JSON grammar of RFC 8259, without escapes inside strings and with
    numbers as atoms.  [json_value l rest]: [l] starts with a value and
    [rest] is what follows it. *)
Inductive json_value : list jchar -> list jchar -> Prop :=
| json_number rest : json_value (JNumber :: rest) rest
| json_true rest : json_value (txt "true" ++ rest) rest
| json_false rest : json_value (txt "false" ++ rest) rest
| json_null rest : json_value (txt "null" ++ rest) rest
| json_string s rest :
    safe_text s = true -> json_value (quote :: txt s ++ quote :: rest) rest
| json_empty_array l rest :
    skip_ws l = JC "]" :: rest -> json_value (JC "[" :: l) rest
| json_array l rest :
    json_elements l (JC "]" :: rest) -> json_value (JC "[" :: l) rest
| json_empty_object l rest :
    skip_ws l = JC "}" :: rest -> json_value (JC "{" :: l) rest
| json_object l rest :
    json_members l (JC "}" :: rest) -> json_value (JC "{" :: l) rest
with json_elements : list jchar -> list jchar -> Prop :=
| json_last_element l l1 rest :
    json_value (skip_ws l) l1 -> skip_ws l1 = rest -> json_elements l rest
| json_next_element l l1 l2 rest :
    json_value (skip_ws l) l1 -> skip_ws l1 = JC "," :: l2 ->
    json_elements l2 rest -> json_elements l rest
with json_members : list jchar -> list jchar -> Prop :=
| json_last_member l key l1 l2 l3 rest :
    skip_ws l = quote :: txt key ++ quote :: l1 -> safe_text key = true ->
    skip_ws l1 = JC ":" :: l2 -> json_value (skip_ws l2) l3 ->
    skip_ws l3 = rest -> json_members l rest
| json_next_member l key l1 l2 l3 l4 rest :
    skip_ws l = quote :: txt key ++ quote :: l1 -> safe_text key = true ->
    skip_ws l1 = JC ":" :: l2 -> json_value (skip_ws l2) l3 ->
    skip_ws l3 = JC "," :: l4 -> json_members l4 rest ->
    json_members l rest.

(** A JSON document: one value, with white space around it. *)
Definition json_document (l : list jchar) : Prop :=
  exists l1, json_value (skip_ws l) l1 /\ skip_ws l1 = [].

(** A result whose strings can be written between quotes as they are and
    whose duration has been assigned. *)
Definition result_safe (r : TestResult) : Prop :=
  safe_text (port r) = true /\ safe_text (error_message r) = true
  /\ test_duration_ms r <> None.

(* ------------------------------------------------------------------ *)
(** ** Further readings of a history *)

(** The commands written to the serial line, the paths handed to [open] and
    the answers of [access], each in the order of the history. *)
Definition written (tr : list Event) : list (list byte) :=
  flat_map (fun e => match e with EvWrite _ data _ => [data] | _ => [] end) tr.

Definition opened (tr : list Event) : list string :=
  flat_map (fun e => match e with EvOpen p _ => [p] | _ => [] end) tr.

Definition accessed (tr : list Event) : list (string * bool) :=
  flat_map (fun e => match e with
                     | EvAccess p found => [(p, found)]
                     | _ => []
                     end) tr.

Definition access_event (a : string * bool) : Event :=
  EvAccess (fst a) (snd a).

(** The names for which [access] answered yes. *)
Definition found_of (evs : list Event) : list string :=
  map fst (filter snd (accessed evs)).

(** The messages that the four probes of [testPort] print. *)
Definition is_phase_msg (m : ConsoleMsg) : bool :=
  match m with
  | MsgRawTesting | MsgRawOk _ | MsgRawNoResponse
  | MsgInfoTesting | MsgInfoOk _ | MsgModel _ | MsgFirmware _ _
  | MsgHardware _ | MsgInfoBadHeader _ _ | MsgInfoInsufficient _
  | MsgHealthTesting | MsgHealthOk | MsgHealthStatus _
  | MsgHealthErrorCode _ | MsgHealthBadHeader | MsgHealthFailed _
  | MsgScanTesting | MsgScanRead _ _ | MsgScanNoData _ | MsgScanOk _
  | MsgScanNone => true
  | _ => false
  end.

(** What a probe may do while the object holds descriptor [fd]: print one
    of its messages, sleep, write to [fd], read from [fd]. *)
Definition phase_event (fd : Z) (e : Event) : bool :=
  match e with
  | EvCout m => is_phase_msg m
  | EvSleep _ => true
  | EvWrite f _ _ => f =? fd
  | EvRead f _ _ _ => f =? fd
  | _ => false
  end.

(** The longest time, in milliseconds, that an event lets the program wait
    on purpose: the length of a sleep, the time-out handed to [select]. *)
Definition waiting (e : Event) : Z :=
  match e with
  | EvSleep ms => ms
  | EvRead _ _ timeout_ms _ => timeout_ms
  | _ => 0
  end.

Definition waiting_total (tr : list Event) : Z :=
  fold_right (fun e acc => waiting e + acc) 0 tr.

(** Every use of a serial descriptor in [tr] (configure, write, read,
    close) is on a descriptor that is open at that moment, [cur] being the
    descriptors open at the start. *)
Fixpoint uses_open (cur : list Z) (tr : list Event) : bool :=
  match tr with
  | [] => true
  | e :: tr' =>
      match e with
      | EvConfigure fd _ | EvClose fd | EvWrite fd _ _ | EvRead fd _ _ _ =>
          existsb (Z.eqb fd) cur
      | _ => true
      end && uses_open (fd_step cur e) tr'
  end.

(** The result with which [testPort] starts, and the object at the moment
    the probes of a cell that opened start. *)
Definition initial_result (p : string) (b : Z) : TestResult :=
  mkTestResult p b false false false false 0 EmptyString None.

Definition cell_opened (host : Host) (p : string) (b : Z) (s : State)
  : State :=
  set_serial_fd (cell_fd host p b s)
    (set_trace
       (cell_before host p b s
          ++ [EvOpen p (cell_fd host p b s);
              EvConfigure (cell_fd host p b s) (speed_of_baudrate b)]) s).

(** The four probes of a cell that opened, one after the other: the result
    and the object after each. *)
Definition after_raw (host : Host) (p : string) (b : Z) (s : State)
  : TestResult * State :=
  testPort_raw host (initial_result p b) (cell_opened host p b s).

Definition after_info (host : Host) (p : string) (b : Z) (s : State)
  : TestResult * State :=
  testPort_info host (fst (after_raw host p b s)) (snd (after_raw host p b s)).

Definition after_health (host : Host) (p : string) (b : Z) (s : State)
  : TestResult * State :=
  testPort_health host (fst (after_info host p b s))
    (snd (after_info host p b s)).

Definition after_scan (host : Host) (p : string) (b : Z) (s : State)
  : TestResult * State :=
  testPort_scan host (fst (after_health host p b s))
    (snd (after_health host p b s)).

(** The events of each of the four probes of a cell. *)
Definition raw_events (host : Host) (p : string) (b : Z) (s : State)
  : list Event :=
  events_of (testPort_raw host (initial_result p b)) (cell_opened host p b s).

Definition info_events (host : Host) (p : string) (b : Z) (s : State)
  : list Event :=
  events_of (testPort_info host (fst (after_raw host p b s)))
    (snd (after_raw host p b s)).

Definition health_events (host : Host) (p : string) (b : Z) (s : State)
  : list Event :=
  events_of (testPort_health host (fst (after_info host p b s)))
    (snd (after_info host p b s)).

Definition scan_events (host : Host) (p : string) (b : Z) (s : State)
  : list Event :=
  events_of (testPort_scan host (fst (after_health host p b s)))
    (snd (after_health host p b s)).

(** What each of the three protocol probes does before it looks at the
    answer: it prints its announcement and writes its command, and when the
    write took both bytes it waits 100 ms and makes one read into the
    256-byte buffer.  [n] is what the write returned and [resp] what the
    read met. *)
Definition exchange (fd : Z) (announce : ConsoleMsg) (cmd : list byte)
    (n timeout_ms : Z) (resp : ReadOutcome) : list Event :=
  [EvCout announce; EvWrite fd cmd n]
    ++ (if n =? 2 then [EvSleep 100; EvRead fd 256 timeout_ms resp] else []).

(** What the host returns to the write of a probe that starts in [s], and
    what it lets the read of this probe meet. *)
Definition command_answer (host : Host) (s : State) (announce : ConsoleMsg)
    (cmd : list byte) : Z :=
  h_write host (trace s ++ [EvCout announce]) (serial_fd s) cmd.

Definition read_answer (host : Host) (s : State) (announce : ConsoleMsg)
    (cmd : list byte) (timeout_ms : Z) : ReadOutcome :=
  h_read host
    (trace s ++ [EvCout announce;
                 EvWrite (serial_fd s) cmd
                   (command_answer host s announce cmd);
                 EvSleep 100])
    (serial_fd s) 256 timeout_ms.

(** A read that delivered at least one byte into the 256-byte buffer. *)
Definition any_bytes (resp : ReadOutcome) : bool :=
  0 <? fst (read_returns 256 resp).

(** A device that takes what it is sent and sends nothing: every [write]
    returns the length of the command, and no [read] returns a positive
    count. *)
Definition mute (e : Event) : bool :=
  match e with
  | EvWrite _ data n => n =? Z.of_nat (List.length data)
  | EvRead _ max_length _ resp => fst (read_returns max_length resp) <=? 0
  | _ => true
  end.

(** A port that takes no command: no [write] returns the length of the
    command. *)
Definition refusing (e : Event) : bool :=
  match e with
  | EvWrite _ data n => negb (n =? Z.of_nat (List.length data))
  | _ => true
  end.

(** A port that opens and takes no write. *)
Definition host_refusing : Host :=
  mkHost
    (fun _ path => String.eqb path "/dev/ttyUSB0")
    (fun _ _ => 3)
    (fun _ _ _ => -1)
    (fun _ _ _ _ => NotReady)
    (fun tr => Z.of_nat (List.length tr))
    (fun _ => "2024-01-01 12:00:00"%string)
    (fun _ _ => true).

(** The bit rate that a [speed_t] constant stands for. *)
Definition baud_of_speed (speed : speed_t) : Z :=
  match speed with
  | B115200 => 115200
  | B230400 => 230400
  | B460800 => 460800
  | B921600 => 921600
  | B256000 => 256000
  end.

Definition is_configure (e : Event) : bool :=
  match e with EvConfigure _ _ => true | _ => false end.

Definition is_clock (e : Event) : bool :=
  match e with EvClock _ => true | _ => false end.

(** What [printSummary] prints for the recorded results: the first result
    whose scan started, or else one line for every result with one of the
    three other outcomes. *)
Definition any_outcome (r : TestResult) : bool :=
  device_info_success r || health_check_success r || raw_communication r.

Definition working_line (r : TestResult) : ConsoleMsg :=
  MsgWorkingFound (port r) (baudrate r) (scan_points_received r).

Definition partial_line (r : TestResult) : ConsoleMsg :=
  MsgPartialLine (port r) (baudrate r) (device_info_success r)
    (health_check_success r) (raw_communication r).

Definition summary_console (rs : list TestResult) : list ConsoleMsg :=
  MsgSummaryBanner
    :: match find scan_start_success rs with
       | Some r => [working_line r]
       | None => MsgNoWorking :: map partial_line (filter any_outcome rs)
       end
    ++ [MsgSaved].

Definition is_no_working (m : ConsoleMsg) : bool :=
  match m with MsgNoWorking => true | _ => false end.

Definition is_working_line (m : ConsoleMsg) : bool :=
  match m with MsgWorkingFound _ _ _ => true | _ => false end.

Definition is_partial_line (m : ConsoleMsg) : bool :=
  match m with MsgPartialLine _ _ _ _ _ => true | _ => false end.

(** No result recorded yet. *)
Definition no_results (rs : list TestResult) : bool :=
  match rs with [] => true | _ => false end.

(** The events that one iteration of the inner loop of [runFullDiagnostic]
    adds when it starts in [s]: the events of the cell, then the verdict
    and the duration on the console. *)
Definition cell_block (host : Host) (c : string * Z) (s : State)
  : list Event :=
  let r := fst (testPort host (fst c) (snd c) s) in
  cell_events host (fst c) (snd c) s
    ++ [EvCout (verdict r); EvCout (MsgDuration (test_duration_ms r))].

(** [rb] is the result and the block of cell [c], run from some state in
    which the object holds no descriptor. *)
Definition is_cell_of (host : Host) (c : string * Z)
    (rb : TestResult * list Event) : Prop :=
  exists s : State,
    serial_fd s = -1
    /\ fst rb = fst (testPort host (fst c) (snd c) s)
    /\ snd rb = cell_block host c s.

(** The verdicts that a history prints, in order. *)
Definition is_verdict (m : ConsoleMsg) : bool :=
  match m with
  | MsgResultWorking _ | MsgResultPartial | MsgResultBasic
  | MsgResultFailed _ => true
  | _ => false
  end.

Definition verdicts (tr : list Event) : list ConsoleMsg :=
  filter is_verdict (console tr).

Definition is_working_verdict (m : ConsoleMsg) : bool :=
  match m with MsgResultWorking _ => true | _ => false end.

Definition is_partial_verdict (m : ConsoleMsg) : bool :=
  match m with MsgResultPartial | MsgResultBasic => true | _ => false end.

Definition is_failed_verdict (m : ConsoleMsg) : bool :=
  match m with MsgResultFailed _ => true | _ => false end.

(** Events that neither touch a serial port nor wait. *)
Definition off_line (e : Event) : bool :=
  match e with
  | EvOpen _ _ | EvConfigure _ _ | EvClose _ | EvWrite _ _ _
  | EvRead _ _ _ _ | EvSleep _ => false
  | _ => true
  end.

(* ------------------------------------------------------------------ *)
(** ** Properties *)

Ltac unfold_prims :=
  unfold writeData, readData, sys_write, sys_read, sys_open, sys_access,
    clock_now, getCurrentTimeString, cout, sleep_for, emit, log_put,
    modify, get, bind, ret.

Ltac case_step :=
  match goal with
  | |- context [match ?x with _ => _ end] =>
      lazymatch x with
      | context [match _ with _ => _ end] => fail
      | _ => destruct x eqn:?
      end
  end.

Lemma set_trace_twice (tr tr' : list Event) (s : State) :
  set_trace tr' (set_trace tr s) = set_trace tr' s.
Proof. reflexivity. Qed.

Lemma set_trace_same (s : State) : set_trace (trace s) s = s.
Proof. now destruct s. Qed.

Ltac norm_state :=
  cbn [snd fst trace set_trace serial_fd set_serial_fd log_is_open log_file
       set_log results set_results];
  rewrite ?set_trace_twice;
  repeat first [rewrite <- !app_assoc | progress cbn [app]].

Section HistoryFacts.

Lemma skipn_length_app {A} (l d : list A) : skipn (List.length l) (l ++ d) = d.
Proof. induction l; cbn; auto. Qed.

Lemma heuristic_total_app (a b : list Event) :
  heuristic_total (a ++ b) = heuristic_total a + heuristic_total b.
Proof.
  induction a as [|e a IH]; cbn [app heuristic_total fold_right] in *.
  - reflexivity.
  - fold (heuristic_total (a ++ b)). fold (heuristic_total a).
    rewrite IH. lia.
Qed.

Lemma scan_attempts_app (a b : list Event) :
  scan_attempts (a ++ b) = (scan_attempts a + scan_attempts b)%nat.
Proof. unfold scan_attempts. now rewrite filter_app, length_app. Qed.

Lemma reads_below_threshold_app (a b : list Event) : forall total,
  reads_below_threshold total (a ++ b)
  = reads_below_threshold total a
    && reads_below_threshold (total + heuristic_total a) b.
Proof.
  induction a as [|e a IH]; intros total; cbn [app reads_below_threshold].
  - cbn. now rewrite Z.add_0_r.
  - rewrite IH. cbn [heuristic_total fold_right].
    fold (heuristic_total a).
    rewrite Z.add_assoc. now rewrite andb_assoc.
Qed.

(** The prefix reading of [reads_below_threshold]. *)
Lemma reads_below_threshold_prefix (tr : list Event) : forall total,
  reads_below_threshold total tr = true ->
  forall pre e suf, tr = pre ++ e :: suf -> is_scan_read e = true ->
  total + heuristic_total pre <= 10.
Proof.
  intros total H pre e suf -> He.
  rewrite reads_below_threshold_app in H.
  apply andb_prop in H as [_ H]. cbn [reads_below_threshold] in H.
  rewrite He in H. apply andb_prop in H as [H _]. lia.
Qed.

Lemma no_scan_reads (d : list Event) :
  forallb (fun e => negb (is_scan_read e)) d = true ->
  heuristic_total d = 0 /\ scan_attempts d = 0%nat
  /\ forall total, reads_below_threshold total d = true.
Proof.
  induction d as [|e d IH]; intros H.
  - repeat split.
  - cbn [forallb] in H. apply andb_prop in H as [He Hd].
    destruct (IH Hd) as (I1 & I2 & I3).
    assert (Hs : scan_points e = 0 /\ is_scan_read e = false).
    { destruct e; cbn in *; try discriminate; auto.
      destruct (max_length =? 2048); [discriminate | auto]. }
    destruct Hs as [Hs1 Hs2].
    unfold scan_attempts in *. cbn [heuristic_total fold_right filter].
    fold (heuristic_total d). rewrite Hs1, Hs2, I1, I2.
    repeat split. intros total. cbn [reads_below_threshold].
    rewrite Hs2, Hs1, I3. reflexivity.
Qed.

Lemma protocol_no_scan (d : list Event) :
  forallb protocol_event d = true ->
  heuristic_total d = 0 /\ scan_attempts d = 0%nat
  /\ forall total, reads_below_threshold total d = true.
Proof.
  intros H. apply no_scan_reads.
  induction d as [|e d IH]; [reflexivity|].
  cbn [forallb] in *. apply andb_prop in H as [He Hd].
  rewrite (IH Hd), andb_true_r.
  destruct e; cbn in *; try discriminate; auto.
  apply Z.eqb_eq in He. now subst.
Qed.

Lemma protocol_is_probe (d : list Event) :
  forallb protocol_event d = true -> forallb probe_event d = true.
Proof.
  induction d as [|e d IH]; cbn [forallb]; intros H; [reflexivity|].
  apply andb_prop in H as [He Hd]. rewrite (IH Hd), andb_true_r.
  destruct e; cbn in *; auto.
Qed.

End HistoryFacts.

(** ** The probe phases: each adds protocol events and touches nothing but
    its own field of the result *)
Section Probes.

Variable host : Host.

Ltac phase_cases :=
  unfold_prims; cbn [trace set_trace serial_fd];
  repeat case_step; norm_state.

Lemma testPort_raw_run (result : TestResult) (s : State) :
  exists (ok : bool) (delta : list Event),
    testPort_raw host result s
    = (if ok then set_raw_communication true result else result,
       set_trace (trace s ++ delta) s)
    /\ forallb protocol_event delta = true.
Proof.
  unfold testPort_raw. phase_cases;
    try (exists true; eexists; split; [reflexivity | reflexivity]);
    (exists false; eexists; split; [reflexivity | reflexivity]).
Qed.

Lemma testPort_info_run (result : TestResult) (s : State) :
  exists (ok : bool) (delta : list Event),
    testPort_info host result s
    = (if ok then set_device_info_success true result else result,
       set_trace (trace s ++ delta) s)
    /\ forallb protocol_event delta = true.
Proof.
  unfold testPort_info. phase_cases;
    try (exists true; eexists; split; [reflexivity | reflexivity]);
    (exists false; eexists; split; [reflexivity | reflexivity]).
Qed.

Lemma testPort_health_run (result : TestResult) (s : State) :
  exists (ok : bool) (delta : list Event),
    testPort_health host result s
    = (if ok then set_health_check_success true result else result,
       set_trace (trace s ++ delta) s)
    /\ forallb protocol_event delta = true.
Proof.
  unfold testPort_health. phase_cases;
    try (exists true; eexists; split; [reflexivity | reflexivity]);
    (exists false; eexists; split; [reflexivity | reflexivity]).
Qed.

Lemma testPort_stop_run (s : State) :
  testPort_stop host s
  = (tt, set_trace
           (trace s ++ [EvWrite (serial_fd s) stop_cmd
                          (h_write host (trace s) (serial_fd s) stop_cmd);
                        EvSleep 100]) s).
Proof. unfold testPort_stop. unfold_prims. norm_state. reflexivity. Qed.

(** The scan loop. *)
Lemma scan_loop_run (remaining : nat) : forall (attempts total : Z) (s : State),
  exists (ok : bool) (total' : Z) (delta : list Event),
    scan_loop host remaining attempts total s
    = ((ok, total'), set_trace (trace s ++ delta) s)
    /\ forallb probe_event delta = true
    /\ total' = total + heuristic_total delta
    /\ (scan_attempts delta <= remaining)%nat
    /\ (ok = false -> scan_attempts delta = remaining)
    /\ (total <= 10 ->
        (if ok then 10 < total' else total' <= 10)
        /\ reads_below_threshold total delta = true).
Proof.
  induction remaining as [|n IH]; intros attempts total s.
  - exists false, total, []. cbn [scan_loop]. unfold ret.
    rewrite app_nil_r. destruct s; cbn.
    repeat split; lia.
  - cbn [scan_loop]. unfold_prims. cbn [trace set_trace serial_fd].
    set (r := h_read host (trace s) (serial_fd s) 2048 200).
    set (ev := EvRead (serial_fd s) 2048 200 r).
    assert (Hpts : scan_points ev
                   = if 0 <? fst (read_returns 2048 r)
                     then fst (read_returns 2048 r) / 5 else 0)
      by reflexivity.
    assert (His : is_scan_read ev = true) by reflexivity.
    assert (Hpe : probe_event ev = true) by reflexivity.
    destruct (read_returns 2048 r) as [bytes buffer] eqn:Hr.
    cbn [fst] in Hpts.
    destruct (bytes >? 0) eqn:Hb.
    + assert (Hq : Z.quot bytes 5 = bytes / 5)
        by (apply Z.quot_div_nonneg; lia).
      assert (H0 : (0 <? bytes) = true) by lia.
      rewrite H0 in Hpts. rewrite Hq.
      destruct (total + bytes / 5 >? 10) eqn:Ht.
      * exists true, (total + bytes / 5),
          [ev; EvCout (MsgScanRead bytes (bytes / 5))].
        norm_state. split; [reflexivity|]. clearbody ev.
        unfold scan_attempts.
        cbn [forallb heuristic_total fold_right filter
             reads_below_threshold].
        rewrite Hpts, His, Hpe. cbn.
        repeat split; try lia; try discriminate.
      * destruct (IH (attempts + 1) (total + bytes / 5)
                    (set_trace (trace s ++
                       [ev; EvCout (MsgScanRead bytes (bytes / 5));
                        EvSleep 100]) s))
          as (ok & total' & delta & Hrun & Hp & Htot & Hn & Hex & Hth).
        exists ok, total',
          ([ev; EvCout (MsgScanRead bytes (bytes / 5)); EvSleep 100]
             ++ delta).
        norm_state. cbn [trace set_trace] in Hrun.
        rewrite <- !app_assoc in Hrun. cbn [app] in Hrun.
        rewrite Hrun. split; [reflexivity|]. clearbody ev.
        change (ev :: EvCout (MsgScanRead bytes (bytes / 5))
                   :: EvSleep 100 :: delta)
          with ([ev; EvCout (MsgScanRead bytes (bytes / 5));
                 EvSleep 100] ++ delta).
        rewrite forallb_app, heuristic_total_app, scan_attempts_app,
          reads_below_threshold_app, Hp.
        unfold scan_attempts in *.
        cbn [forallb heuristic_total fold_right filter
             reads_below_threshold].
        rewrite Hpts, His, Hpe. cbn.
        rewrite !Z.add_0_r.
        repeat split; try lia.
        -- intros E. specialize (Hex E). lia.
        -- destruct Hth as [Hth _]; [lia|]. destruct ok; lia.
        -- destruct Hth as [_ Hth]; [lia|]. rewrite Hth. lia.
    + assert (H0 : (0 <? bytes) = false) by lia.
      rewrite H0 in Hpts.
      destruct (IH (attempts + 1) total
                  (set_trace (trace s ++
                     [ev; EvCout (MsgScanNoData (attempts + 1));
                      EvSleep 100]) s))
        as (ok & total' & delta & Hrun & Hp & Htot & Hn & Hex & Hth).
      exists ok, total',
        ([ev; EvCout (MsgScanNoData (attempts + 1)); EvSleep 100] ++ delta).
      norm_state. cbn [trace set_trace] in Hrun.
      rewrite <- !app_assoc in Hrun. cbn [app] in Hrun.
      rewrite Hrun. split; [reflexivity|]. clearbody ev.
      change (ev :: EvCout (MsgScanNoData (attempts + 1))
                 :: EvSleep 100 :: delta)
        with ([ev; EvCout (MsgScanNoData (attempts + 1)); EvSleep 100]
                ++ delta).
      rewrite forallb_app, heuristic_total_app, scan_attempts_app,
        reads_below_threshold_app, Hp.
      unfold scan_attempts in *.
      cbn [forallb heuristic_total fold_right filter
           reads_below_threshold].
      rewrite Hpts, His, Hpe. cbn.
      rewrite !Z.add_0_r.
      repeat split; try lia.
      * intros E. specialize (Hex E). lia.
      * destruct Hth as [Hth _]; [lia|]. destruct ok; lia.
      * destruct Hth as [_ Hth]; [lia|]. rewrite Hth. lia.
Qed.

End Probes.

(** ** One cell of the matrix *)
Section Cell.

Variable host : Host.

Lemma bind_run {A B} (c : M A) (k : A -> M B) (s s' : State) (a : A) :
  c s = (a, s') -> bind c k s = k a s'.
Proof. unfold bind. now intros ->. Qed.

Lemma closeSerial_run (s : State) :
  closeSerial s
  = (tt, set_serial_fd (-1)
           (set_trace (trace s ++ closing (serial_fd s)) s)).
Proof.
  unfold closeSerial, closing. unfold_prims.
  destruct (serial_fd s =? -1) eqn:E; cbn [negb].
  - apply Z.eqb_eq in E. rewrite app_nil_r.
    destruct s; cbn in *. now subst.
  - reflexivity.
Qed.

Lemma openSerial_run (p : string) (b : Z) (s : State) :
  let before := trace s ++ closing (serial_fd s) in
  let fd := h_open host before p in
  openSerial host p b s
  = (negb (fd =? -1),
     set_serial_fd fd
       (set_trace
          (before ++ EvOpen p fd
             :: (if fd =? -1 then []
                 else [EvConfigure fd (speed_of_baudrate b)])) s)).
Proof.
  cbn zeta. unfold openSerial.
  rewrite (bind_run _ _ _ _ _ (closeSerial_run s)).
  unfold_prims. cbn [trace set_trace set_serial_fd serial_fd].
  destruct (h_open host (trace s ++ closing (serial_fd s)) p =? -1);
    norm_state; reflexivity.
Qed.

Lemma testPort_scan_run (result : TestResult) (s : State) :
  exists (r' : TestResult) (ok : bool) (total : Z) (delta : list Event),
    testPort_scan host result s = (r', set_trace (trace s ++ delta) s)
    /\ (r' = result /\ ok = false /\ total = 0
        \/ r' = set_scan_points_received total
                  (if ok then set_scan_start_success true result else result))
    /\ forallb probe_event delta = true
    /\ total = heuristic_total delta
    /\ (scan_attempts delta <= 20)%nat
    /\ (ok = false ->
        scan_attempts delta = 20%nat \/ scan_attempts delta = 0%nat)
    /\ (if ok then 10 < total else total <= 10)
    /\ reads_below_threshold 0 delta = true.
Proof.
  unfold testPort_scan.
  unfold bind at 1. unfold cout, emit, modify.
  unfold bind at 1. unfold writeData at 1.
  unfold bind at 1. unfold get. unfold bind at 1. unfold sys_write, ret at 1.
  cbn [trace set_trace serial_fd].
  set (n := h_write host _ _ _).
  destruct (n =? Z.of_nat (List.length scan_cmd)) eqn:Hw.
  - unfold bind at 1. unfold sleep_for, emit, modify. norm_state.
    destruct (scan_loop_run host (Z.to_nat max_attempts) 0 0
                (set_trace (trace s ++
                   [EvCout MsgScanTesting; EvWrite (serial_fd s) scan_cmd n;
                    EvSleep 500]) s))
      as (ok & total & delta & Hrun & Hp & Htot & Hn & Hex & Hth).
    rewrite (bind_run _ _ _ _ _ Hrun). norm_state.
    set (r' := set_scan_points_received total
                 (if ok then set_scan_start_success true result else result)).
    exists r', ok, total,
      ([EvCout MsgScanTesting; EvWrite (serial_fd s) scan_cmd n; EvSleep 500]
         ++ delta
         ++ [EvCout (if scan_start_success r' then MsgScanOk total
                     else MsgScanNone)]).
    destruct Hth as [Hth1 Hth2]; [lia|].
    rewrite !forallb_app, !heuristic_total_app, !scan_attempts_app,
      !reads_below_threshold_app, Hp.
    change (Z.to_nat max_attempts) with 20%nat in Hn, Hex.
    change (heuristic_total
              [EvCout MsgScanTesting; EvWrite (serial_fd s) scan_cmd n;
               EvSleep 500]) with 0.
    cbn [Z.add] in *. rewrite Hth2.
    unfold scan_attempts in *.
    split.
    + destruct (scan_start_success r'); unfold_prims; norm_state;
        reflexivity.
    + split; [right; reflexivity|].
      cbn. repeat split; try lia; try exact Hth1.
      * now destruct (scan_start_success _).
      * intros E. left. specialize (Hex E). lia.
  - unfold ret. norm_state.
    exists result, false, 0,
      [EvCout MsgScanTesting; EvWrite (serial_fd s) scan_cmd n].
    split; [reflexivity|]. split; [left; auto|].
    unfold scan_attempts. cbn. repeat split; try lia; now right.
Qed.

(** Everything [testPort] does, for every host: the open attempt and then
    either the early return or the four probes, STOP, close. *)
Ltac open_cell t0 before fd :=
  unfold testPort;
  unfold bind at 1; unfold clock_now at 1;
  unfold bind at 1; unfold cout at 1, emit, modify;
  cbn [trace set_trace];
  erewrite bind_run by apply openSerial_run;
  cbn [trace set_trace serial_fd]; rewrite <- !app_assoc; cbn [app];
  fold t0 before fd.

Lemma testPort_run_failed (p : string) (b : Z) (s : State) :
  cell_fd host p b s = -1 ->
  exists t1 : Z,
    testPort host p b s
    = (mkTestResult p b false false false false 0
         "Failed to open serial port"
         (Some (t1 - h_clock host (trace s))),
       set_serial_fd (-1)
         (set_trace (cell_before host p b s ++ [EvOpen p (-1); EvClock t1])
            s)).
Proof.
  unfold cell_fd, cell_before. cbn [app].
  set (t0 := h_clock host (trace s)).
  set (before := trace s ++ EvClock t0 :: EvCout (MsgTesting p b)
                         :: closing (serial_fd s)).
  set (fd := h_open host before p).
  intros E. open_cell t0 before fd.
  rewrite E. rewrite Z.eqb_refl. cbn [negb]. unfold_prims. norm_state.
  eexists. subst before. rewrite <- ?app_assoc. cbn [app].
  rewrite <- ?app_assoc. cbn [app]. reflexivity.
Qed.

Lemma testPort_run_opened (p : string) (b : Z) (s : State) :
  let fd := cell_fd host p b s in
  fd <> -1 ->
  exists (t1 : Z) (raw info health scan_ok : bool) (total n : Z)
         (probes : list Event),
    testPort host p b s
    = (mkTestResult p b raw info health scan_ok total EmptyString
         (Some (t1 - h_clock host (trace s))),
       set_serial_fd (-1)
         (set_trace
            (cell_before host p b s
               ++ [EvOpen p fd; EvConfigure fd (speed_of_baudrate b)]
               ++ probes
               ++ [EvWrite fd stop_cmd n; EvSleep 100; EvClose fd;
                   EvClock t1]) s))
    /\ forallb probe_event probes = true
    /\ total = heuristic_total probes
    /\ (scan_attempts probes <= 20)%nat
    /\ (scan_ok = false ->
        scan_attempts probes = 20%nat \/ scan_attempts probes = 0%nat)
    /\ (if scan_ok then 10 < total else total <= 10)
    /\ reads_below_threshold 0 probes = true.
Proof.
  unfold cell_fd, cell_before. cbn [app].
  set (t0 := h_clock host (trace s)).
  set (before := trace s ++ EvClock t0 :: EvCout (MsgTesting p b)
                         :: closing (serial_fd s)).
  set (fd := h_open host before p).
  cbn zeta. intros E. open_cell t0 before fd.
  assert (Hfd : (fd =? -1) = false) by lia.
  rewrite Hfd. cbn [negb].
  set (s1 := set_serial_fd fd (set_trace _ _)).
  destruct (testPort_raw_run host
              (mkTestResult p b false false false false 0 EmptyString None)
              s1) as (b1 & d1 & H1 & P1).
  rewrite (bind_run _ _ _ _ _ H1). clear H1.
  match goal with |- context [bind (testPort_info host ?r) _ ?st] =>
    destruct (testPort_info_run host r st) as (b2 & d2 & H2 & P2) end.
  rewrite (bind_run _ _ _ _ _ H2). clear H2.
  match goal with |- context [bind (testPort_health host ?r) _ ?st] =>
    destruct (testPort_health_run host r st) as (b3 & d3 & H3 & P3) end.
  rewrite (bind_run _ _ _ _ _ H3). clear H3.
  match goal with |- context [bind (testPort_scan host ?r) _ ?st] =>
    destruct (testPort_scan_run r st)
      as (r4 & ok & total & d4 & H4 & Hr4 & P4 & Htot & Hn & Hex & Hth
          & Hrd) end.
  rewrite (bind_run _ _ _ _ _ H4). clear H4.
  erewrite bind_run by apply testPort_stop_run.
  erewrite bind_run by apply closeSerial_run.
  unfold clock_now, bind, ret. subst s1. norm_state.
  assert (Hc : closing fd = [EvClose fd])
    by (unfold closing; now rewrite Hfd).
  rewrite !Hc. clear Hc.
  destruct (protocol_no_scan d1 P1) as (A1 & A2 & A3).
  destruct (protocol_no_scan d2 P2) as (B1 & B2 & B3).
  destruct (protocol_no_scan d3 P3) as (C1 & C2 & C3).
  eexists.
  exists b1, b2, b3, ok, total.
  eexists. exists (d1 ++ d2 ++ d3 ++ d4).
  rewrite !forallb_app, !heuristic_total_app, !scan_attempts_app,
    !reads_below_threshold_app, A1, A2, A3, B1, B2, B3, C1, C2, C3,
    (protocol_is_probe _ P1), (protocol_is_probe _ P2),
    (protocol_is_probe _ P3), P4.
  cbn [Z.add Nat.add andb]. rewrite Hrd.
  split; [|repeat split; auto].
  subst before. rewrite <- !app_assoc. cbn [app].
  rewrite <- ?app_assoc. cbn [app].
  f_equal; cycle 1.
  { reflexivity. }
  destruct Hr4 as [(-> & -> & ->) | ->];
    destruct b1, b2, b3; try destruct ok; reflexivity.
Qed.

(** A cell that opened runs the four phases one after the other; the
    flags of its result are the ones the device-info and the health phase
    set, and the events of these phases are consecutive stretches of the
    events of the cell. *)
Lemma testPort_phases (p : string) (b : Z) (s : State) :
  cell_fd host p b s <> -1 ->
  exists (r1 : TestResult) (s2 : State) (pre post : list Event),
    let r2 := fst (testPort_info host r1 s2) in
    let s3 := snd (testPort_info host r1 s2) in
    serial_fd s2 = cell_fd host p b s
    /\ serial_fd s3 = cell_fd host p b s
    /\ device_info_success r1 = false
    /\ health_check_success r2 = false
    /\ trace (snd (testPort host p b s))
       = trace s2 ++ events_of (testPort_info host r1) s2
           ++ events_of (testPort_health host r2) s3 ++ post
    /\ trace s2 = trace s ++ pre
    /\ device_info_success (fst (testPort host p b s))
       = device_info_success r2
    /\ health_check_success (fst (testPort host p b s))
       = health_check_success (fst (testPort_health host r2 s3)).
Proof.
  unfold cell_fd, cell_before. cbn [app].
  set (t0 := h_clock host (trace s)).
  set (before := trace s ++ EvClock t0 :: EvCout (MsgTesting p b)
                         :: closing (serial_fd s)).
  set (fd := h_open host before p).
  intros E.
  destruct (testPort host p b s) as [R S] eqn:Hrun. revert Hrun.
  open_cell t0 before fd.
  assert (Hfd : (fd =? -1) = false) by lia.
  rewrite Hfd. cbn [negb].
  set (s1 := set_serial_fd fd (set_trace _ _)).
  destruct (testPort_raw_run host
              (mkTestResult p b false false false false 0 EmptyString None)
              s1) as (b1 & d1 & H1 & P1).
  rewrite (bind_run _ _ _ _ _ H1). clear H1.
  set (r1 := if b1 then _ else _).
  set (s2 := set_trace (trace s1 ++ d1) s1).
  destruct (testPort_info_run host r1 s2) as (b2 & d2 & H2 & P2).
  rewrite (bind_run _ _ _ _ _ H2).
  set (r2 := if b2 then _ else _) in *.
  set (s3 := set_trace (trace s2 ++ d2) s2) in *.
  destruct (testPort_health_run host r2 s3) as (b3 & d3 & H3 & P3).
  rewrite (bind_run _ _ _ _ _ H3).
  set (r3 := if b3 then _ else _) in *.
  set (s4 := set_trace (trace s3 ++ d3) s3) in *.
  destruct (testPort_scan_run r3 s4)
    as (r4 & ok & total & d4 & H4 & Hr4 & _).
  rewrite (bind_run _ _ _ _ _ H4). clear H4.
  erewrite bind_run by apply testPort_stop_run.
  erewrite bind_run by apply closeSerial_run.
  unfold clock_now, bind, ret. intros Hrun.
  apply (f_equal fst) in Hrun as HR. apply (f_equal snd) in Hrun as HS.
  cbn [fst snd] in HR, HS. clear Hrun. subst R S.
  exists r1, s2.
  eexists (EvClock t0 :: EvCout (MsgTesting p b)
             :: closing (serial_fd s)
             ++ EvOpen p fd :: EvConfigure fd (speed_of_baudrate b) :: d1).
  eexists.
  cbn zeta. unfold events_of. rewrite H2. cbn [fst snd]. rewrite H3.
  cbn [fst snd].
  assert (Ht3 : trace s3 = trace s2 ++ d2) by reflexivity.
  assert (Ht4 : trace s4 = trace s3 ++ d3) by reflexivity.
  rewrite Ht4, Ht3, !skipn_length_app.
  split; [reflexivity|]. split; [reflexivity|].
  split; [subst r1; now destruct b1|].
  split; [subst r2 r1; now destruct b1, b2|].
  split.
  { cbn [trace set_trace set_serial_fd].
    rewrite <- !app_assoc. reflexivity. }
  split.
  { subst s2 s1 before. cbn [trace set_trace set_serial_fd].
    repeat first [rewrite <- !app_assoc | progress cbn [app]].
    reflexivity. }
  split.
  - destruct Hr4 as [(-> & _) | ->]; subst r3 r2 r1;
      destruct b1, b2, b3; try destruct ok; reflexivity.
  - destruct Hr4 as [(-> & _) | ->]; subst r3 r2 r1;
      destruct b1, b2, b3; try destruct ok; reflexivity.
Qed.

End Cell.

Section CellEvents.

Variable host : Host.

Lemma cell_events_failed (p : string) (b : Z) (s : State) :
  cell_fd host p b s = -1 ->
  exists t1 : Z,
    fst (testPort host p b s)
    = mkTestResult p b false false false false 0
        "Failed to open serial port" (Some (t1 - h_clock host (trace s)))
    /\ cell_events host p b s
       = [EvClock (h_clock host (trace s)); EvCout (MsgTesting p b)]
           ++ closing (serial_fd s) ++ [EvOpen p (-1); EvClock t1].
Proof.
  intros E. destruct (testPort_run_failed host p b s E) as (t1 & H).
  exists t1. unfold cell_events. rewrite H. cbn [fst snd].
  split; [reflexivity|].
  unfold cell_before. norm_state. apply skipn_length_app.
Qed.

Lemma cell_events_opened (p : string) (b : Z) (s : State) :
  let fd := cell_fd host p b s in
  fd <> -1 ->
  exists (t1 : Z) (raw info health scan_ok : bool) (total n : Z)
         (probes : list Event),
    fst (testPort host p b s)
    = mkTestResult p b raw info health scan_ok total EmptyString
        (Some (t1 - h_clock host (trace s)))
    /\ cell_events host p b s
       = [EvClock (h_clock host (trace s)); EvCout (MsgTesting p b)]
           ++ closing (serial_fd s)
           ++ [EvOpen p fd; EvConfigure fd (speed_of_baudrate b)]
           ++ probes
           ++ [EvWrite fd stop_cmd n; EvSleep 100; EvClose fd; EvClock t1]
    /\ forallb probe_event probes = true
    /\ total = heuristic_total probes
    /\ (scan_attempts probes <= 20)%nat
    /\ (scan_ok = false ->
        scan_attempts probes = 20%nat \/ scan_attempts probes = 0%nat)
    /\ (if scan_ok then 10 < total else total <= 10)
    /\ reads_below_threshold 0 probes = true.
Proof.
  cbn zeta. intros E.
  destruct (testPort_run_opened host p b s E)
    as (t1 & raw & info & health & ok & total & n & probes & H & R).
  exists t1, raw, info, health, ok, total, n, probes.
  unfold cell_events. rewrite H. cbn [fst snd]. split; [reflexivity|].
  split; [|exact R].
  unfold cell_before. norm_state. apply skipn_length_app.
Qed.

Lemma closing_no_scan (fd : Z) :
  forallb (fun e => negb (is_scan_read e)) (closing fd) = true.
Proof. unfold closing. now destruct (fd =? -1). Qed.

(** C3.  In every cell: a successful scan has more than 10 heuristic points,
    a failed one at most 10; the recorded count is the sum of
    [floor (bytes / 5)] over the scan reads that received bytes; there are at
    most 20 scan reads; no scan read is issued once the running total has
    exceeded 10; and a scan that fails after its START_SCAN was accepted has
    used all 20 attempts. *)
Theorem scan_points_threshold (p : string) (b : Z) (s : State) :
  let r := fst (testPort host p b s) in
  let ev := cell_events host p b s in
  (scan_start_success r = true -> 10 < scan_points_received r)
  /\ (scan_start_success r = false -> scan_points_received r <= 10)
  /\ scan_points_received r = heuristic_total ev
  /\ (scan_attempts ev <= 20)%nat
  /\ (forall pre e suf, ev = pre ++ e :: suf -> is_scan_read e = true ->
      heuristic_total pre <= 10)
  /\ (scan_start_success r = false ->
      scan_attempts ev = 20%nat \/ scan_attempts ev = 0%nat).
Proof.
  cbn zeta.
  destruct (no_scan_reads _ (closing_no_scan (serial_fd s)))
    as (K1 & K2 & K3).
  set (hd := [EvClock (h_clock host (trace s)); EvCout (MsgTesting p b)]).
  destruct (no_scan_reads hd eq_refl) as (A1 & A2 & A3).
  destruct (Z.eq_dec (cell_fd host p b s) (-1)) as [E|E].
  - destruct (cell_events_failed p b s E) as (t1 & -> & ->). fold hd.
    cbn [scan_start_success scan_points_received].
    set (tl := [EvOpen p (-1); EvClock t1]).
    destruct (no_scan_reads tl eq_refl) as (B1 & B2 & B3).
    assert (Hrd : reads_below_threshold 0
                    (hd ++ closing (serial_fd s) ++ tl) = true).
    { now rewrite !reads_below_threshold_app, A3, K3, B3. }
    rewrite !heuristic_total_app, !scan_attempts_app, A1, A2, K1, K2, B1, B2.
    repeat split; try discriminate; try lia.
    intros pre e suf Hd He.
    apply (reads_below_threshold_prefix _ 0 Hrd pre e suf Hd He).
  - destruct (cell_events_opened p b s E)
      as (t1 & raw & info & health & ok & total & n & probes & -> & ->
          & Hp & Htot & Hn & Hex & Hth & Hrd). fold hd.
    cbn [scan_start_success scan_points_received].
    set (op := [EvOpen p (cell_fd host p b s);
                EvConfigure (cell_fd host p b s) (speed_of_baudrate b)]).
    set (tl := [EvWrite (cell_fd host p b s) stop_cmd n; EvSleep 100;
                EvClose (cell_fd host p b s); EvClock t1]).
    destruct (no_scan_reads op eq_refl) as (B1 & B2 & B3).
    destruct (no_scan_reads tl eq_refl) as (C1 & C2 & C3).
    assert (Hrd' : reads_below_threshold 0
                     (hd ++ closing (serial_fd s) ++ op ++ probes ++ tl)
                   = true).
    { rewrite !reads_below_threshold_app, A3, K3, B3, C3, A1, K1, B1.
      cbn [Z.add]. now rewrite Hrd. }
    rewrite !heuristic_total_app, !scan_attempts_app,
      A1, A2, K1, K2, B1, B2, C1, C2.
    repeat split.
    + intros ->. exact Hth.
    + intros ->. exact Hth.
    + lia.
    + lia.
    + intros pre e suf Hd He.
      apply (reads_below_threshold_prefix _ 0 Hrd' pre e suf Hd He).
    + intros Hk. destruct (Hex Hk); [left|right]; lia.
Qed.

End CellEvents.

Section Matrix.

Variable host : Host.

Lemma open_succeeds_fd (p : string) (b : Z) (s : State) :
  open_succeeds host p b s = negb (cell_fd host p b s =? -1).
Proof.
  unfold open_succeeds, cell_fd, cell_before.
  rewrite openSerial_run. cbn [fst]. unfold_prims. norm_state. reflexivity.
Qed.

Lemma testPort_state (p : string) (b : Z) (s : State) :
  snd (testPort host p b s)
  = set_serial_fd (-1) (set_trace (trace s ++ cell_events host p b s) s).
Proof.
  unfold cell_events.
  destruct (Z.eq_dec (cell_fd host p b s) (-1)) as [E|E].
  - destruct (testPort_run_failed host p b s E) as (t1 & ->).
    unfold cell_before. norm_state. now rewrite skipn_length_app.
  - destruct (testPort_run_opened host p b s E)
      as (t1 & raw & info & health & ok & total & n & probes & -> & _).
    unfold cell_before. norm_state. now rewrite skipn_length_app.
Qed.

Lemma log_puts_run (items : list LogItem) : forall s : State,
  log_puts items s
  = (tt, if log_is_open s then set_log true (log_file s ++ items) s else s).
Proof.
  unfold log_puts.
  induction items as [|i items IH]; intros s; cbn [for_each].
  - unfold ret. rewrite app_nil_r. destruct s as [fd o l rs tr].
    now destruct o.
  - unfold bind at 1. unfold log_put at 1, modify.
    rewrite IH. destruct (log_is_open s) eqn:O.
    + cbn [log_is_open set_log log_file serial_fd results trace].
      now rewrite <- app_assoc.
    + now rewrite O.
Qed.

(** One iteration of the inner loop of [runFullDiagnostic]. *)
Lemma runFullDiagnostic_cell_run (p : string) (b : Z) (first : bool)
    (s : State) :
  let r := fst (testPort host p b s) in
  runFullDiagnostic_cell host p b first s
  = (false,
     mkState (-1) (log_is_open s)
       (if log_is_open s
        then log_file s ++ separator first ++ json_of_result r
        else log_file s)
       (results s ++ [r])
       (trace s ++ cell_events host p b s
          ++ [EvCout (verdict r); EvCout (MsgDuration (test_duration_ms r))])).
Proof.
  cbn zeta. unfold runFullDiagnostic_cell.
  unfold bind at 1.
  destruct (testPort host p b s) as [r s1] eqn:Hrun.
  assert (Hs1 : s1 = set_serial_fd (-1)
                       (set_trace (trace s ++ cell_events host p b s) s))
    by (rewrite <- testPort_state, Hrun; reflexivity).
  cbn [fst]. unfold bind at 1. unfold modify at 1.
  unfold bind at 1.
  assert (Hsep : forall st : State,
            (if negb first then log_put (LTxt ("," +++ nl)) else ret tt) st
            = log_puts (separator first) st).
  { intros st. destruct first; reflexivity. }
  rewrite Hsep, log_puts_run.
  unfold bind at 1. unfold writeResultToJson. rewrite log_puts_run.
  assert (Hv : forall st : State,
            (if scan_start_success r
             then cout (MsgResultWorking (scan_points_received r))
             else if device_info_success r || health_check_success r
                  then cout MsgResultPartial
                  else if raw_communication r then cout MsgResultBasic
                       else cout (MsgResultFailed (error_message r))) st
            = cout (verdict r) st).
  { intros st. unfold verdict.
    destruct (scan_start_success r),
      (device_info_success r || health_check_success r),
      (raw_communication r); reflexivity. }
  unfold bind at 1. rewrite Hv.
  unfold_prims. subst s1. clear Hrun Hsep Hv.
  generalize (cell_events host p b s). intros ev.
  destruct s as [fd o l rs tr]. destruct o; norm_state; reflexivity.
Qed.

(** C6.  When the open of a cell fails, the result carries the message, all
    four outcomes are false, no point is counted, the duration is the
    difference of the two clock readings of the cell, nothing is written to or
    read from the serial line, and the loop goes on with the next cell. *)
Theorem open_failure_short_circuits (p : string) (b : Z) (s : State) :
  open_succeeds host p b s = false ->
  let r := fst (testPort host p b s) in
  let ev := cell_events host p b s in
  error_message r = "Failed to open serial port"%string
  /\ error_message r <> EmptyString
  /\ raw_communication r = false
  /\ device_info_success r = false
  /\ health_check_success r = false
  /\ scan_start_success r = false
  /\ scan_points_received r = 0
  /\ (exists t1 : Z,
        test_duration_ms r = Some (t1 - h_clock host (trace s))
        /\ ev = [EvClock (h_clock host (trace s)); EvCout (MsgTesting p b)]
                 ++ closing (serial_fd s) ++ [EvOpen p (-1); EvClock t1])
  /\ forallb (fun e => negb (is_serial_io e)) ev = true
  /\ (forall (first : bool) (bs : list Z),
        for_each (b :: bs) (runFullDiagnostic_cell host p) first s
        = for_each bs (runFullDiagnostic_cell host p) false
            (snd (runFullDiagnostic_cell host p b first s))
        /\ results (snd (runFullDiagnostic_cell host p b first s))
           = results s ++ [r]).
Proof.
  rewrite open_succeeds_fd. intros H. cbn zeta.
  assert (E : cell_fd host p b s = -1).
  { destruct (cell_fd host p b s =? -1) eqn:K; [lia | discriminate]. }
  destruct (cell_events_failed host p b s E) as (t1 & Hr & Hev).
  rewrite Hr, Hev. cbn [error_message raw_communication device_info_success
    health_check_success scan_start_success scan_points_received
    test_duration_ms].
  repeat split; try discriminate.
  - exists t1. split; reflexivity.
  - rewrite !forallb_app. unfold closing.
    destruct (serial_fd s =? -1); reflexivity.
  - cbn [for_each]. unfold bind.
    rewrite runFullDiagnostic_cell_run. reflexivity.
  - rewrite runFullDiagnostic_cell_run. cbn [snd results].
    now rewrite Hr.
Qed.

(** C8.  In every cell whose port opens, whatever the scan probe met, the
    last things the cell does are: write STOP (0xA5 0x25) to the opened
    descriptor, wait 100 ms, close, read the clock. *)
Theorem stop_sent_on_every_exit (p : string) (b : Z) (s : State) :
  open_succeeds host p b s = true ->
  let fd := cell_fd host p b s in
  exists (until_stop : list Event) (n t1 : Z),
    cell_events host p b s
    = until_stop
        ++ [EvWrite fd stop_cmd n; EvSleep 100; EvClose fd; EvClock t1]
    /\ stop_cmd = [xa5; x25]
    /\ In (EvOpen p fd) until_stop
    /\ scan_attempts until_stop = scan_attempts (cell_events host p b s).
Proof.
  rewrite open_succeeds_fd. intros H. cbn zeta.
  assert (E : cell_fd host p b s <> -1).
  { destruct (cell_fd host p b s =? -1) eqn:K; [discriminate | lia]. }
  destruct (cell_events_opened host p b s E)
    as (t1 & raw & info & health & ok & total & n & probes & _ & Hev & _).
  exists ([EvClock (h_clock host (trace s)); EvCout (MsgTesting p b)]
            ++ closing (serial_fd s)
            ++ [EvOpen p (cell_fd host p b s);
                EvConfigure (cell_fd host p b s) (speed_of_baudrate b)]
            ++ probes), n, t1.
  rewrite Hev. repeat split.
  - now rewrite <- !app_assoc.
  - apply in_or_app. right. apply in_or_app. right. now left.
  - rewrite !scan_attempts_app. cbn. lia.
Qed.

(** C10.  The error message of a result is non-empty exactly when the open
    failed, and then it is the one fixed string; whatever happens in the
    probes of a cell that opened, the message stays empty. *)
Theorem error_message_only_from_open (p : string) (b : Z) (s : State) :
  let r := fst (testPort host p b s) in
  (error_message r <> EmptyString <-> open_succeeds host p b s = false)
  /\ (open_succeeds host p b s = false ->
      error_message r = "Failed to open serial port"%string)
  /\ (open_succeeds host p b s = true -> error_message r = EmptyString).
Proof.
  cbn zeta. rewrite open_succeeds_fd.
  destruct (Z.eq_dec (cell_fd host p b s) (-1)) as [E|E].
  - destruct (cell_events_failed host p b s E) as (t1 & -> & _).
    rewrite E. cbn. repeat split; auto; discriminate.
  - destruct (cell_events_opened host p b s E)
      as (t1 & raw & info & health & ok & total & n & probes & -> & _).
    assert (K : (cell_fd host p b s =? -1) = false) by lia.
    rewrite K. cbn. repeat split; auto; try discriminate.
    intros C. now contradiction C.
Qed.

End Matrix.

Lemma open_failure_short_circuits_witness :
  open_succeeds host_open_fails "/dev/ttyUSB0" 115200
    (constructed host_open_fails) = false
  /\ error_message
       (fst (testPort host_open_fails "/dev/ttyUSB0" 115200
               (constructed host_open_fails)))
     = "Failed to open serial port"%string.
Proof.
  split; [reflexivity|].
  apply (open_failure_short_circuits host_open_fails "/dev/ttyUSB0" 115200
           (constructed host_open_fails)).
  reflexivity.
Defined.

Lemma stop_sent_on_every_exit_witness :
  open_succeeds host_silent "/dev/ttyUSB0" 115200 (constructed host_silent)
  = true
  /\ exists (until_stop : list Event) (n t1 : Z),
       cell_events host_silent "/dev/ttyUSB0" 115200 (constructed host_silent)
       = until_stop
           ++ [EvWrite 3 stop_cmd n; EvSleep 100; EvClose 3; EvClock t1].
Proof.
  split; [reflexivity|].
  destruct (stop_sent_on_every_exit host_silent "/dev/ttyUSB0" 115200
              (constructed host_silent) eq_refl)
    as (u & n & t1 & H & _).
  exists u, n, t1. exact H.
Defined.

Section Bytes.

Lemma u8_range (b : byte) : 0 <= u8 b < 256.
Proof. unfold u8. pose proof (Byte.to_N_bounded b). lia. Qed.

Lemma u8_is_a5 (b : byte) : (u8 b =? 165) = Byte.eqb b xa5.
Proof. destruct b; reflexivity. Qed.

Lemma u8_is_5a (b : byte) : (u8 b =? 90) = Byte.eqb b x5a.
Proof. destruct b; reflexivity. Qed.

Lemma lor_shiftl_low (hi lo : Z) :
  0 <= lo < 256 -> Z.lor (Z.shiftl hi 8) lo = lo + 256 * hi.
Proof.
  intros Hlo.
  assert (H0 : Z.land (Z.shiftl hi 8) lo = 0).
  { apply Z.bits_inj'. intros n Hn.
    rewrite Z.land_spec, Z.bits_0.
    destruct (Z.ltb_spec n 8).
    - now rewrite Z.shiftl_spec_low by lia.
    - replace lo with (lo mod 2 ^ 8) by (apply Z.mod_small; lia).
      rewrite Z.mod_pow2_bits_high by lia. apply andb_false_r. }
  pose proof (Z.add_lor_land (Z.shiftl hi 8) lo) as H.
  rewrite H0, Z.shiftl_mul_pow2 in H by lia.
  rewrite Z.shiftl_mul_pow2 by lia.
  change (2 ^ 8) with 256 in *. lia.
Qed.

(** The error code is little-endian: byte 8 is the low-order byte. *)
Lemma health_error_code_little_endian (buffer : list byte) :
  health_error_code buffer
  = u8 (at_ buffer 8) + 256 * u8 (at_ buffer 9).
Proof.
  unfold health_error_code.
  pose proof (u8_range (at_ buffer 8)). pose proof (u8_range (at_ buffer 9)).
  rewrite lor_shiftl_low by lia. apply Z.mod_small. lia.
Qed.

End Bytes.

Ltac pick_read :=
  let Hin := fresh "Hin" in
  intros ? ? ? ? Hin; cbn [In] in Hin;
  repeat (destruct Hin as [Hin|Hin];
          [inversion Hin; subst; clear Hin | ]);
  try contradiction.

Section ProtocolClaims.

Variable host : Host.

Lemma read_returns_length (m : Z) (resp : ReadOutcome) :
  fst (read_returns m resp)
  <= Z.of_nat (List.length (snd (read_returns m resp))).
Proof. destruct resp; cbn; lia. Qed.

(** The health phase, from any state and with any result so far. *)
Lemma health_phase_run (result : TestResult) (s : State) :
  let r' := fst (testPort_health host result s) in
  let ev := events_of (testPort_health host result) s in
  r' = (if answered (header_ok 10) ev
        then set_health_check_success true result else result)
  /\ (forall fd m t resp, In (EvRead fd m t resp) ev ->
      fd = serial_fd s /\ m = 256 /\ t = 1000)
  /\ (forall fd m t resp, In (EvRead fd m t resp) ev ->
      header_ok 10 resp = true ->
      let buffer := snd (read_returns 256 resp) in
      (10 <= List.length buffer)%nat
      /\ In (EvCout (MsgHealthStatus (u8 (at_ buffer 7)))) ev
      /\ In (EvCout (MsgHealthErrorCode
                      (u8 (at_ buffer 8) + 256 * u8 (at_ buffer 9)))) ev)
  /\ (answered (header_ok 10) ev = false ->
      forallb (fun e => negb (is_health_field e)) ev = true).
Proof.
  cbn zeta. unfold events_of, testPort_health. unfold_prims.
  cbn [trace set_trace serial_fd].
  set (n := h_write host _ _ _).
  destruct (n =? Z.of_nat (List.length health_cmd)) eqn:Hn.
  - set (resp := h_read host _ _ _ _).
    pose proof (read_returns_length 256 resp) as Hlen.
    assert (Hok : header_ok 10 resp
                  = let (bytes, buffer) := read_returns 256 resp in
                    (10 <=? bytes) && Byte.eqb (at_ buffer 0) xa5
                    && Byte.eqb (at_ buffer 1) x5a) by reflexivity.
    destruct (read_returns 256 resp) as [bytes buffer] eqn:Hr.
    cbn [fst snd] in Hlen.
    rewrite u8_is_a5, u8_is_5a, health_error_code_little_endian.
    replace (bytes >=? 10) with (10 <=? bytes) by lia.
    rewrite <- andb_assoc in Hok.
    destruct (10 <=? bytes) eqn:Hb; cbn [andb] in Hok;
      [destruct (Byte.eqb (at_ buffer 0) xa5 && Byte.eqb (at_ buffer 1) x5a)
         eqn:Hh|];
      norm_state; rewrite skipn_length_app;
      unfold answered; cbn [existsb]; rewrite Hok, ?orb_false_r;
      cbn [orb]; (split; [reflexivity|]);
      (split; [pick_read; auto|]);
      (split; [pick_read; intros K; try congruence
              | try discriminate; try reflexivity]).
    cbn zeta. rewrite Hr. cbn [snd In]. split; [lia|]. auto 10.
  - norm_state. rewrite skipn_length_app.
    split; [reflexivity|]. split; [pick_read|].
    split; [pick_read | reflexivity].
Qed.

(** The device-info phase, from any state and with any result so far. *)
Lemma info_phase_run (result : TestResult) (s : State) :
  let r' := fst (testPort_info host result s) in
  let ev := events_of (testPort_info host result) s in
  r' = (if answered (header_ok 7) ev
        then set_device_info_success true result else result)
  /\ (forall fd m t resp, In (EvRead fd m t resp) ev ->
      fd = serial_fd s /\ m = 256 /\ t = 1000)
  /\ (forall fd m t resp, In (EvRead fd m t resp) ev ->
      header_ok 7 resp = true ->
      let bytes := fst (read_returns 256 resp) in
      let buffer := snd (read_returns 256 resp) in
      (20 <= bytes ->
       (20 <= List.length buffer)%nat
       /\ In (EvCout (MsgModel (u8 (at_ buffer 7)))) ev
       /\ In (EvCout (MsgFirmware (u8 (at_ buffer 8)) (u8 (at_ buffer 9)))) ev
       /\ In (EvCout (MsgHardware (u8 (at_ buffer 10)))) ev)
      /\ (bytes < 20 ->
          forallb (fun e => negb (is_info_field e)) ev = true))
  /\ (answered (header_ok 7) ev = false ->
      forallb (fun e => negb (is_info_field e)) ev = true)
  /\ (forall fd m t resp, In (EvRead fd m t resp) ev ->
      let bytes := fst (read_returns 256 resp) in
      let buffer := snd (read_returns 256 resp) in
      forall msg, In (EvCout msg) ev ->
      In msg [MsgInfoTesting; MsgInfoOk bytes;
              MsgModel (u8 (at_ buffer 7));
              MsgFirmware (u8 (at_ buffer 8)) (u8 (at_ buffer 9));
              MsgHardware (u8 (at_ buffer 10));
              MsgInfoBadHeader (u8 (at_ buffer 0)) (u8 (at_ buffer 1));
              MsgInfoInsufficient bytes]).
Proof.
  cbn zeta. unfold events_of, testPort_info. unfold_prims.
  cbn [trace set_trace serial_fd].
  set (n := h_write host _ _ _).
  destruct (n =? Z.of_nat (List.length info_cmd)) eqn:Hn.
  - set (resp := h_read host _ _ _ _).
    pose proof (read_returns_length 256 resp) as Hlen.
    assert (Hok : header_ok 7 resp
                  = let (bytes, buffer) := read_returns 256 resp in
                    (7 <=? bytes) && Byte.eqb (at_ buffer 0) xa5
                    && Byte.eqb (at_ buffer 1) x5a) by reflexivity.
    destruct (read_returns 256 resp) as [bytes buffer] eqn:Hr.
    cbn [fst snd] in Hlen.
    rewrite u8_is_a5, u8_is_5a.
    replace (bytes >=? 7) with (7 <=? bytes) by lia.
    rewrite <- andb_assoc in Hok.
    destruct (7 <=? bytes) eqn:Hb; cbn [andb] in Hok;
      [destruct (Byte.eqb (at_ buffer 0) xa5 && Byte.eqb (at_ buffer 1) x5a)
         eqn:Hh; [destruct (bytes >=? 20) eqn:H20|]|];
      norm_state; rewrite skipn_length_app;
      unfold answered; cbn [existsb]; rewrite Hok, ?orb_false_r;
      cbn [orb]; (split; [reflexivity|]);
      (split; [pick_read; auto|]);
      (split; [pick_read; intros K; try congruence
              | split; [try discriminate; try reflexivity
                       | pick_read; cbn zeta; rewrite Hr; cbn [fst snd];
                         intros msg Hm; cbn [In] in Hm |- *;
                         repeat (destruct Hm as [Hm|Hm];
                                 [inversion Hm; subst; auto 10 | ]);
                         contradiction]]).
    + cbn zeta. rewrite Hr. cbn [fst snd In].
      split; [intros _; split; [lia | auto 12] | lia].
    + cbn zeta. rewrite Hr. cbn [fst snd In].
      split; [lia | reflexivity].
  - norm_state. rewrite skipn_length_app.
    split; [reflexivity|]. split; [pick_read|].
    split; [pick_read|]. split; [reflexivity | pick_read].
Qed.

End ProtocolClaims.

(** ** Discovery *)

Section Discovery.

Variable host : Host.

Lemma for_each_cons {A S} (x : A) (l : list A) (body : A -> S -> M S)
    (acc : S) :
  for_each (x :: l) body acc
  = (acc' <- body x acc ;; for_each l body acc').
Proof. reflexivity. Qed.

Lemma subseq_In {A} (sub l : list A) (x : A) :
  subseq sub l -> In x sub -> In x l.
Proof.
  induction 1; intros Hin; cbn in *; auto.
  destruct Hin; auto.
Qed.

Lemma subseq_NoDup {A} (sub l : list A) :
  subseq sub l -> NoDup l -> NoDup sub.
Proof.
  induction 1; intros Hnd; auto.
  - inversion Hnd; auto.
  - inversion Hnd; subst. constructor; auto.
    intros Hin. eauto using subseq_In.
Qed.

Lemma subseq_app {A} (s1 l1 s2 l2 : list A) :
  subseq s1 l1 -> subseq s2 l2 -> subseq (s1 ++ s2) (l1 ++ l2).
Proof. induction 1; intros H2; cbn; auto using @subseq. Qed.

Lemma subseq_length {A} (sub l : list A) :
  subseq sub l -> (List.length sub <= List.length l)%nat.
Proof. induction 1; cbn; lia. Qed.

(** The inner loop of [findSerialPorts], over any list of indices. *)
Lemma findSerialPorts_inner (prefix : string) (idx : list Z) :
  forall (ports : list string) (s : State),
  exists (found : list string) (evs : list Event),
    for_each idx (findSerialPorts_try host prefix) ports s
    = (ports ++ found, set_trace (trace s ++ evs) s)
    /\ subseq found (map (fun i => prefix +++ to_string i) idx)
    /\ forallb is_access evs = true.
Proof.
  induction idx as [|i idx IH]; intros ports s; cbn [for_each].
  - exists [], []. unfold ret. rewrite !app_nil_r, set_trace_same.
    repeat split. constructor.
  - unfold bind at 1. unfold findSerialPorts_try at 1.
    unfold bind at 1. unfold sys_access at 1.
    destruct (h_access host (trace s) (prefix +++ to_string i)) eqn:Hf;
      unfold ret at 1;
      match goal with |- context [for_each idx _ ?acc ?st] =>
        destruct (IH acc st) as (found & evs & -> & Hsub & Hev) end.
    + exists ((prefix +++ to_string i) :: found),
        (EvAccess (prefix +++ to_string i) true :: evs).
      norm_state. repeat split; auto. cbn. now constructor.
    + exists found, (EvAccess (prefix +++ to_string i) false :: evs).
      norm_state. repeat split; auto. cbn. now constructor.
Qed.

Lemma findSerialPorts_outer (pre : list string) :
  forall (ports : list string) (s : State),
  exists (found : list string) (evs : list Event),
    for_each pre (fun prefix ports =>
      for_each [0; 1; 2; 3; 4; 5; 6; 7; 8; 9]
        (findSerialPorts_try host prefix) ports) ports s
    = (ports ++ found, set_trace (trace s ++ evs) s)
    /\ subseq found
         (flat_map (fun prefix =>
                      map (fun i => prefix +++ to_string i)
                        [0; 1; 2; 3; 4; 5; 6; 7; 8; 9]) pre)
    /\ forallb is_access evs = true.
Proof.
  induction pre as [|prefix pre IH]; intros ports s.
  - exists [], []. cbn. unfold ret. rewrite !app_nil_r, set_trace_same.
    repeat split. constructor.
  - rewrite for_each_cons. cbn [flat_map]. unfold bind at 1.
    destruct (findSerialPorts_inner prefix [0; 1; 2; 3; 4; 5; 6; 7; 8; 9]
                ports s) as (f1 & e1 & -> & Hs1 & He1).
    destruct (IH (ports ++ f1) (set_trace (trace s ++ e1) s))
      as (f2 & e2 & -> & Hs2 & He2).
    exists (f1 ++ f2), (e1 ++ e2). norm_state.
    rewrite forallb_app, He1, He2. repeat split.
    apply subseq_app; assumption.
Qed.

(** Discovery leaves the object alone, makes only [access] calls, and
    returns some of the candidate names, in order and without repetition. *)
Lemma findSerialPorts_run (s : State) :
  exists (ports : list string) (evs : list Event),
    findSerialPorts host s = (ports, set_trace (trace s ++ evs) s)
    /\ subseq ports candidates
    /\ forallb is_access evs = true.
Proof.
  unfold findSerialPorts, candidates.
  destruct (findSerialPorts_outer prefixes [] s) as (f & e & H & Hs & He).
  exists f, e. rewrite H. auto.
Qed.

Lemma candidates_NoDup : NoDup candidates.
Proof.
  assert (Hdec : forall l : list string,
            (fix nodupb (l : list string) : bool :=
               match l with
               | [] => true
               | x :: l' => negb (existsb (String.eqb x) l') && nodupb l'
               end) l = true -> NoDup l).
  { induction l as [|x l IH]; intros H; constructor.
    - apply andb_prop in H as [H _]. intros Hin.
      apply negb_true_iff in H.
      assert (existsb (String.eqb x) l = true).
      { apply existsb_exists. exists x. split; auto. apply String.eqb_refl. }
      congruence.
    - apply andb_prop in H as [_ H]. auto. }
  apply Hdec. vm_compute. reflexivity.
Qed.

End Discovery.

(** ** Open descriptors along a history *)

Section Descriptors.

Lemma fds_ok_app (a b : list Event) : forall cur,
  fds_ok cur (a ++ b) = fds_ok cur a && fds_ok (fold_left fd_step a cur) b.
Proof.
  induction a as [|e a IH]; intros cur; cbn [app fds_ok fold_left].
  - destruct b; cbn [fds_ok]; rewrite ?andb_true_r;
      destruct (List.length cur <=? 1)%nat; reflexivity.
  - rewrite IH. now rewrite andb_assoc.
Qed.

Lemma fds_ok_prefix (tr : list Event) :
  fds_ok [] tr = true ->
  forall pre suf, tr = pre ++ suf -> (List.length (open_fds pre) <= 1)%nat.
Proof.
  intros H pre suf ->. rewrite fds_ok_app in H.
  apply andb_prop in H as [_ H]. fold (open_fds pre) in H.
  destruct suf; cbn [fds_ok] in H; apply andb_prop in H as [H _];
    now apply Nat.leb_le.
Qed.

Lemma quiet_fds (evs : list Event) :
  forallb (fun e => negb (is_open_close e)) evs = true ->
  forall cur, fold_left fd_step evs cur = cur
              /\ fds_ok cur evs = (List.length cur <=? 1)%nat.
Proof.
  induction evs as [|e evs IH]; intros H cur; cbn [fold_left fds_ok].
  - now rewrite andb_true_r.
  - cbn [forallb] in H. apply andb_prop in H as [He Hd].
    assert (Hs : fd_step cur e = cur) by (destruct e; cbn in *; congruence).
    rewrite Hs. destruct (IH Hd cur) as [-> ->].
    split; [reflexivity|]. now destruct (List.length cur <=? 1)%nat.
Qed.

Lemma probe_quiet (evs : list Event) :
  forallb probe_event evs = true ->
  forallb (fun e => negb (is_open_close e)) evs = true.
Proof.
  induction evs as [|e evs IH]; cbn [forallb]; intros H; [reflexivity|].
  apply andb_prop in H as [He Hd]. rewrite (IH Hd), andb_true_r.
  destruct e; cbn in *; congruence.
Qed.

Lemma closing_fds (fd : Z) :
  fold_left fd_step (closing fd) (held fd) = []
  /\ fds_ok (held fd) (closing fd) = true.
Proof.
  unfold closing, held. destruct (fd =? -1) eqn:E; cbn; [auto|].
  now rewrite Z.eqb_refl.
Qed.

Lemma tested_app (a b : list Event) : tested (a ++ b) = tested a ++ tested b.
Proof. apply flat_map_app. Qed.

Lemma tested_none (evs : list Event) :
  forallb not_testing evs = true -> tested evs = [].
Proof.
  induction evs as [|e evs IH]; cbn [forallb]; [reflexivity|].
  intros H. apply andb_prop in H as [He Hd].
  unfold tested in *. cbn [flat_map]. rewrite (IH Hd), app_nil_r.
  destruct e; try reflexivity. destruct m; try reflexivity. discriminate.
Qed.

Lemma forallb_impl (P Q : Event -> bool) (evs : list Event) :
  (forall e, P e = true -> Q e = true) ->
  forallb P evs = true -> forallb Q evs = true.
Proof.
  intros HPQ. induction evs as [|e evs IH]; cbn [forallb]; [auto|].
  intros H. apply andb_prop in H as [He Hd].
  now rewrite (HPQ e He), (IH Hd).
Qed.

Lemma probe_not_testing (e : Event) :
  probe_event e = true -> not_testing e = true.
Proof. now destruct e. Qed.

Lemma is_cout_not_testing (e : Event) :
  is_cout e = true -> not_testing e = true.
Proof. now destruct e. Qed.

Lemma is_access_not_testing (e : Event) :
  is_access e = true -> not_testing e = true.
Proof. now destruct e. Qed.

End Descriptors.

(** ** The matrix *)

Section MatrixLoop.

Variable host : Host.

Lemma for_each_app {A S} (l1 l2 : list A) (body : A -> S -> M S) :
  forall (acc : S) (s : State),
  for_each (l1 ++ l2) body acc s
  = (acc' <- for_each l1 body acc ;; for_each l2 body acc') s.
Proof.
  induction l1 as [|x l1 IH]; intros acc s; cbn [app for_each].
  - reflexivity.
  - unfold bind in *. destruct (body x acc s) as [acc1 s1].
    apply IH.
Qed.

Lemma for_each_map {A B S} (f : A -> B) (l : list A) (body : B -> S -> M S) :
  forall (acc : S) (s : State),
  for_each (map f l) body acc s = for_each l (fun x => body (f x)) acc s.
Proof.
  induction l as [|x l IH]; intros acc s; cbn [map for_each].
  - reflexivity.
  - unfold bind. destruct (body (f x) acc s) as [acc1 s1]. apply IH.
Qed.

(** The two nested loops visit [cells ports]. *)
Lemma nested_loops_flat (ports : list string) :
  forall (first : bool) (s : State),
  for_each ports (fun port first_result =>
    for_each baudrates (fun baudrate first_result =>
      runFullDiagnostic_cell host port baudrate first_result) first_result)
    first s
  = matrix_loop host (cells ports) first s.
Proof.
  unfold matrix_loop, cells.
  induction ports as [|p ports IH]; intros first s.
  - reflexivity.
  - rewrite for_each_cons. cbn [flat_map]. rewrite for_each_app.
    unfold bind. rewrite for_each_map. cbn [fst snd].
    destruct (for_each baudrates _ first s) as [f1 s1]. apply IH.
Qed.

Lemma testPort_result (p : string) (b : Z) (s : State) :
  cell_of (fst (testPort host p b s)) = (p, b)
  /\ result_wf (fst (testPort host p b s)).
Proof.
  unfold result_wf, cell_of.
  destruct (Z.eq_dec (cell_fd host p b s) (-1)) as [E|E].
  - destruct (testPort_run_failed host p b s E) as (t1 & ->).
    cbn. repeat split; auto. discriminate.
  - destruct (testPort_run_opened host p b s E)
      as (t1 & raw & info & health & ok & total & n & probes & -> & _).
    cbn. repeat split; auto. discriminate.
Qed.

Lemma cell_events_fds (p : string) (b : Z) (s : State) :
  fold_left fd_step (cell_events host p b s) (held (serial_fd s)) = []
  /\ fds_ok (held (serial_fd s)) (cell_events host p b s) = true
  /\ forallb (fun e => negb (is_file_event e)) (cell_events host p b s) = true
  /\ tested (cell_events host p b s) = [(p, b)].
Proof.
  destruct (closing_fds (serial_fd s)) as [K1 K2].
  assert (K4 : tested (closing (serial_fd s)) = []).
  { unfold closing. now destruct (serial_fd s =? -1). }
  assert (K3 : forallb (fun e => negb (is_file_event e))
                 (closing (serial_fd s)) = true).
  { unfold closing. now destruct (serial_fd s =? -1). }
  assert (Hheld : (List.length (held (serial_fd s)) <=? 1)%nat = true).
  { unfold held. now destruct (serial_fd s =? -1). }
  destruct (Z.eq_dec (cell_fd host p b s) (-1)) as [E|E].
  - destruct (cell_events_failed host p b s E) as (t1 & _ & ->).
    rewrite ?fold_left_app, ?fds_ok_app, ?forallb_app, ?fold_left_app,
      ?tested_app.
    cbn [fold_left fd_step app]. rewrite K1, K2, K3, K4. cbn.
    rewrite Hheld. auto.
  - destruct (cell_events_opened host p b s E)
      as (t1 & raw & info & health & ok & total & n & probes & _ & -> & Hp
          & _).
    destruct (quiet_fds probes (probe_quiet probes Hp)
                [cell_fd host p b s]) as [Q1 Q2].
    assert (Q3 : forallb (fun e => negb (is_file_event e)) probes = true).
    { clear -Hp. induction probes as [|e l IH]; [reflexivity|].
      cbn [forallb] in *. apply andb_prop in Hp as [He Hl].
      rewrite (IH Hl), andb_true_r. destruct e; cbn in *; congruence. }
    assert (Hfd : (cell_fd host p b s =? -1) = false) by lia.
    rewrite ?fold_left_app, ?fds_ok_app, ?forallb_app, ?fold_left_app,
      ?tested_app.
    cbn [fold_left fd_step app].
    rewrite K1, K2, K3, K4, Hfd, Q1, Q2, Q3,
      (tested_none probes (forallb_impl _ _ _ probe_not_testing Hp)).
    cbn. rewrite Hheld, Hfd, Z.eqb_refl. auto.
Qed.

Lemma held_length (fd : Z) : (List.length (held fd) <=? 1)%nat = true.
Proof. unfold held. now destruct (fd =? -1). Qed.

(** The loop appends one result per cell, in order, writes one entry per
    result, and never holds two descriptors. *)
Lemma matrix_loop_run (cs : list (string * Z)) :
  forall (first : bool) (s : State),
  exists (rs : list TestResult) (evs : list Event),
    matrix_loop host cs first s
    = (match cs with [] => first | _ => false end,
       mkState (match cs with [] => serial_fd s | _ => -1 end)
         (log_is_open s)
         (if log_is_open s then log_file s ++ entries first rs
          else log_file s)
         (results s ++ rs) (trace s ++ evs))
    /\ map cell_of rs = cs
    /\ Forall result_wf rs
    /\ fold_left fd_step evs (held (serial_fd s))
       = match cs with [] => held (serial_fd s) | _ => [] end
    /\ fds_ok (held (serial_fd s)) evs = true
    /\ forallb (fun e => negb (is_file_event e)) evs = true
    /\ tested evs = cs.
Proof.
  unfold matrix_loop.
  induction cs as [|[p b] cs IH]; intros first s.
  - exists [], []. cbn [for_each entries map]. unfold ret.
    rewrite !app_nil_r. cbn [fold_left fds_ok forallb].
    rewrite held_length. repeat split; auto.
    destruct s as [fd o l rs tr]. now destruct o.
  - rewrite for_each_cons. cbn [fst snd]. unfold bind at 1.
    rewrite runFullDiagnostic_cell_run.
    set (r := fst (testPort host p b s)).
    set (s1 := mkState _ _ _ _ _).
    destruct (IH false s1)
      as (rs & evs & -> & Hc & Hwf & Hf & Hok & Hfe & Hte).
    destruct (testPort_result p b s) as [Hcell Hr]. fold r in Hcell, Hr.
    destruct (cell_events_fds p b s) as (F1 & F2 & F3 & F4).
    exists (r :: rs),
      (cell_events host p b s
         ++ [EvCout (verdict r); EvCout (MsgDuration (test_duration_ms r))]
         ++ evs).
    subst s1. cbn [serial_fd log_is_open log_file results trace] in *.
    change (held (-1)) with (@nil Z) in *.
    split; [|split; [|split; [|split; [|split; [|split]]]]].
    + f_equal; [now destruct cs|].
      f_equal; [now destruct cs| | |].
      * destruct (log_is_open s); [|reflexivity].
        cbn [entries]. now rewrite <- !app_assoc.
      * now rewrite <- app_assoc.
      * now rewrite <- !app_assoc.
    + cbn [map]. now rewrite Hcell, Hc.
    + now constructor.
    + rewrite !fold_left_app, F1. cbn [fold_left fd_step app].
      rewrite Hf. now destruct cs.
    + rewrite !fds_ok_app, F2, F1. cbn [fold_left fd_step app fds_ok].
      rewrite Hok. reflexivity.
    + rewrite !forallb_app, F3, Hfe. reflexivity.
    + rewrite !tested_app, F4, Hte.
      assert (V : tested [EvCout (verdict r);
                          EvCout (MsgDuration (test_duration_ms r))] = []).
      { unfold verdict.
        destruct (scan_start_success r),
          (device_info_success r || health_check_success r),
          (raw_communication r); reflexivity. }
      now rewrite V.
Qed.

End MatrixLoop.

(** ** The report *)

Section Report.

Variable host : Host.

Lemma count_configs_run (rs : list TestResult) : forall (w p : Z) (s : State),
  for_each rs (fun result '(working_configs, partial_configs) =>
    if scan_start_success result then
      ret (working_configs + 1, partial_configs)
    else if device_info_success result || health_check_success result
            || raw_communication result
    then ret (working_configs, partial_configs + 1)
    else ret (working_configs, partial_configs)) (w, p) s
  = ((w + working_count rs, p + partial_count rs), s).
Proof.
  unfold working_count, partial_count.
  induction rs as [|r rs IH]; intros w p s.
  - cbn. unfold ret. now rewrite !Z.add_0_r.
  - rewrite for_each_cons. unfold bind at 1.
    cbn [filter]. unfold is_working at 1, is_partial at 1.
    destruct (scan_start_success r); cbn [negb andb];
      [|destruct (device_info_success r || health_check_success r
                  || raw_communication r)];
      unfold ret at 1; rewrite IH; cbn [List.length]; f_equal; f_equal; lia.
Qed.

Ltac step_put :=
  unfold bind at 1; unfold log_put at 1, modify;
  cbn [log_is_open set_log log_file serial_fd results trace].

Lemma finalizeLogs_run (s : State) :
  log_is_open s = true ->
  finalizeLogs s
  = (tt, mkState (serial_fd s) false
           (log_file s
              ++ summary_block (Z.of_nat (List.length (results s)))
                   (working_count (results s)) (partial_count (results s)))
           (results s) (trace s ++ [EvFileClose])).
Proof.
  intros O. unfold finalizeLogs, count_configs.
  unfold bind at 1. unfold log_put at 1, modify. rewrite O.
  step_put.
  unfold bind at 1. unfold get at 1. cbn [results set_log].
  do 3 step_put.
  unfold bind at 1. rewrite count_configs_run.
  do 8 step_put.
  unfold log_close.
  unfold bind at 1. unfold get at 1. cbn [log_is_open set_log].
  unfold bind at 1. unfold emit, modify.
  cbn [log_is_open set_log log_file serial_fd results trace set_trace].
  rewrite <- !app_assoc. reflexivity.
Qed.

Lemma log_put_closed (i : LogItem) (s : State) :
  log_is_open s = false -> log_put i s = (tt, s).
Proof. intros O. unfold log_put, modify. now rewrite O. Qed.

Lemma finalizeLogs_closed (s : State) :
  log_is_open s = false -> finalizeLogs s = (tt, s).
Proof.
  intros O. unfold finalizeLogs, count_configs.
  do 2 (erewrite bind_run by (apply log_put_closed; exact O)).
  unfold bind at 1. unfold get at 1.
  do 3 (erewrite bind_run by (apply log_put_closed; exact O)).
  unfold bind at 1. rewrite count_configs_run.
  do 8 (erewrite bind_run by (apply log_put_closed; exact O)).
  unfold log_close, bind, get, ret. now rewrite O.
Qed.

Lemma constructor_run (s : State) :
  let ok := h_file_open host (trace s) log_file_name in
  let ts := h_localtime host (trace s ++ [EvFileOpen log_file_name ok]) in
  constructor host s
  = (tt, mkState (-1) ok (if ok then report_header ts else []) (results s)
           (trace s ++ [EvFileOpen log_file_name ok; EvLocaltime ts])).
Proof.
  cbn zeta. unfold constructor.
  unfold bind at 1. unfold modify at 1.
  unfold bind at 1. unfold sys_file_open at 1.
  cbn [trace set_serial_fd].
  destruct (h_file_open host (trace s) log_file_name).
  2:{ unfold_prims.
      cbn [log_is_open set_log log_file serial_fd results trace set_trace
           set_serial_fd].
      rewrite <- !app_assoc. reflexivity. }
  unfold bind at 1. unfold modify at 1.
  cbn [log_is_open set_log log_file serial_fd results trace set_trace
       set_serial_fd].
  step_put.
  unfold bind at 1. unfold getCurrentTimeString at 1.
  cbn [log_is_open set_log log_file serial_fd results trace set_trace
       set_serial_fd].
  do 2 step_put.
  unfold log_put, modify.
  cbn [log_is_open set_log log_file serial_fd results trace set_trace
       set_serial_fd app].
  rewrite <- !app_assoc. reflexivity.
Qed.

Lemma printSummary_working_run (rs : list TestResult) (s : State) :
  exists (found : bool) (evs : list Event),
    printSummary_working rs s = (found, set_trace (trace s ++ evs) s)
    /\ forallb is_cout evs = true.
Proof.
  induction rs as [|r rs IH]; cbn [printSummary_working].
  - exists false, []. unfold ret. now rewrite app_nil_r, set_trace_same.
  - destruct (scan_start_success r).
    + eexists true, [_]. unfold_prims. split; reflexivity.
    + exact IH.
Qed.

Lemma printSummary_partials_run (rs : list TestResult) : forall s : State,
  exists evs : list Event,
    for_each rs (fun result (_ : unit) =>
      if device_info_success result || health_check_success result
         || raw_communication result
      then cout (MsgPartialLine (port result) (baudrate result)
                   (device_info_success result)
                   (health_check_success result)
                   (raw_communication result))
      else ret tt) tt s
    = (tt, set_trace (trace s ++ evs) s)
    /\ forallb is_cout evs = true.
Proof.
  induction rs as [|r rs IH]; intros s.
  - exists []. cbn. unfold ret. now rewrite app_nil_r, set_trace_same.
  - rewrite for_each_cons. unfold bind at 1.
    destruct (device_info_success r || health_check_success r
              || raw_communication r).
    + unfold cout at 1, emit, modify.
      match goal with |- context [for_each rs _ tt ?st] =>
        destruct (IH st) as (evs & -> & He) end.
      eexists (_ :: evs). norm_state. split; [reflexivity|]. exact He.
    + unfold ret at 1. apply IH.
Qed.

Lemma printSummary_run (s : State) :
  exists evs : list Event,
    printSummary s = (tt, set_trace (trace s ++ evs) s)
    /\ forallb is_cout evs = true.
Proof.
  unfold printSummary.
  unfold bind at 1. unfold cout at 1, emit, modify.
  unfold bind at 1. unfold get at 1. cbn [results set_trace].
  unfold bind at 1.
  destruct (printSummary_working_run (results s)
              (set_trace (trace s ++ [EvCout MsgSummaryBanner]) s))
    as (found & e1 & -> & H1).
  unfold bind at 1. destruct found; cbn [negb].
  - unfold_prims. norm_state.
    eexists (_ :: e1 ++ [_]). split; [reflexivity|].
    cbn [forallb is_cout andb]. now rewrite forallb_app, H1.
  - unfold bind at 1. unfold cout at 1, emit, modify. norm_state.
    match goal with |- context [for_each (results s) _ tt ?st] =>
      destruct (printSummary_partials_run (results s) st)
        as (e2 & -> & H2) end.
    unfold_prims. norm_state.
    eexists (_ :: e1 ++ _ :: e2 ++ [_]). split; [reflexivity|].
    cbn [forallb is_cout andb]. rewrite forallb_app, H1.
    cbn [forallb is_cout andb]. now rewrite forallb_app, H2.
Qed.

End Report.

(** ** The whole run *)

Section Run.

Variable host : Host.

Lemma cells_nil (ports : list string) : cells ports = [] -> ports = [].
Proof. destruct ports; [auto | discriminate]. Qed.

Lemma quiet_of (P : Event -> bool) (evs : list Event) :
  (forall e, P e = true -> is_open_close e = false) ->
  forallb P evs = true ->
  forallb (fun e => negb (is_open_close e)) evs = true.
Proof.
  intros HP. induction evs as [|e evs IH]; cbn [forallb]; [auto|].
  intros H. apply andb_prop in H as [He Hd].
  now rewrite (HP e He), (IH Hd).
Qed.

Lemma no_file_of (P : Event -> bool) (evs : list Event) :
  (forall e, P e = true -> is_file_event e = false) ->
  forallb P evs = true ->
  forallb (fun e => negb (is_file_event e)) evs = true.
Proof.
  intros HP. induction evs as [|e evs IH]; cbn [forallb]; [auto|].
  intros H. apply andb_prop in H as [He Hd].
  now rewrite (HP e He), (IH Hd).
Qed.

Lemma is_access_quiet e : is_access e = true -> is_open_close e = false.
Proof. now destruct e. Qed.

Lemma is_cout_quiet e : is_cout e = true -> is_open_close e = false.
Proof. now destruct e. Qed.

Lemma is_access_no_file e : is_access e = true -> is_file_event e = false.
Proof. now destruct e. Qed.

Lemma is_cout_no_file e : is_cout e = true -> is_file_event e = false.
Proof. now destruct e. Qed.

(** [runFullDiagnostic] from any state of the object. *)
Lemma runFullDiagnostic_run (s : State) :
  let s0 := snd (cout MsgBanner s) in
  let ports := fst (findSerialPorts host s0) in
  exists (rs : list TestResult) (access matrix : list Event),
    runFullDiagnostic host s
    = (tt,
       mkState (match ports with [] => serial_fd s | _ => -1 end)
         (log_is_open s)
         (if log_is_open s then log_file s ++ entries true rs
          else log_file s)
         (results s ++ rs)
         (trace s ++ [EvCout MsgBanner] ++ access ++ matrix))
    /\ subseq ports candidates
    /\ forallb is_access access = true
    /\ map cell_of rs = cells ports
    /\ Forall result_wf rs
    /\ (ports = [] -> matrix = [EvCout MsgNoPorts])
    /\ fold_left fd_step matrix (held (serial_fd s))
       = match ports with [] => held (serial_fd s) | _ => [] end
    /\ fds_ok (held (serial_fd s)) matrix = true
    /\ forallb (fun e => negb (is_file_event e)) matrix = true
    /\ tested matrix = cells ports.
Proof.
  cbn zeta.
  assert (Hs0 : cout MsgBanner s
                = (tt, set_trace (trace s ++ [EvCout MsgBanner]) s))
    by reflexivity.
  rewrite Hs0. cbn [snd]. unfold runFullDiagnostic.
  rewrite (bind_run _ _ _ _ _ Hs0). clear Hs0.
  unfold bind at 1.
  destruct (findSerialPorts_run host
              (set_trace (trace s ++ [EvCout MsgBanner]) s))
    as (ports & access & Hfind & Hsub & Hacc).
  rewrite Hfind. cbn [fst]. clear Hfind.
  destruct ports as [|p0 ports'].
  - exists [], access, [EvCout MsgNoPorts].
    unfold_prims. norm_state. cbn [map cells flat_map entries].
    rewrite !app_nil_r. cbn [fold_left fd_step fds_ok forallb is_file_event
      negb andb]. rewrite held_length.
    repeat split; auto.
    destruct s as [fd o l rs tr]. now destruct o.
  - set (ports := p0 :: ports') in *.
    unfold bind at 1. unfold cout at 1, emit, modify.
    unfold bind at 1. rewrite nested_loops_flat.
    match goal with |- context [matrix_loop host _ true ?st] =>
      destruct (matrix_loop_run host (cells ports) true st)
        as (rs & evs & -> & Hc & Hwf & Hf & Hok & Hfe & Hte) end.
    match goal with |- context [printSummary ?st] =>
      destruct (printSummary_run st) as (sm & -> & Hsm) end.
    exists rs, access, (EvCout (MsgFoundPorts ports) :: evs ++ sm).
    cbn [serial_fd log_is_open log_file results trace set_trace] in *.
    assert (Hne : cells ports <> []) by (subst ports; discriminate).
    destruct (quiet_fds sm (quiet_of _ _ is_cout_quiet Hsm) []) as [Q1 Q2].
    split; [|repeat split; auto; try discriminate].
    + f_equal. destruct (cells ports) eqn:Ecs; [congruence|].
      subst ports. cbn [set_trace serial_fd log_is_open log_file results
        trace]. now rewrite <- !app_assoc.
    + cbn [fold_left fd_step]. rewrite fold_left_app, Hf.
      destruct (cells ports) eqn:Ecs; [congruence|]. exact Q1.
    + cbn [fds_ok fd_step]. rewrite held_length, fds_ok_app, Hok, Hf.
      destruct (cells ports) eqn:Ecs; [congruence|]. now rewrite Q2.
    + cbn [forallb is_file_event negb andb].
      now rewrite forallb_app, Hfe, (no_file_of _ _ is_cout_no_file Hsm).
    + change (EvCout (MsgFoundPorts ports) :: evs ++ sm)
        with ([EvCout (MsgFoundPorts ports)] ++ evs ++ sm).
      rewrite !tested_app, Hte,
        (tested_none sm (forallb_impl _ _ _ is_cout_not_testing Hsm)).
      cbn [tested flat_map app]. now rewrite app_nil_r.
Qed.

Lemma constructed_eq (fd0 : Z) :
  snd (constructor host (fresh_object fd0)) = constructed host.
Proof. unfold constructed. now rewrite !constructor_run. Qed.

(** The whole of [main], for every host. *)
Lemma main_run (fd0 : Z) :
  let ok := report_opened host in
  let ts := report_time host in
  let ports := discovered host in
  exists (rs : list TestResult) (access matrix : list Event),
    main host fd0
    = (0, mkState (-1) false (if ok then report ts rs else []) rs
            ([EvFileOpen log_file_name ok; EvLocaltime ts; EvCout MsgBanner]
               ++ access ++ matrix ++ file_closing ok))
    /\ subseq ports candidates
    /\ forallb is_access access = true
    /\ map cell_of rs = cells ports
    /\ Forall result_wf rs
    /\ (ports = [] -> matrix = [EvCout MsgNoPorts])
    /\ fold_left fd_step matrix [] = []
    /\ fds_ok [] matrix = true
    /\ forallb (fun e => negb (is_file_event e)) matrix = true
    /\ tested matrix = cells ports.
Proof.
  cbn zeta. unfold main, discovered.
  unfold bind at 1.
  assert (Hc : constructor host (fresh_object fd0) = (tt, constructed host)).
  { rewrite <- (constructed_eq fd0).
    now destruct (constructor host (fresh_object fd0)) as [[] ?]. }
  rewrite Hc. unfold bind at 1.
  destruct (runFullDiagnostic_run (constructed host))
    as (rs & access & matrix & Hrun & Hsub & Hacc & Hcells & Hwf & Hnil
        & Hf & Hok & Hfe & Hte).
  rewrite Hrun. clear Hrun.
  exists rs, access, matrix.
  unfold constructed in *. rewrite constructor_run in *.
  cbn [snd serial_fd log_is_open log_file results trace fresh_object app]
    in *.
  fold (report_opened host) in *. fold (report_time host) in *.
  change (held (-1)) with (@nil Z) in *.
  split; [|repeat split; auto].
  - match goal with |- context [mkState ?x (report_opened host) _ _ _] =>
      replace x with (-1) by (now destruct (fst _)) end.
    unfold destructor, bind. rewrite closeSerial_run.
    cbn [serial_fd log_is_open log_file results trace set_trace
         set_serial_fd].
    change (closing (-1)) with (@nil Event). rewrite app_nil_r.
    destruct (report_opened host) eqn:O.
    + rewrite finalizeLogs_run by reflexivity.
      unfold ret, report, file_closing.
      cbn [serial_fd log_is_open log_file results trace set_trace
           set_serial_fd app].
      rewrite <- !app_assoc. reflexivity.
    + rewrite finalizeLogs_closed by reflexivity.
      unfold ret, file_closing.
      cbn [serial_fd log_is_open log_file results trace set_trace
           set_serial_fd app].
      rewrite app_nil_r. reflexivity.
  - rewrite Hf. now destruct (fst _).
Qed.

End Run.

Section RunClaims.

Variable host : Host.

Lemma cells_NoDup (ports : list string) : NoDup ports -> NoDup (cells ports).
Proof.
  unfold cells. induction 1 as [|p ports Hp Hnd IH]; cbn [flat_map].
  - constructor.
  - apply NoDup_app; [| exact IH |].
    + cbn. repeat constructor; cbn; intuition congruence.
    + intros [p' b'] Hin Hin'. apply in_map_iff in Hin as (b0 & E & _).
      inversion E; subst. apply in_flat_map in Hin' as (q & Hq & Hin').
      apply in_map_iff in Hin' as (b1 & E' & _). inversion E'; subst.
      contradiction.
Qed.

Lemma cells_length (ports : list string) :
  List.length (cells ports) = (List.length ports * 5)%nat.
Proof.
  unfold cells. induction ports as [|p ports IH]; cbn [flat_map].
  - reflexivity.
  - rewrite length_app, IH. cbn. lia.
Qed.

(** C1.  The results of a run are, in order, one per cell: for each
    discovered port in discovery order, the baud rates 115200, 256000,
    230400, 460800, 921600 in this order.  So there are five times as many
    results as ports, every cell has exactly one result, the cells are
    announced and tried in the order of their results, and without ports
    there is no result. *)
Theorem matrix_is_exhaustive (fd0 : Z) :
  let ports := discovered host in
  let rs := results (snd (main host fd0)) in
  map cell_of rs
  = flat_map (fun p => [(p, 115200); (p, 256000); (p, 230400);
                        (p, 460800); (p, 921600)]) ports
  /\ List.length rs = (List.length ports * 5)%nat
  /\ NoDup ports
  /\ NoDup (map cell_of rs)
  /\ (forall p b, In p ports ->
      In b [115200; 256000; 230400; 460800; 921600] ->
      count_occ cell_eq_dec (map cell_of rs) (p, b) = 1%nat)
  /\ tested (trace (snd (main host fd0))) = map cell_of rs
  /\ (ports = [] -> rs = []).
Proof.
  cbn zeta.
  destruct (main_run host fd0)
    as (rs & access & matrix & -> & Hsub & Hacc & Hcells & _ & _ & _ & _ & _
        & Hte).
  cbn [snd results trace].
  assert (Hnd : NoDup (discovered host))
    by (eapply subseq_NoDup; [exact Hsub | exact candidates_NoDup]).
  assert (Hndc : NoDup (map cell_of rs))
    by (rewrite Hcells; now apply cells_NoDup).
  split; [exact Hcells|]. split.
  { rewrite <- (length_map cell_of), Hcells. apply cells_length. }
  split; [exact Hnd|]. split; [exact Hndc|]. split; [|split].
  - intros p b Hp Hb.
    apply (proj1 (NoDup_count_occ' cell_eq_dec _) Hndc).
    rewrite Hcells. unfold cells. apply in_flat_map.
    exists p. split; [exact Hp|]. apply in_map. exact Hb.
  - rewrite !tested_app, Hte, Hcells,
      (tested_none access (forallb_impl _ _ _ is_access_not_testing Hacc)).
    assert (Hclose : tested (file_closing (report_opened host)) = [])
      by (now destruct (report_opened host)).
    rewrite Hclose. cbn [tested flat_map app]. now rewrite app_nil_r.
  - intros E. rewrite E in Hcells. now destruct rs.
Qed.

End RunClaims.

Section Summary.

(** C2.  What [finalizeLogs] appends to an open report is the summary block
    whose [total_tests] is the number of results, whose
    [working_configurations] is the number of results with
    [scan_start_success], and whose [partial_configurations] is the number of
    results without [scan_start_success] and with one of the three other
    outcomes, whatever the results are. *)
Theorem summary_counts (s : State) :
  log_is_open s = true ->
  let rs := results s in
  let block :=
    skipn (List.length (log_file s)) (log_file (snd (finalizeLogs s))) in
  block = summary_block (Z.of_nat (List.length rs))
            (Z.of_nat (List.length (filter scan_start_success rs)))
            (Z.of_nat (List.length (filter
               (fun r => negb (scan_start_success r)
                         && (device_info_success r || health_check_success r
                             || raw_communication r)) rs)))
  /\ summary_field "total_tests" block = Some (Z.of_nat (List.length rs))
  /\ summary_field "working_configurations" block
     = Some (Z.of_nat (List.length (filter scan_start_success rs)))
  /\ summary_field "partial_configurations" block
     = Some (Z.of_nat (List.length (filter
          (fun r => negb (scan_start_success r)
                    && (device_info_success r || health_check_success r
                        || raw_communication r)) rs))).
Proof.
  intros O. cbn zeta. rewrite (finalizeLogs_run s O). cbn [snd log_file].
  rewrite skipn_length_app. repeat split.
Qed.

Lemma summary_counts_witness :
  log_is_open three_results = true
  /\ summary_field "partial_configurations"
       (skipn (List.length (log_file three_results))
          (log_file (snd (finalizeLogs three_results))))
     = Some 1.
Proof.
  split; [reflexivity|].
  apply (summary_counts three_results). reflexivity.
Defined.

End Summary.

Section Transport.

Lemma main_fds_ok (host : Host) (fd0 : Z) :
  fds_ok [] (trace (snd (main host fd0))) = true.
Proof.
  destruct (main_run host fd0)
    as (rs & access & matrix & -> & _ & Hacc & _ & _ & _ & Hf & Hok & _).
  cbn [snd trace].
  destruct (quiet_fds access (quiet_of _ _ is_access_quiet Hacc) [])
    as [Q1 Q2].
  rewrite !fds_ok_app. cbn [fold_left fd_step].
  rewrite Q1, Q2, Hf, Hok. now destruct (report_opened host).
Qed.

(** C9.  [closeSerial] on a closed transport changes nothing; a second
    [closeSerial], or any number of further ones, changes nothing; after it
    no descriptor is held.
    [openSerial] first closes the descriptor it holds and only then opens, so
    an object that held at most one descriptor still does; and along the
    whole run of [main] at most one serial descriptor is open at any time. *)
Theorem close_is_idempotent_and_open_closes_first :
  (forall s : State, serial_fd s = -1 -> closeSerial s = (tt, s))
  /\ (forall s : State,
      closeSerial (snd (closeSerial s)) = (tt, snd (closeSerial s)))
  /\ (forall (n : nat) (s : State),
      Nat.iter (S n) (fun st => snd (closeSerial st)) s
      = snd (closeSerial s))
  /\ (forall s : State, serial_fd (snd (closeSerial s)) = -1)
  /\ (forall (host : Host) (p : string) (b : Z) (s : State),
      exists rest : list Event,
        events_of (openSerial host p b) s
        = closing (serial_fd s)
            ++ EvOpen p (serial_fd (snd (openSerial host p b s))) :: rest
        /\ forallb (fun e => negb (is_open_close e)) rest = true)
  /\ (forall (host : Host) (p : string) (b : Z) (s : State),
      open_fds (trace s) = held (serial_fd s) ->
      fds_ok [] (trace s) = true ->
      let s' := snd (openSerial host p b s) in
      open_fds (trace s') = held (serial_fd s')
      /\ fds_ok [] (trace s') = true)
  /\ (forall (host : Host) (fd0 : Z) (pre suf : list Event),
      trace (snd (main host fd0)) = pre ++ suf ->
      (List.length (open_fds pre) <= 1)%nat).
Proof.
  assert (Htwice : forall s : State,
            closeSerial (snd (closeSerial s)) = (tt, snd (closeSerial s))).
  { intros s. rewrite !closeSerial_run. cbn [snd serial_fd set_serial_fd].
    change (closing (-1)) with (@nil Event). now rewrite app_nil_r. }
  split; [|split; [|split; [|split; [|split; [|split]]]]].
  - intros s E. rewrite closeSerial_run, E.
    change (closing (-1)) with (@nil Event). rewrite app_nil_r.
    destruct s; cbn in *. now subst.
  - exact Htwice.
  - induction n as [|n IH]; intros s; [reflexivity|].
    change (Nat.iter (S (S n)) (fun st => snd (closeSerial st)) s)
      with (snd (closeSerial
                   (Nat.iter (S n) (fun st => snd (closeSerial st)) s))).
    now rewrite IH, Htwice.
  - intros s. now rewrite closeSerial_run.
  - intros host p b s. unfold events_of. rewrite openSerial_run.
    cbn [snd trace set_serial_fd set_trace serial_fd].
    rewrite <- app_assoc, skipn_length_app.
    eexists. split; [reflexivity|].
    now destruct (_ =? -1).
  - intros host p b s Hinv Hok. cbn zeta. rewrite openSerial_run.
    cbn [snd trace set_serial_fd set_trace serial_fd].
    destruct (closing_fds (serial_fd s)) as [K1 K2].
    unfold open_fds in *.
    rewrite !fds_ok_app, !fold_left_app, Hinv, Hok, K1, K2.
    set (fd := h_open host _ p). unfold held.
    destruct (fd =? -1) eqn:E; cbn; rewrite E; auto.
  - intros host fd0 pre suf H.
    exact (fds_ok_prefix _ (main_fds_ok host fd0) pre suf H).
Qed.

Lemma close_is_idempotent_and_open_closes_first_witness :
  serial_fd (constructed host_silent) = -1
  /\ closeSerial (constructed host_silent) = (tt, constructed host_silent).
Proof.
  split; [reflexivity|].
  apply (proj1 close_is_idempotent_and_open_closes_first). reflexivity.
Defined.

End Transport.

Section SerialNumber.

(** C4 as stated does not hold.  Two devices answer GET_INFO with 27 bytes
    and a valid header and differ in their serial numbers; the two runs
    record the same results, write the same report and print the same
    console output, so the serial number is extracted nowhere. *)
Lemma serial_number_is_not_extracted :
  let run1 := snd (main (host_lidar x11) 0) in
  let run2 := snd (main (host_lidar x22) 0) in
  serial_number (info_response x11) <> serial_number (info_response x22)
  /\ (20 <= List.length (info_response x11))%nat
  /\ header_ok 7 (ReadBytes (info_response x11)) = true
  /\ forallb device_info_success (results run1) = true
  /\ results run1 = results run2
  /\ log_file run1 = log_file run2
  /\ console (trace run1) = console (trace run2).
Proof.
  cbn zeta. split; [vm_compute; discriminate|].
  split; [vm_compute; lia|].
  repeat split; vm_compute; reflexivity.
Qed.

End SerialNumber.

(** ** The report as a JSON text *)

Section Json.

Lemma json_bool (b : bool) (rest : list jchar) :
  json_value (skip_ws (txt (bool_text b) ++ rest)) rest.
Proof. destruct b; constructor. Qed.

Lemma document_text_app (a b : list LogItem) :
  document_text (a ++ b) = document_text a ++ document_text b.
Proof. apply flat_map_app. Qed.

Ltac member key value :=
  eapply (json_next_member _ key);
  [ cbn; reflexivity | reflexivity | cbn; reflexivity | cbn; value
  | cbn; reflexivity | ].

Ltac last_member key value :=
  eapply (json_last_member _ key);
  [ cbn; reflexivity | reflexivity | cbn; reflexivity | cbn; value
  | cbn; reflexivity ].

(** One entry of [test_results] is a JSON object. *)
Lemma entry_is_json (r : TestResult) (rest : list jchar) :
  result_safe r ->
  json_value (skip_ws (document_text (json_of_result r) ++ rest)) rest.
Proof.
  intros (Hp & He & Hd). destruct r as [p b raw info health scan pts msg d].
  cbn [port error_message test_duration_ms] in *.
  destruct d as [d|]; [clear Hd | congruence].
  unfold json_of_result, document_text.
  cbn [flat_map jchars_of port baudrate raw_communication device_info_success
       health_check_success scan_start_success scan_points_received
       error_message test_duration_ms].
  rewrite <- !app_assoc. cbn.
  apply json_object.
  member "port"%string ltac:(apply (json_string p); exact Hp).
  member "baudrate"%string ltac:(apply json_number).
  member "raw_communication"%string ltac:(apply (json_bool raw)).
  member "device_info_success"%string ltac:(apply (json_bool info)).
  member "health_check_success"%string ltac:(apply (json_bool health)).
  member "scan_start_success"%string ltac:(apply (json_bool scan)).
  member "scan_points_received"%string ltac:(apply json_number).
  member "error_message"%string ltac:(apply (json_string msg); exact He).
  last_member "test_duration_ms"%string ltac:(apply json_number).
Qed.

Lemma json_elements_ws (c : jchar) (l rest : list jchar) :
  is_ws c = true -> json_elements l rest -> json_elements (c :: l) rest.
Proof.
  intros Hc H. inversion H; subst.
  - eapply json_last_element; [|reflexivity]. cbn [skip_ws]. now rewrite Hc.
  - eapply json_next_element; [| eassumption | assumption].
    cbn [skip_ws]. now rewrite Hc.
Qed.

(** The entries, each after the first preceded by its separator, are the
    elements of an array that closes with a newline, two spaces and the
    bracket. *)
Lemma entries_are_json (rs : list TestResult) :
  Forall result_safe rs ->
  forall (r : TestResult) (R : list jchar),
  result_safe r ->
  json_elements
    (document_text (json_of_result r) ++ document_text (entries false rs)
       ++ JC "010" :: JC " " :: JC " " :: JC "]" :: R)
    (JC "]" :: R).
Proof.
  induction 1 as [|r2 rs H2 Hrs IH]; intros r R Hr.
  - eapply json_last_element; [apply entry_is_json; exact Hr|].
    reflexivity.
  - cbn [entries separator]. rewrite !document_text_app.
    rewrite <- !app_assoc.
    eapply json_next_element; [apply entry_is_json; exact Hr | |].
    + cbn. reflexivity.
    + apply json_elements_ws; [reflexivity|]. apply IH. exact H2.
Qed.

Lemma array_is_json (rs : list TestResult) (R : list jchar) :
  Forall result_safe rs ->
  json_value
    (JC "[" :: JC "010" :: document_text (entries true rs)
       ++ JC "010" :: JC " " :: JC " " :: JC "]" :: R) R.
Proof.
  intros H. destruct H as [|r rs Hr Hrs].
  - apply json_empty_array. reflexivity.
  - apply json_array. apply json_elements_ws; [reflexivity|].
    cbn [entries separator app]. rewrite document_text_app, <- app_assoc.
    now apply entries_are_json.
Qed.

(** The whole report is a JSON document. *)
Lemma report_is_json (ts : string) (rs : list TestResult) :
  safe_text ts = true -> Forall result_safe rs ->
  json_document (document_text (report ts rs)).
Proof.
  intros Hts Hrs. unfold report. rewrite !document_text_app.
  remember (document_text (entries true rs)) as A eqn:HA.
  remember (txt ts) as T eqn:HT.
  unfold json_document.
  exists [JC "010"]. split; [|reflexivity].
  unfold report_header, summary_block, document_text.
  cbn [flat_map jchars_of]. rewrite <- !app_assoc. cbn. subst T.
  apply json_object.
  member "timestamp"%string ltac:(apply (json_string ts); exact Hts).
  member "test_results"%string
    ltac:(subst A; apply array_is_json; exact Hrs).
  last_member "summary"%string
    ltac:(apply json_object;
          member "total_tests"%string ltac:(apply json_number);
          member "working_configurations"%string ltac:(apply json_number);
          last_member "partial_configurations"%string
            ltac:(apply json_number)).
Qed.

End Json.

Section Finalize.

Variable host : Host.

Lemma candidates_safe (p : string) : In p candidates -> safe_text p = true.
Proof.
  assert (H : forallb safe_text candidates = true) by (vm_compute; reflexivity).
  intros Hin. exact (proj1 (forallb_forall _ _) H p Hin).
Qed.

Lemma results_safe (ports : list string) (rs : list TestResult) :
  subseq ports candidates -> map cell_of rs = cells ports ->
  Forall result_wf rs -> Forall result_safe rs.
Proof.
  intros Hsub Hcells Hwf. apply Forall_forall. intros r Hr.
  pose proof (proj1 (Forall_forall _ _) Hwf r Hr) as [Hd Hm].
  assert (Hin : In (cell_of r) (cells ports))
    by (rewrite <- Hcells; now apply in_map).
  unfold cells in Hin. apply in_flat_map in Hin as (p & Hp & Hin).
  apply in_map_iff in Hin as (b & E & _).
  unfold cell_of in E. inversion E; subst.
  repeat split; auto.
  - apply candidates_safe. eapply subseq_In; eauto.
  - destruct Hm as [-> | ->]; reflexivity.
Qed.


End Finalize.


Section UnopenedReport.


End UnopenedReport.

Lemma scan_points_threshold_witness :
  scan_start_success
    (fst (testPort (host_lidar x11) "/dev/ttyUSB0" 115200
            (constructed (host_lidar x11)))) = true
  /\ 10 < scan_points_received
            (fst (testPort (host_lidar x11) "/dev/ttyUSB0" 115200
                    (constructed (host_lidar x11)))).
Proof.
  split; [reflexivity|].
  apply (proj1 (scan_points_threshold (host_lidar x11) "/dev/ttyUSB0" 115200
                  (constructed (host_lidar x11)))).
  reflexivity.
Defined.

Lemma error_message_only_from_open_witness :
  open_succeeds host_silent "/dev/ttyUSB0" 115200 (constructed host_silent)
  = true
  /\ error_message
       (fst (testPort host_silent "/dev/ttyUSB0" 115200
               (constructed host_silent))) = EmptyString.
Proof.
  split; [reflexivity|].
  apply (proj2 (proj2 (error_message_only_from_open host_silent
                         "/dev/ttyUSB0" 115200 (constructed host_silent)))).
  reflexivity.
Defined.

Lemma matrix_is_exhaustive_witness :
  discovered host_no_ports = []
  /\ results (snd (main host_no_ports 0)) = [].
Proof.
  split; [reflexivity|].
  apply (matrix_is_exhaustive host_no_ports 0). reflexivity.
Defined.

(** ** Concrete runs *)
Section Scenarios.

(** No serial port: the report is header and all-zero summary. *)
Example run_without_ports :
  results (snd (main host_no_ports 0)) = []
  /\ log_file (snd (main host_no_ports 0))
     = report "2024-01-01 12:00:00" []
  /\ console (trace (snd (main host_no_ports 0))) = [MsgBanner; MsgNoPorts].
Proof. repeat split; vm_compute; reflexivity. Qed.

(** The port opens and every read times out. *)
Example cell_on_silent_port :
  fst (testPort host_silent "/dev/ttyUSB0" 115200 (constructed host_silent))
  = mkTestResult "/dev/ttyUSB0" 115200 false false false false 0 EmptyString
      (Some 86)
  /\ scan_attempts
       (cell_events host_silent "/dev/ttyUSB0" 115200
          (constructed host_silent)) = 20%nat.
Proof. split; vm_compute; reflexivity. Qed.

(** The port cannot be opened. *)
Example cell_on_port_that_fails_to_open :
  fst (testPort host_open_fails "/dev/ttyUSB0" 460800
         (constructed host_open_fails))
  = mkTestResult "/dev/ttyUSB0" 460800 false false false false 0
      "Failed to open serial port" (Some 3)
  /\ cell_events host_open_fails "/dev/ttyUSB0" 460800
       (constructed host_open_fails)
     = [EvClock 2; EvCout (MsgTesting "/dev/ttyUSB0" 460800);
        EvOpen "/dev/ttyUSB0" (-1); EvClock 5].
Proof. split; vm_compute; reflexivity. Qed.

(** A device that answers: four bytes to RESET, 27 bytes to GET_INFO, ten
    to GET_HEALTH, and 25 bytes to each scan read, so that the third read
    takes the total to 15. *)
Example cell_on_answering_device :
  let s := constructed (host_lidar x11) in
  fst (testPort (host_lidar x11) "/dev/ttyUSB0" 115200 s)
  = mkTestResult "/dev/ttyUSB0" 115200 true true true true 15 EmptyString
      (Some 39)
  /\ scan_attempts (cell_events (host_lidar x11) "/dev/ttyUSB0" 115200 s)
     = 3%nat
  /\ console (cell_events (host_lidar x11) "/dev/ttyUSB0" 115200 s)
     = [MsgTesting "/dev/ttyUSB0" 115200;
        MsgRawTesting; MsgRawOk 4;
        MsgInfoTesting; MsgInfoOk 27; MsgModel 24; MsgFirmware 1 29;
        MsgHardware 7;
        MsgHealthTesting; MsgHealthOk; MsgHealthStatus 0;
        MsgHealthErrorCode 0;
        MsgScanTesting; MsgScanRead 25 5; MsgScanRead 25 5; MsgScanRead 25 5;
        MsgScanOk 15].
Proof. cbn zeta. repeat split; vm_compute; reflexivity. Qed.

(** The error code puts byte 8 low and byte 9 high. *)
Example health_error_code_bytes :
  health_error_code
    [xa5; x5a; x03; x00; x00; x00; x06; x02; x34; x12] = 4660.
Proof. reflexivity. Qed.

End Scenarios.

(* ------------------------------------------------------------------ *)
(** ** The probes of a cell, event by event *)

Section ReadingFacts.

Lemma written_app (a b : list Event) : written (a ++ b) = written a ++ written b.
Proof. apply flat_map_app. Qed.

Lemma opened_app (a b : list Event) : opened (a ++ b) = opened a ++ opened b.
Proof. apply flat_map_app. Qed.

Lemma console_app (a b : list Event) : console (a ++ b) = console a ++ console b.
Proof. apply flat_map_app. Qed.

Lemma waiting_total_app (a b : list Event) :
  waiting_total (a ++ b) = waiting_total a + waiting_total b.
Proof.
  induction a as [|e a IH]; cbn [app waiting_total fold_right] in *.
  - reflexivity.
  - fold (waiting_total (a ++ b)). fold (waiting_total a). rewrite IH. lia.
Qed.

Lemma uses_open_app (a b : list Event) : forall cur,
  uses_open cur (a ++ b)
  = uses_open cur a && uses_open (fold_left fd_step a cur) b.
Proof.
  induction a as [|e a IH]; intros cur; cbn [app uses_open fold_left].
  - reflexivity.
  - now rewrite IH, andb_assoc.
Qed.

Lemma events_of_run {A} (c : M A) (s : State) (a : A) (delta : list Event) :
  c s = (a, set_trace (trace s ++ delta) s) ->
  events_of c s = delta
  /\ snd (c s) = set_trace (trace s ++ events_of c s) s.
Proof.
  intros H. unfold events_of. rewrite H. cbn [snd trace set_trace].
  rewrite skipn_length_app. auto.
Qed.

Lemma bind_fst_snd {A B} (c : M A) (k : A -> M B) (s : State) :
  bind c k s = k (fst (c s)) (snd (c s)).
Proof. unfold bind. now destruct (c s). Qed.

End ReadingFacts.

Section PhaseEvents.

Variable host : Host.

Ltac phase_facts :=
  unfold events_of; unfold_prims; cbn [trace set_trace serial_fd];
  repeat case_step; norm_state; rewrite skipn_length_app;
  cbn [forallb phase_event is_phase_msg written flat_map app waiting_total
       fold_right waiting andb];
  rewrite ?Z.eqb_refl; repeat split; try reflexivity; try lia.

Lemma testPort_raw_events (result : TestResult) (s : State) :
  let ev := events_of (testPort_raw host result) s in
  snd (testPort_raw host result s) = set_trace (trace s ++ ev) s
  /\ forallb (phase_event (serial_fd s)) ev = true
  /\ written ev = [reset_cmd]
  /\ 0 <= waiting_total ev <= 600.
Proof. cbn zeta. unfold testPort_raw. phase_facts. Qed.

Lemma testPort_info_events (result : TestResult) (s : State) :
  let ev := events_of (testPort_info host result) s in
  snd (testPort_info host result s) = set_trace (trace s ++ ev) s
  /\ forallb (phase_event (serial_fd s)) ev = true
  /\ written ev = [info_cmd]
  /\ 0 <= waiting_total ev <= 1100.
Proof. cbn zeta. unfold testPort_info. phase_facts. Qed.

Lemma testPort_health_events (result : TestResult) (s : State) :
  let ev := events_of (testPort_health host result) s in
  snd (testPort_health host result s) = set_trace (trace s ++ ev) s
  /\ forallb (phase_event (serial_fd s)) ev = true
  /\ written ev = [health_cmd]
  /\ 0 <= waiting_total ev <= 1100.
Proof. cbn zeta. unfold testPort_health. phase_facts. Qed.

Lemma scan_loop_events (remaining : nat) :
  forall (attempts total : Z) (s : State),
  let ev := events_of (scan_loop host remaining attempts total) s in
  snd (scan_loop host remaining attempts total s)
  = set_trace (trace s ++ ev) s
  /\ forallb (phase_event (serial_fd s)) ev = true
  /\ written ev = []
  /\ 0 <= waiting_total ev <= 300 * Z.of_nat remaining.
Proof.
  induction remaining as [|n IH]; intros attempts total s; cbn zeta.
  - unfold events_of. cbn [scan_loop]. unfold ret. cbn [snd].
    rewrite skipn_all, app_nil_r, set_trace_same. cbn. repeat split; lia.
  - unfold events_of. cbn [scan_loop]. unfold_prims.
    cbn [trace set_trace serial_fd].
    set (r := h_read host (trace s) (serial_fd s) 2048 200).
    destruct (read_returns 2048 r) as [bytes buffer].
    destruct (bytes >? 0).
    + destruct (total + Z.quot bytes 5 >? 10).
      * norm_state. rewrite skipn_length_app.
        cbn [forallb phase_event is_phase_msg written flat_map app
             waiting_total fold_right waiting andb].
        rewrite Z.eqb_refl. repeat split; lia.
      * norm_state.
        match goal with |- context [scan_loop host n ?a ?t ?st] =>
          destruct (IH a t st) as (Hs & Hp & Hw & Ht);
          set (loop := scan_loop host n a t st) in *;
          set (ev := events_of (scan_loop host n a t) st) in * end.
        cbn [serial_fd set_trace trace] in Hs, Hp. rewrite Hs.
        norm_state. rewrite skipn_length_app.
        change (?a :: ?b :: ?c :: ev) with ([a; b; c] ++ ev).
        rewrite forallb_app, written_app, waiting_total_app, Hp, Hw.
        cbn [forallb phase_event is_phase_msg written flat_map app
             waiting_total fold_right waiting andb].
        rewrite Z.eqb_refl. repeat split; lia.
    + norm_state.
      match goal with |- context [scan_loop host n ?a ?t ?st] =>
        destruct (IH a t st) as (Hs & Hp & Hw & Ht);
        set (loop := scan_loop host n a t st) in *;
        set (ev := events_of (scan_loop host n a t) st) in * end.
      cbn [serial_fd set_trace trace] in Hs, Hp. rewrite Hs.
      norm_state. rewrite skipn_length_app.
      change (?a :: ?b :: ?c :: ev) with ([a; b; c] ++ ev).
      rewrite forallb_app, written_app, waiting_total_app, Hp, Hw.
      cbn [forallb phase_event is_phase_msg written flat_map app
           waiting_total fold_right waiting andb].
      rewrite Z.eqb_refl. repeat split; lia.
Qed.

Lemma testPort_scan_events (result : TestResult) (s : State) :
  let ev := events_of (testPort_scan host result) s in
  snd (testPort_scan host result s) = set_trace (trace s ++ ev) s
  /\ forallb (phase_event (serial_fd s)) ev = true
  /\ written ev = [scan_cmd]
  /\ 0 <= waiting_total ev <= 6500.
Proof.
  cbn zeta.
  assert (H : exists (r' : TestResult) (delta : list Event),
             testPort_scan host result s
             = (r', set_trace (trace s ++ delta) s)
             /\ forallb (phase_event (serial_fd s)) delta = true
             /\ written delta = [scan_cmd]
             /\ 0 <= waiting_total delta <= 6500).
  { unfold testPort_scan.
    unfold bind at 1. unfold cout, emit, modify.
    unfold bind at 1. unfold writeData at 1.
    unfold bind at 1. unfold get. unfold bind at 1.
    unfold sys_write, ret at 1.
    cbn [trace set_trace serial_fd].
    set (n := h_write host _ _ _).
    destruct (n =? Z.of_nat (List.length scan_cmd)).
    - unfold bind at 1. unfold sleep_for, emit, modify. norm_state.
      set (st := set_trace _ s).
      destruct (scan_loop_events (Z.to_nat max_attempts) 0 0 st)
        as (Hs & Hp & Hw & Ht).
      set (ev := events_of (scan_loop host (Z.to_nat max_attempts) 0 0) st)
        in *.
      rewrite bind_fst_snd. rewrite Hs. clear Hs. subst st.
      cbn [serial_fd set_trace trace] in Hp.
      destruct (fst (scan_loop host _ _ _ _)) as [ok total].
      change (Z.of_nat (Z.to_nat max_attempts)) with 20 in Ht.
      eexists.
      exists ([EvCout MsgScanTesting; EvWrite (serial_fd s) scan_cmd n;
               EvSleep 500] ++ ev
              ++ [EvCout (if scan_start_success
                               (set_scan_points_received total
                                  (if ok then set_scan_start_success true result
                                   else result))
                          then MsgScanOk total else MsgScanNone)]).
      rewrite !forallb_app, !written_app, !waiting_total_app, Hp, Hw.
      split.
      + destruct (scan_start_success _); unfold_prims; norm_state;
          reflexivity.
      + destruct (scan_start_success _);
          cbn [forallb phase_event is_phase_msg written flat_map app
               waiting_total fold_right waiting andb];
          rewrite Z.eqb_refl; repeat split; lia.
    - unfold ret. norm_state. eexists. eexists. split; [reflexivity|].
      cbn [forallb phase_event is_phase_msg written flat_map app
           waiting_total fold_right waiting andb].
      rewrite Z.eqb_refl. repeat split; lia. }
  destruct H as (r' & delta & H & Hp & Hw & Ht).
  destruct (events_of_run _ _ _ _ H) as [-> ->]. auto.
Qed.

(** The three protocol probes: the command goes out, its answer is read,
    and the outcome is decided by this answer. *)
Lemma raw_phase_exchange (result : TestResult) (s : State) :
  let n := command_answer host s MsgRawTesting reset_cmd in
  let resp := read_answer host s MsgRawTesting reset_cmd 500 in
  (exists msgs : list ConsoleMsg,
     events_of (testPort_raw host result) s
     = exchange (serial_fd s) MsgRawTesting reset_cmd n 500 resp
         ++ map EvCout msgs)
  /\ fst (testPort_raw host result s)
     = if (n =? 2) && any_bytes resp
       then set_raw_communication true result else result.
Proof.
  cbn zeta. unfold events_of, testPort_raw, command_answer, read_answer,
    exchange. unfold_prims. cbn [trace set_trace serial_fd].
  rewrite <- ?app_assoc. cbn [app].
  set (n := h_write host _ _ _). change (Z.of_nat (List.length reset_cmd))
    with 2.
  destruct (n =? 2); cbn [andb].
  - cbn [trace set_trace serial_fd]. rewrite <- ?app_assoc. cbn [app].
    set (resp := h_read host _ _ _ _).
    assert (Hok : any_bytes resp = (0 <? fst (read_returns 256 resp)))
      by reflexivity.
    destruct (read_returns 256 resp) as [bytes buffer]. cbn [fst] in Hok.
    replace (bytes >? 0) with (0 <? bytes) by lia. rewrite Hok.
    destruct (0 <? bytes); norm_state; rewrite skipn_length_app;
      (split; [eexists [_]; reflexivity | reflexivity]).
  - norm_state. rewrite skipn_length_app.
    split; [exists []; reflexivity | reflexivity].
Qed.

Lemma info_phase_exchange (result : TestResult) (s : State) :
  let n := command_answer host s MsgInfoTesting info_cmd in
  let resp := read_answer host s MsgInfoTesting info_cmd 1000 in
  (exists msgs : list ConsoleMsg,
     events_of (testPort_info host result) s
     = exchange (serial_fd s) MsgInfoTesting info_cmd n 1000 resp
         ++ map EvCout msgs)
  /\ fst (testPort_info host result s)
     = if (n =? 2) && header_ok 7 resp
       then set_device_info_success true result else result.
Proof.
  cbn zeta. unfold events_of, testPort_info, command_answer, read_answer,
    exchange. unfold_prims. cbn [trace set_trace serial_fd].
  rewrite <- ?app_assoc. cbn [app].
  set (n := h_write host _ _ _). change (Z.of_nat (List.length info_cmd))
    with 2.
  destruct (n =? 2); cbn [andb].
  - cbn [trace set_trace serial_fd]. rewrite <- ?app_assoc. cbn [app].
    set (resp := h_read host _ _ _ _).
    assert (Hok : header_ok 7 resp
                  = let (bytes, buffer) := read_returns 256 resp in
                    (7 <=? bytes) && Byte.eqb (at_ buffer 0) xa5
                    && Byte.eqb (at_ buffer 1) x5a) by reflexivity.
    destruct (read_returns 256 resp) as [bytes buffer].
    rewrite u8_is_a5, u8_is_5a.
    replace (bytes >=? 7) with (7 <=? bytes) by lia.
    rewrite <- andb_assoc in Hok. rewrite Hok.
    destruct (7 <=? bytes); cbn [andb];
      [destruct (Byte.eqb (at_ buffer 0) xa5 && Byte.eqb (at_ buffer 1) x5a);
       [destruct (bytes >=? 20)|]|];
      norm_state; rewrite skipn_length_app;
      (split; [|reflexivity]).
    + eexists [_; _; _; _]. reflexivity.
    + eexists [_]. reflexivity.
    + eexists [_]. reflexivity.
    + eexists [_]. reflexivity.
  - norm_state. rewrite skipn_length_app.
    split; [exists []; reflexivity | reflexivity].
Qed.

Lemma health_phase_exchange (result : TestResult) (s : State) :
  let n := command_answer host s MsgHealthTesting health_cmd in
  let resp := read_answer host s MsgHealthTesting health_cmd 1000 in
  (exists msgs : list ConsoleMsg,
     events_of (testPort_health host result) s
     = exchange (serial_fd s) MsgHealthTesting health_cmd n 1000 resp
         ++ map EvCout msgs)
  /\ fst (testPort_health host result s)
     = if (n =? 2) && header_ok 10 resp
       then set_health_check_success true result else result.
Proof.
  cbn zeta. unfold events_of, testPort_health, command_answer, read_answer,
    exchange. unfold_prims. cbn [trace set_trace serial_fd].
  rewrite <- ?app_assoc. cbn [app].
  set (n := h_write host _ _ _). change (Z.of_nat (List.length health_cmd))
    with 2.
  destruct (n =? 2); cbn [andb].
  - cbn [trace set_trace serial_fd]. rewrite <- ?app_assoc. cbn [app].
    set (resp := h_read host _ _ _ _).
    assert (Hok : header_ok 10 resp
                  = let (bytes, buffer) := read_returns 256 resp in
                    (10 <=? bytes) && Byte.eqb (at_ buffer 0) xa5
                    && Byte.eqb (at_ buffer 1) x5a) by reflexivity.
    destruct (read_returns 256 resp) as [bytes buffer].
    rewrite u8_is_a5, u8_is_5a.
    replace (bytes >=? 10) with (10 <=? bytes) by lia.
    rewrite <- andb_assoc in Hok. rewrite Hok.
    destruct (10 <=? bytes); cbn [andb];
      [destruct (Byte.eqb (at_ buffer 0) xa5 && Byte.eqb (at_ buffer 1) x5a)
      |];
      norm_state; rewrite skipn_length_app;
      (split; [|reflexivity]).
    + eexists [_; _; _]. reflexivity.
    + eexists [_]. reflexivity.
    + eexists [_]. reflexivity.
  - norm_state. rewrite skipn_length_app.
    split; [exists []; reflexivity | reflexivity].
Qed.

(** The waiting of a probe whose command is taken and not answered, and of
    a probe whose command is not taken. *)
Lemma waiting_total_couts (msgs : list ConsoleMsg) :
  waiting_total (map EvCout msgs) = 0.
Proof.
  induction msgs as [|m msgs IH]; cbn [map waiting_total fold_right waiting].
  - reflexivity.
  - fold (waiting_total (map EvCout msgs)). rewrite IH. reflexivity.
Qed.

Lemma exchange_waiting (fd : Z) (m : ConsoleMsg) (cmd : list byte)
    (n T : Z) (resp : ReadOutcome) (msgs : list ConsoleMsg) :
  let ev := exchange fd m cmd n T resp ++ map EvCout msgs in
  List.length cmd = 2%nat ->
  (forallb mute ev = true -> waiting_total ev = 100 + T)
  /\ (forallb refusing ev = true -> waiting_total ev = 0).
Proof.
  cbn zeta. intros L. unfold exchange.
  rewrite !forallb_app, !waiting_total_app, waiting_total_couts.
  cbn [forallb mute refusing]. rewrite L. change (Z.of_nat 2) with 2.
  destruct (n =? 2); cbn [andb negb waiting_total fold_right waiting];
    split; intros H; try discriminate; lia.
Qed.

Lemma scan_loop_waiting (remaining : nat) :
  forall (attempts total : Z) (s : State),
  let ev := events_of (scan_loop host remaining attempts total) s in
  forallb mute ev = true -> waiting_total ev = 300 * Z.of_nat remaining.
Proof.
  induction remaining as [|n IH]; intros attempts total s; cbn zeta.
  - unfold events_of. cbn [scan_loop]. unfold ret. cbn [snd].
    rewrite skipn_all. reflexivity.
  - unfold events_of. cbn [scan_loop]. unfold_prims.
    cbn [trace set_trace serial_fd].
    set (r := h_read host (trace s) (serial_fd s) 2048 200).
    destruct (read_returns 2048 r) as [bytes buffer] eqn:Hr.
    destruct (bytes >? 0) eqn:Hb.
    + assert (Hm : mute (EvRead (serial_fd s) 2048 200 r) = false).
      { cbn [mute]. rewrite Hr. cbn [fst]. lia. }
      destruct (total + Z.quot bytes 5 >? 10).
      * norm_state. rewrite skipn_length_app. cbn [forallb].
        rewrite Hm. discriminate.
      * norm_state.
        match goal with |- context [scan_loop host n ?a ?t ?st] =>
          destruct (scan_loop_events n a t st) as (Hs & _);
          set (ev := events_of (scan_loop host n a t) st) in * end.
        cbn [serial_fd set_trace trace] in Hs. rewrite Hs.
        norm_state. rewrite skipn_length_app. cbn [forallb].
        rewrite Hm. discriminate.
    + norm_state.
      match goal with |- context [scan_loop host n ?a ?t ?st] =>
        destruct (scan_loop_events n a t st) as (Hs & _);
        pose proof (IH a t st) as Hw; cbn zeta in Hw;
        set (ev := events_of (scan_loop host n a t) st) in * end.
      cbn [serial_fd set_trace trace] in Hs. rewrite Hs.
      norm_state. rewrite skipn_length_app.
      change (?a :: ?b :: ?c :: ev) with ([a; b; c] ++ ev).
      rewrite forallb_app, waiting_total_app. intros H.
      apply andb_true_iff in H. destruct H as [_ H]. rewrite (Hw H).
      cbn [waiting_total fold_right waiting]. lia.
Qed.

Lemma testPort_scan_waiting (result : TestResult) (s : State) :
  let ev := events_of (testPort_scan host result) s in
  (forallb mute ev = true -> waiting_total ev = 6500)
  /\ (forallb refusing ev = true -> waiting_total ev = 0).
Proof.
  cbn zeta.
  assert (H : exists (r' : TestResult) (delta : list Event),
             testPort_scan host result s
             = (r', set_trace (trace s ++ delta) s)
             /\ (forallb mute delta = true -> waiting_total delta = 6500)
             /\ (forallb refusing delta = true -> waiting_total delta = 0)).
  { unfold testPort_scan.
    unfold bind at 1. unfold cout, emit, modify.
    unfold bind at 1. unfold writeData at 1.
    unfold bind at 1. unfold get. unfold bind at 1.
    unfold sys_write, ret at 1.
    cbn [trace set_trace serial_fd].
    set (n := h_write host _ _ _).
    destruct (n =? Z.of_nat (List.length scan_cmd)) eqn:Hn.
    - unfold bind at 1. unfold sleep_for, emit, modify. norm_state.
      set (st := set_trace _ s).
      destruct (scan_loop_events (Z.to_nat max_attempts) 0 0 st)
        as (Hs & _).
      pose proof (scan_loop_waiting (Z.to_nat max_attempts) 0 0 st) as Hw.
      cbn zeta in Hw.
      set (ev := events_of (scan_loop host (Z.to_nat max_attempts) 0 0) st)
        in *.
      rewrite bind_fst_snd. rewrite Hs. clear Hs. subst st.
      destruct (fst (scan_loop host _ _ _ _)) as [ok total].
      change (Z.of_nat (Z.to_nat max_attempts)) with 20 in Hw.
      eexists.
      exists ([EvCout MsgScanTesting; EvWrite (serial_fd s) scan_cmd n;
               EvSleep 500] ++ ev
              ++ [EvCout (if scan_start_success
                               (set_scan_points_received total
                                  (if ok then set_scan_start_success true result
                                   else result))
                          then MsgScanOk total else MsgScanNone)]).
      rewrite !forallb_app, !waiting_total_app.
      split; [|split].
      + destruct (scan_start_success _); unfold_prims; norm_state;
          reflexivity.
      + intros H. apply andb_true_iff in H. destruct H as [_ H].
        apply andb_true_iff in H. destruct H as [H _]. rewrite (Hw H).
        cbn [waiting_total fold_right waiting]. lia.
      + cbn [forallb refusing]. rewrite Hn. cbn [negb andb]. discriminate.
    - unfold ret. norm_state. eexists. eexists. split; [reflexivity|].
      cbn [forallb mute]. rewrite Hn. cbn [andb].
      split; [discriminate | reflexivity]. }
  destruct H as (r' & delta & H & Hm & Hr).
  destruct (events_of_run _ _ _ _ H) as [-> _]. auto.
Qed.

End PhaseEvents.

(** ** A cell that opened, probe by probe *)

Section CellSplit.

Variable host : Host.

Lemma cell_stages (p : string) (b : Z) (s : State) :
  trace (snd (after_scan host p b s))
  = trace (cell_opened host p b s)
      ++ raw_events host p b s ++ info_events host p b s
      ++ health_events host p b s ++ scan_events host p b s
  /\ serial_fd (snd (after_raw host p b s)) = cell_fd host p b s
  /\ serial_fd (snd (after_info host p b s)) = cell_fd host p b s
  /\ serial_fd (snd (after_health host p b s)) = cell_fd host p b s
  /\ serial_fd (snd (after_scan host p b s)) = cell_fd host p b s.
Proof.
  pose proof (proj1 (testPort_raw_events host (initial_result p b)
                       (cell_opened host p b s))) as H1.
  pose proof (proj1 (testPort_info_events host (fst (after_raw host p b s))
                       (snd (after_raw host p b s)))) as H2.
  pose proof (proj1 (testPort_health_events host
                       (fst (after_info host p b s))
                       (snd (after_info host p b s)))) as H3.
  pose proof (proj1 (testPort_scan_events host
                       (fst (after_health host p b s))
                       (snd (after_health host p b s)))) as H4.
  cbn zeta in *.
  fold (after_raw host p b s) in H1. fold (raw_events host p b s) in H1.
  fold (after_info host p b s) in H2. fold (info_events host p b s) in H2.
  fold (after_health host p b s) in H3.
  fold (health_events host p b s) in H3.
  fold (after_scan host p b s) in H4. fold (scan_events host p b s) in H4.
  rewrite H4, H3, H2, H1.
  cbn [trace set_trace serial_fd]. rewrite <- !app_assoc.
  repeat split; reflexivity.
Qed.

Ltac open_cell t0 before fd :=
  unfold testPort;
  unfold bind at 1; unfold clock_now at 1;
  unfold bind at 1; unfold cout at 1, emit, modify;
  cbn [trace set_trace];
  erewrite bind_run by apply openSerial_run;
  cbn [trace set_trace serial_fd]; rewrite <- !app_assoc; cbn [app];
  fold t0 before fd.

(** The events of a cell that opened: announcement, open, the four probes,
    STOP, close. *)
Lemma cell_events_split (p : string) (b : Z) (s : State) :
  let fd := cell_fd host p b s in
  fd <> -1 ->
  exists n t1 : Z,
    cell_events host p b s
    = [EvClock (h_clock host (trace s)); EvCout (MsgTesting p b)]
        ++ closing (serial_fd s)
        ++ [EvOpen p fd; EvConfigure fd (speed_of_baudrate b)]
        ++ raw_events host p b s ++ info_events host p b s
        ++ health_events host p b s ++ scan_events host p b s
        ++ [EvWrite fd stop_cmd n; EvSleep 100; EvClose fd; EvClock t1]
    /\ fst (testPort host p b s)
       = set_test_duration_ms (t1 - h_clock host (trace s))
           (fst (after_scan host p b s)).
Proof.
  cbn zeta. intros E.
  destruct (cell_stages p b s) as (Htr & F1 & F2 & F3 & F4).
  unfold cell_events.
  destruct (testPort host p b s) as [R S] eqn:Hrun. revert Hrun.
  set (t0 := h_clock host (trace s)).
  set (before := trace s ++ EvClock t0 :: EvCout (MsgTesting p b)
                         :: closing (serial_fd s)).
  set (fd := h_open host before p).
  open_cell t0 before fd.
  assert (Efd : fd = cell_fd host p b s) by reflexivity.
  assert (Hfd : (fd =? -1) = false) by lia.
  rewrite Hfd. cbn [negb].
  set (s1 := set_serial_fd fd (set_trace _ _)).
  assert (Es1 : s1 = cell_opened host p b s).
  { subst s1 before. unfold cell_opened, cell_before. fold t0.
    rewrite <- Efd, !set_trace_twice, <- !app_assoc. reflexivity. }
  rewrite Es1. clear s1 Es1.
  rewrite bind_fst_snd.
  change (testPort_raw host _ (cell_opened host p b s))
    with (after_raw host p b s).
  rewrite bind_fst_snd.
  change (testPort_info host _ _) with (after_info host p b s).
  rewrite bind_fst_snd.
  change (testPort_health host _ _) with (after_health host p b s).
  rewrite bind_fst_snd.
  change (testPort_scan host _ _) with (after_scan host p b s).
  erewrite bind_run by apply testPort_stop_run.
  erewrite bind_run by apply closeSerial_run.
  unfold clock_now, bind, ret.
  cbn [trace set_trace set_serial_fd serial_fd].
  rewrite F4, Htr.
  assert (Hc : closing (cell_fd host p b s) = [EvClose (cell_fd host p b s)]).
  { unfold closing. rewrite <- Efd. now rewrite Hfd. }
  rewrite Hc. intros Hrun. injection Hrun as HR HS. subst R S.
  cbn [fst snd trace set_trace set_serial_fd serial_fd].
  eexists. eexists. split; [|reflexivity].
  unfold cell_opened, cell_before. cbn [trace set_trace set_serial_fd].
  rewrite <- !app_assoc. rewrite skipn_length_app.
  cbn [app]. rewrite <- ?app_assoc. cbn [app]. reflexivity.
Qed.

End CellSplit.

(** ** What a cell does to the serial line *)

Section CellProperties.

Variable host : Host.

Lemma phase_events_fds (fd : Z) (evs : list Event) :
  forallb (phase_event fd) evs = true ->
  forall cur : list Z, existsb (Z.eqb fd) cur = true ->
  uses_open cur evs = true /\ fold_left fd_step evs cur = cur.
Proof.
  induction evs as [|e evs IH]; cbn [forallb]; intros H cur Hc.
  - split; reflexivity.
  - apply andb_prop in H as [He Hd].
    destruct (IH Hd cur Hc) as [I1 I2].
    destruct e; cbn in He; try discriminate; cbn [uses_open fold_left fd_step];
      try (apply Z.eqb_eq in He; subst); rewrite ?Hc, I1, I2; auto.
Qed.

Lemma phase_events_plain (fd : Z) (evs : list Event) :
  forallb (phase_event fd) evs = true ->
  opened evs = []
  /\ forallb (fun e => negb (is_clock e)) evs = true
  /\ forallb (fun e => negb (is_configure e)) evs = true.
Proof.
  induction evs as [|e evs IH]; cbn [forallb]; intros H.
  - repeat split.
  - apply andb_prop in H as [He Hd]. destruct (IH Hd) as (I1 & I2 & I3).
    destruct e; cbn in He; try discriminate; cbn; now rewrite ?I1, ?I2, ?I3.
Qed.

(** The events of the four probes of a cell, taken together. *)
Lemma cell_probes (p : string) (b : Z) (s : State) :
  let probes := raw_events host p b s ++ info_events host p b s
                  ++ health_events host p b s ++ scan_events host p b s in
  forallb (phase_event (cell_fd host p b s)) probes = true
  /\ written probes = [reset_cmd; info_cmd; health_cmd; scan_cmd]
  /\ 0 <= waiting_total probes <= 9300.
Proof.
  cbn zeta.
  destruct (cell_stages host p b s) as (_ & F1 & F2 & F3 & _).
  destruct (testPort_raw_events host (initial_result p b)
              (cell_opened host p b s)) as (_ & P1 & W1 & T1).
  destruct (testPort_info_events host (fst (after_raw host p b s))
              (snd (after_raw host p b s))) as (_ & P2 & W2 & T2).
  destruct (testPort_health_events host (fst (after_info host p b s))
              (snd (after_info host p b s))) as (_ & P3 & W3 & T3).
  destruct (testPort_scan_events host (fst (after_health host p b s))
              (snd (after_health host p b s))) as (_ & P4 & W4 & T4).
  cbn zeta in *. rewrite F1 in P2. rewrite F2 in P3. rewrite F3 in P4.
  change (serial_fd (cell_opened host p b s)) with (cell_fd host p b s) in P1.
  fold (raw_events host p b s) in P1, W1, T1.
  fold (info_events host p b s) in P2, W2, T2.
  fold (health_events host p b s) in P3, W3, T3.
  fold (scan_events host p b s) in P4, W4, T4.
  rewrite !forallb_app, !written_app, !waiting_total_app, P1, P2, P3, P4,
    W1, W2, W3, W4.
  repeat split; lia.
Qed.

Lemma closing_plain (fd : Z) :
  written (closing fd) = [] /\ opened (closing fd) = []
  /\ waiting_total (closing fd) = 0
  /\ forallb (fun e => negb (is_clock e)) (closing fd) = true
  /\ forallb (fun e => negb (is_configure e)) (closing fd) = true
  /\ uses_open (held fd) (closing fd) = true.
Proof.
  unfold closing, held. destruct (fd =? -1) eqn:E; cbn; rewrite ?Z.eqb_refl;
    repeat split; reflexivity.
Qed.

Lemma cell_fd_cases (p : string) (b : Z) (s : State) :
  (open_succeeds host p b s = false /\ cell_fd host p b s = -1)
  \/ (open_succeeds host p b s = true /\ cell_fd host p b s <> -1).
Proof.
  rewrite open_succeeds_fd.
  destruct (cell_fd host p b s =? -1) eqn:K; [left | right]; split;
    auto; lia.
Qed.

(** Each probe leaves the outcomes of the earlier ones alone. *)
Lemma cell_flags (p : string) (b : Z) (s : State) :
  let r := fst (after_scan host p b s) in
  raw_communication r = raw_communication (fst (after_raw host p b s))
  /\ device_info_success r = device_info_success (fst (after_info host p b s))
  /\ health_check_success r
     = health_check_success (fst (after_health host p b s)).
Proof.
  cbn zeta.
  destruct (testPort_info_run host (fst (after_raw host p b s))
              (snd (after_raw host p b s))) as (o2 & d2 & H2 & _).
  fold (after_info host p b s) in H2.
  destruct (testPort_health_run host (fst (after_info host p b s))
              (snd (after_info host p b s))) as (o3 & d3 & H3 & _).
  fold (after_health host p b s) in H3.
  destruct (testPort_scan_run host (fst (after_health host p b s))
              (snd (after_health host p b s)))
    as (r4 & ok & total & d4 & H4 & Hr4 & _).
  fold (after_scan host p b s) in H4.
  rewrite H4. cbn [fst].
  assert (K : raw_communication r4
              = raw_communication (fst (after_health host p b s))
              /\ device_info_success r4
                 = device_info_success (fst (after_health host p b s))
              /\ health_check_success r4
                 = health_check_success (fst (after_health host p b s))).
  { destruct Hr4 as [(-> & _) | ->]; [auto|]. now destruct ok. }
  destruct K as (K1 & K2 & K3). rewrite K1, K2, K3, H3. cbn [fst].
  rewrite H2. cbn [fst]. now destruct o2, o3.
Qed.

(** The raw probe, from any state and with any result so far. *)
Lemma raw_phase_run (result : TestResult) (s : State) :
  let r' := fst (testPort_raw host result s) in
  let ev := events_of (testPort_raw host result) s in
  r' = (if answered any_bytes ev
        then set_raw_communication true result else result)
  /\ (forall fd m t resp, In (EvRead fd m t resp) ev ->
      fd = serial_fd s /\ m = 256 /\ t = 500).
Proof.
  cbn zeta. unfold events_of, testPort_raw. unfold_prims.
  cbn [trace set_trace serial_fd].
  set (n := h_write host _ _ _).
  destruct (n =? Z.of_nat (List.length reset_cmd)).
  - set (resp := h_read host _ _ _ _).
    assert (Hok : any_bytes resp = (0 <? fst (read_returns 256 resp)))
      by reflexivity.
    destruct (read_returns 256 resp) as [bytes buffer]. cbn [fst] in Hok.
    replace (bytes >? 0) with (0 <? bytes) by lia.
    destruct (0 <? bytes); norm_state; rewrite skipn_length_app;
      unfold answered; cbn [existsb]; rewrite Hok; cbn [orb];
      (split; [reflexivity | pick_read; auto]).
  - norm_state. rewrite skipn_length_app.
    split; [reflexivity | pick_read].
Qed.

(** In a cell that opened, each of the three flags of the result is the
    one that its probe sets, from the answer that this probe reads. *)
Lemma cell_flag_values (p : string) (b : Z) (s : State) :
  cell_fd host p b s <> -1 ->
  let r := fst (testPort host p b s) in
  let s1 := cell_opened host p b s in
  let s2 := snd (after_raw host p b s) in
  let s3 := snd (after_info host p b s) in
  (raw_communication r
   = (command_answer host s1 MsgRawTesting reset_cmd =? 2)
     && any_bytes (read_answer host s1 MsgRawTesting reset_cmd 500)
   /\ raw_communication r = answered any_bytes (raw_events host p b s))
  /\ (device_info_success r
      = (command_answer host s2 MsgInfoTesting info_cmd =? 2)
        && header_ok 7 (read_answer host s2 MsgInfoTesting info_cmd 1000)
      /\ device_info_success r
         = answered (header_ok 7) (info_events host p b s))
  /\ (health_check_success r
      = (command_answer host s3 MsgHealthTesting health_cmd =? 2)
        && header_ok 10 (read_answer host s3 MsgHealthTesting health_cmd 1000)
      /\ health_check_success r
         = answered (header_ok 10) (health_events host p b s)).
Proof.
  intros E. cbn zeta.
  destruct (cell_events_split host p b s E) as (n & t1 & _ & ->).
  destruct (cell_flags p b s) as (F1 & F2 & F3).
  cbn [set_test_duration_ms raw_communication device_info_success
       health_check_success].
  rewrite F1, F2, F3. clear F1 F2 F3.
  destruct (raw_phase_exchange host (initial_result p b)
              (cell_opened host p b s)) as (_ & X1).
  destruct (raw_phase_run (initial_result p b) (cell_opened host p b s))
    as (A1 & _).
  destruct (info_phase_exchange host (fst (after_raw host p b s))
              (snd (after_raw host p b s))) as (_ & X2).
  destruct (info_phase_run host (fst (after_raw host p b s))
              (snd (after_raw host p b s))) as (A2 & _).
  destruct (health_phase_exchange host (fst (after_info host p b s))
              (snd (after_info host p b s))) as (_ & X3).
  destruct (health_phase_run host (fst (after_info host p b s))
              (snd (after_info host p b s))) as (A3 & _).
  cbn zeta in *.
  fold (after_raw host p b s) in X1, A1.
  fold (raw_events host p b s) in A1.
  fold (after_info host p b s) in X2, A2.
  fold (info_events host p b s) in A2.
  fold (after_health host p b s) in X3, A3.
  fold (health_events host p b s) in A3.
  match type of X1 with _ = (if ?c then _ else _) =>
    set (b1 := c) in *; clearbody b1 end.
  match type of X2 with _ = (if ?c then _ else _) =>
    set (b2 := c) in *; clearbody b2 end.
  match type of X3 with _ = (if ?c then _ else _) =>
    set (b3 := c) in *; clearbody b3 end.
  match type of A1 with _ = (if ?c then _ else _) =>
    set (a1 := c) in *; clearbody a1 end.
  match type of A2 with _ = (if ?c then _ else _) =>
    set (a2 := c) in *; clearbody a2 end.
  match type of A3 with _ = (if ?c then _ else _) =>
    set (a3 := c) in *; clearbody a3 end.
  assert (I0 : device_info_success (fst (after_raw host p b s)) = false)
    by (rewrite X1; now destruct b1).
  assert (H0 : health_check_success (fst (after_info host p b s)) = false)
    by (rewrite X2, X1; now destruct b1, b2).
  split; [|split]; split.
  - rewrite X1. now destruct b1.
  - rewrite A1. now destruct a1.
  - rewrite X2. destruct b2; [reflexivity | exact I0].
  - rewrite A2. destruct a2; [reflexivity | exact I0].
  - rewrite X3. destruct b3; [reflexivity | exact H0].
  - rewrite A3. destruct a3; [reflexivity | exact H0].
Qed.

(** X3.  The raw probe prints its announcement and writes RESET
    (0xA5 0x40); when the write took both bytes it waits 100 ms and makes
    one read, on the descriptor of the cell, with room for 256 bytes and a
    time-out of 500 ms, and it does nothing else but print.  It sets
    [raw_communication] exactly when this read delivered at least one byte.
    The bytes themselves are not looked at: any non-empty answer counts,
    while a time-out, a failed read and an empty read do not.  In a cell
    that opened, the flag of the result is the one this probe sets. *)
Theorem raw_phase_sets_raw_communication :
  (forall (result : TestResult) (s : State),
     let r' := fst (testPort_raw host result s) in
     let ev := events_of (testPort_raw host result) s in
     let n := command_answer host s MsgRawTesting reset_cmd in
     let resp := read_answer host s MsgRawTesting reset_cmd 500 in
     (exists msgs : list ConsoleMsg,
        ev = exchange (serial_fd s) MsgRawTesting [xa5; x40] n 500 resp
               ++ map EvCout msgs)
     /\ r' = (if (n =? 2) && any_bytes resp
              then set_raw_communication true result else result)
     /\ r' = (if answered any_bytes ev
              then set_raw_communication true result else result)
     /\ (forall fd m t resp, In (EvRead fd m t resp) ev ->
         fd = serial_fd s /\ m = 256 /\ t = 500)
     /\ written ev = [[xa5; x40]])
  /\ (forall (x : byte) (data : list byte),
      any_bytes (ReadBytes (x :: data)) = true)
  /\ any_bytes (ReadBytes []) = false
  /\ any_bytes NotReady = false
  /\ any_bytes ReadFail = false
  /\ (forall (p : string) (b : Z) (s : State),
      open_succeeds host p b s = true ->
      let st := cell_opened host p b s in
      raw_communication (fst (testPort host p b s))
      = (command_answer host st MsgRawTesting reset_cmd =? 2)
        && any_bytes (read_answer host st MsgRawTesting reset_cmd 500)
      /\ raw_communication (fst (testPort host p b s))
         = answered any_bytes (raw_events host p b s)
      /\ exists pre post : list Event,
           cell_events host p b s = pre ++ raw_events host p b s ++ post).
Proof.
  split; [|split; [|split; [|split; [|split]]]]; try reflexivity.
  - intros result s. cbn zeta.
    destruct (raw_phase_exchange host result s) as [X1 X2].
    destruct (raw_phase_run result s) as [H1 H2].
    destruct (testPort_raw_events host result s) as (_ & _ & W & _).
    auto 10.
  - intros p b s H. cbn zeta.
    destruct (cell_fd_cases p b s) as [[K _] | [_ E]]; [congruence|].
    destruct (cell_events_split host p b s E) as (n & t1 & Hev & _).
    destruct (cell_flag_values p b s E) as ((F1 & F2) & _).
    cbn zeta in F1, F2.
    split; [exact F1|]. split; [exact F2|].
    rewrite Hev.
    exists ([EvClock (h_clock host (trace s)); EvCout (MsgTesting p b)]
              ++ closing (serial_fd s)
              ++ [EvOpen p (cell_fd host p b s);
                  EvConfigure (cell_fd host p b s) (speed_of_baudrate b)]).
    eexists. rewrite <- !app_assoc. reflexivity.
Qed.

(** The events of a cell that opened, the four probes taken together. *)
Lemma cell_events_grouped (p : string) (b : Z) (s : State) :
  let fd := cell_fd host p b s in
  fd <> -1 ->
  exists (n t1 : Z) (probes : list Event),
    cell_events host p b s
    = [EvClock (h_clock host (trace s)); EvCout (MsgTesting p b)]
        ++ closing (serial_fd s)
        ++ [EvOpen p fd; EvConfigure fd (speed_of_baudrate b)]
        ++ probes
        ++ [EvWrite fd stop_cmd n; EvSleep 100; EvClose fd; EvClock t1]
    /\ test_duration_ms (fst (testPort host p b s))
       = Some (t1 - h_clock host (trace s))
    /\ forallb (phase_event fd) probes = true
    /\ written probes = [reset_cmd; info_cmd; health_cmd; scan_cmd]
    /\ 0 <= waiting_total probes <= 9300.
Proof.
  cbn zeta. intros E.
  destruct (cell_events_split host p b s E) as (n & t1 & Hev & Hr).
  destruct (cell_probes p b s) as (P & W & T). cbn zeta in P, W, T.
  exists n, t1, (raw_events host p b s ++ info_events host p b s
                   ++ health_events host p b s ++ scan_events host p b s).
  split; [|split; [|auto]].
  - rewrite Hev, <- !app_assoc. reflexivity.
  - rewrite Hr. reflexivity.
Qed.

(** X4.  A cell whose port opens writes exactly five commands, in this
    order: RESET, GET_INFO, GET_HEALTH, START_SCAN, STOP.  No probe is
    skipped because an earlier one failed, and none is repeated.  A cell
    whose port does not open writes nothing. *)
Theorem probes_run_whatever_the_device_answers (p : string) (b : Z)
    (s : State) :
  written (cell_events host p b s)
  = if open_succeeds host p b s
    then [[xa5; x40]; [xa5; x50]; [xa5; x52]; [xa5; x20]; [xa5; x25]]
    else [].
Proof.
  destruct (closing_plain (serial_fd s)) as (C1 & _).
  destruct (cell_fd_cases p b s) as [[-> E] | [-> E]].
  - destruct (cell_events_failed host p b s E) as (t1 & _ & ->).
    rewrite !written_app, C1. reflexivity.
  - destruct (cell_events_grouped p b s E)
      as (n & t1 & probes & -> & _ & _ & W & _).
    rewrite !written_app, C1, W. reflexivity.
Qed.

Lemma cell_waiting (p : string) (b : Z) (s : State) :
  0 <= waiting_total (cell_events host p b s)
    <= (if open_succeeds host p b s then 9400 else 0).
Proof.
  destruct (closing_plain (serial_fd s)) as (_ & _ & C3 & _).
  destruct (cell_fd_cases p b s) as [[-> E] | [-> E]].
  - destruct (cell_events_failed host p b s E) as (t1 & _ & ->).
    rewrite !waiting_total_app, C3. cbn. lia.
  - destruct (cell_events_grouped p b s E)
      as (n & t1 & probes & -> & _ & _ & _ & T).
    rewrite !waiting_total_app, C3.
    cbn [waiting_total fold_right waiting]. lia.
Qed.

(** X6.  The time a cell spends waiting on purpose (its sleeps and the
    time-outs it hands to [select]) is at most 9400 ms when the port opens
    and nothing when it does not.  A port that opens, takes every command
    and never delivers a byte costs the full 9400 ms; a port that opens and
    takes no command costs the 100 ms of the sleep after STOP. *)
Theorem cell_waiting_is_bounded (p : string) (b : Z) (s : State) :
  0 <= waiting_total (cell_events host p b s)
    <= (if open_succeeds host p b s then 9400 else 0)
  /\ (open_succeeds host p b s = true ->
      forallb mute (cell_events host p b s) = true ->
      waiting_total (cell_events host p b s) = 9400)
  /\ (open_succeeds host p b s = true ->
      forallb refusing (cell_events host p b s) = true ->
      waiting_total (cell_events host p b s) = 100).
Proof.
  split; [exact (cell_waiting p b s)|].
  destruct (open_succeeds host p b s) eqn:O;
    [|split; intros K; discriminate K].
  destruct (closing_plain (serial_fd s)) as (_ & _ & C3 & _).
  destruct (cell_fd_cases p b s) as [[K _] | [_ E]]; [congruence|].
  destruct (cell_events_split host p b s E) as (n & t1 & -> & _).
  destruct (raw_phase_exchange host (initial_result p b)
              (cell_opened host p b s)) as [[m1 X1] _].
  destruct (info_phase_exchange host (fst (after_raw host p b s))
              (snd (after_raw host p b s))) as [[m2 X2] _].
  destruct (health_phase_exchange host (fst (after_info host p b s))
              (snd (after_info host p b s))) as [[m3 X3] _].
  pose proof (testPort_scan_waiting host (fst (after_health host p b s))
                (snd (after_health host p b s))) as [S1 S2].
  cbn zeta in S1, S2.
  fold (raw_events host p b s) in X1. fold (info_events host p b s) in X2.
  fold (health_events host p b s) in X3.
  fold (scan_events host p b s) in S1, S2.
  pose proof (exchange_waiting (serial_fd (cell_opened host p b s))
                MsgRawTesting reset_cmd
                (command_answer host (cell_opened host p b s) MsgRawTesting
                   reset_cmd) 500
                (read_answer host (cell_opened host p b s) MsgRawTesting
                   reset_cmd 500) m1 eq_refl) as [R1 R2].
  pose proof (exchange_waiting (serial_fd (snd (after_raw host p b s)))
                MsgInfoTesting info_cmd
                (command_answer host (snd (after_raw host p b s))
                   MsgInfoTesting info_cmd) 1000
                (read_answer host (snd (after_raw host p b s))
                   MsgInfoTesting info_cmd 1000) m2 eq_refl) as [I1 I2].
  pose proof (exchange_waiting (serial_fd (snd (after_info host p b s)))
                MsgHealthTesting health_cmd
                (command_answer host (snd (after_info host p b s))
                   MsgHealthTesting health_cmd) 1000
                (read_answer host (snd (after_info host p b s))
                   MsgHealthTesting health_cmd 1000) m3 eq_refl) as [H1 H2].
  cbn zeta in R1, R2, I1, I2, H1, H2.
  rewrite <- X1 in R1, R2. rewrite <- X2 in I1, I2.
  rewrite <- X3 in H1, H2.
  rewrite !forallb_app, !waiting_total_app, C3.
  split; intros _ H;
    repeat (apply andb_true_iff in H;
            let Ha := fresh "Ha" in destruct H as [Ha H]).
  - rewrite (R1 Ha2), (I1 Ha3), (H1 Ha4), (S1 Ha5).
    cbn [waiting_total fold_right waiting]. lia.
  - rewrite (R2 Ha2), (I2 Ha3), (H2 Ha4), (S2 Ha5).
    cbn [waiting_total fold_right waiting]. lia.
Qed.

(** The [open] call of a cell, and the descriptors that the cell uses. *)
Lemma cell_descriptors (p : string) (b : Z) (s : State) :
  opened (cell_events host p b s) = [p]
  /\ uses_open (held (serial_fd s)) (cell_events host p b s) = true.
Proof.
  destruct (closing_plain (serial_fd s)) as (_ & C2 & _ & _ & _ & C6).
  destruct (closing_fds (serial_fd s)) as [K1 _].
  destruct (cell_fd_cases p b s) as [[_ E] | [_ E]].
  - destruct (cell_events_failed host p b s E) as (t1 & _ & ->).
    rewrite !opened_app, !uses_open_app. cbn [fold_left fd_step].
    rewrite K1, C2, C6. split; reflexivity.
  - destruct (cell_events_grouped p b s E)
      as (n & t1 & probes & -> & _ & P & _).
    set (fd := cell_fd host p b s) in *.
    assert (Hfd : (fd =? -1) = false) by lia.
    assert (Hin : existsb (Z.eqb fd) [fd] = true)
      by (cbn; now rewrite Z.eqb_refl).
    destruct (phase_events_fds _ _ P [fd] Hin) as [U1 U2].
    destruct (phase_events_plain _ _ P) as (O & _).
    rewrite !opened_app, !uses_open_app. cbn [fold_left fd_step].
    rewrite K1, C2, C6, O.
    repeat (cbn [fold_left fd_step uses_open existsb remove_first app andb
                 orb];
            rewrite ?Hfd, ?U1, ?U2, ?Z.eqb_refl).
    split; reflexivity.
Qed.

(** X7.  A cell makes one [open] call, on its own port.  Every configure,
    write, read and close of the cell is on a descriptor that is open at
    that moment, also when the object came in holding a descriptor.  When
    the cell is over no descriptor is open and the object holds none,
    whether the port opened or not; the report and the recorded results are
    as before. *)
Theorem cell_descriptor_discipline (p : string) (b : Z) (s : State) :
  let ev := cell_events host p b s in
  let s' := snd (testPort host p b s) in
  opened ev = [p]
  /\ uses_open (held (serial_fd s)) ev = true
  /\ fold_left fd_step ev (held (serial_fd s)) = []
  /\ serial_fd s' = -1
  /\ log_is_open s' = log_is_open s
  /\ log_file s' = log_file s
  /\ results s' = results s.
Proof.
  cbn zeta. rewrite testPort_state.
  cbn [serial_fd log_is_open log_file results set_serial_fd set_trace].
  destruct (cell_events_fds host p b s) as (F & _).
  destruct (cell_descriptors p b s) as [O U].
  split; [exact O|]. split; [exact U|]. split; [exact F|].
  repeat split.
Qed.

(** X8.  A cell reads the clock twice, as its first and as its last act,
    whether the port opens or not, and the duration of its result is the
    second reading minus the first. *)
Theorem duration_spans_the_cell (p : string) (b : Z) (s : State) :
  exists (t1 : Z) (between : list Event),
    cell_events host p b s
    = EvClock (h_clock host (trace s)) :: between ++ [EvClock t1]
    /\ forallb (fun e => negb (is_clock e)) between = true
    /\ test_duration_ms (fst (testPort host p b s))
       = Some (t1 - h_clock host (trace s)).
Proof.
  destruct (closing_plain (serial_fd s)) as (_ & _ & _ & C4 & _).
  destruct (cell_fd_cases p b s) as [[_ E] | [_ E]].
  - destruct (cell_events_failed host p b s E) as (t1 & -> & ->).
    exists t1, (EvCout (MsgTesting p b) :: closing (serial_fd s)
                  ++ [EvOpen p (-1)]).
    split; [|split; [|reflexivity]].
    + cbn [app]. now rewrite <- !app_assoc.
    + cbn [forallb is_clock negb andb]. now rewrite forallb_app, C4.
  - destruct (cell_events_grouped p b s E)
      as (n & t1 & probes & -> & -> & P & _).
    destruct (phase_events_plain _ _ P) as (_ & K & _).
    set (fd := cell_fd host p b s) in *.
    exists t1, (EvCout (MsgTesting p b) :: closing (serial_fd s)
                  ++ [EvOpen p fd; EvConfigure fd (speed_of_baudrate b)]
                  ++ probes ++ [EvWrite fd stop_cmd n; EvSleep 100;
                                EvClose fd]).
    split; [|split; [|reflexivity]].
    + repeat first [rewrite <- app_assoc | progress cbn [app]].
      reflexivity.
    + cbn [forallb is_clock negb andb].
      rewrite !forallb_app, C4, K. reflexivity.
Qed.

End CellProperties.

Lemma raw_phase_sets_raw_communication_witness :
  open_succeeds (host_lidar x11) "/dev/ttyUSB0" 115200
    (constructed (host_lidar x11)) = true
  /\ raw_communication
       (fst (testPort (host_lidar x11) "/dev/ttyUSB0" 115200
               (constructed (host_lidar x11)))) = true.
Proof.
  split; [reflexivity|].
  pose proof (proj2 (proj2 (proj2 (proj2 (proj2
                (raw_phase_sets_raw_communication (host_lidar x11))))))
                "/dev/ttyUSB0"%string 115200 (constructed (host_lidar x11))
                eq_refl) as H.
  cbv zeta in H. destruct H as (_ & H & _).
  exact (eq_trans H eq_refl).
Defined.

Lemma cell_waiting_is_bounded_witness :
  (open_succeeds host_silent "/dev/ttyUSB0" 115200 (constructed host_silent)
   = true
   /\ forallb mute
        (cell_events host_silent "/dev/ttyUSB0" 115200
           (constructed host_silent)) = true
   /\ waiting_total
        (cell_events host_silent "/dev/ttyUSB0" 115200
           (constructed host_silent)) = 9400)
  /\ (open_succeeds host_refusing "/dev/ttyUSB0" 115200
        (constructed host_refusing) = true
      /\ forallb refusing
           (cell_events host_refusing "/dev/ttyUSB0" 115200
              (constructed host_refusing)) = true
      /\ waiting_total
           (cell_events host_refusing "/dev/ttyUSB0" 115200
              (constructed host_refusing)) = 100).
Proof.
  assert (M : forallb mute
                (cell_events host_silent "/dev/ttyUSB0" 115200
                   (constructed host_silent)) = true)
    by (vm_compute; reflexivity).
  assert (R : forallb refusing
                (cell_events host_refusing "/dev/ttyUSB0" 115200
                   (constructed host_refusing)) = true)
    by (vm_compute; reflexivity).
  split; (split; [reflexivity|]); (split; [assumption|]).
  - exact (proj1 (proj2 (cell_waiting_is_bounded host_silent
                           "/dev/ttyUSB0"%string 115200
                           (constructed host_silent))) eq_refl M).
  - exact (proj2 (proj2 (cell_waiting_is_bounded host_refusing
                           "/dev/ttyUSB0"%string 115200
                           (constructed host_refusing))) eq_refl R).
Defined.

(** ** The device-info and the health probe *)

Section ProbeClaims.

Variable host : Host.

(** C5.  The health phase prints its announcement and writes GET_HEALTH
    (0xA5 0x52); when the write took both bytes it waits 100 ms and makes
    one read, on the descriptor of the cell, with room for 256 bytes and a
    time-out of one second, and it does nothing else but print.  It sets
    [health_check_success] exactly when this read was answered by at least
    10 bytes that start with 0xA5 0x5A, and then prints the status byte
    (offset 7) and the error code, offset 8 being the low-order and offset 9
    the high-order byte; the three offsets lie within the received bytes.
    In a cell that opened, the flag of the result is the one this phase
    sets. *)
Theorem health_phase_sets_success :
  (forall (result : TestResult) (s : State),
     let r' := fst (testPort_health host result s) in
     let ev := events_of (testPort_health host result) s in
     let n := command_answer host s MsgHealthTesting health_cmd in
     let resp := read_answer host s MsgHealthTesting health_cmd 1000 in
     (exists msgs : list ConsoleMsg,
        ev = exchange (serial_fd s) MsgHealthTesting [xa5; x52] n 1000 resp
               ++ map EvCout msgs)
     /\ r' = (if (n =? 2) && header_ok 10 resp
              then set_health_check_success true result else result)
     /\ r' = (if answered (header_ok 10) ev
              then set_health_check_success true result else result)
     /\ (forall fd m t resp, In (EvRead fd m t resp) ev ->
         fd = serial_fd s /\ m = 256 /\ t = 1000)
     /\ (forall fd m t resp, In (EvRead fd m t resp) ev ->
         header_ok 10 resp = true ->
         let buffer := snd (read_returns 256 resp) in
         (10 <= List.length buffer)%nat
         /\ In (EvCout (MsgHealthStatus (u8 (at_ buffer 7)))) ev
         /\ In (EvCout (MsgHealthErrorCode
                         (u8 (at_ buffer 8) + 256 * u8 (at_ buffer 9)))) ev)
     /\ (answered (header_ok 10) ev = false ->
         forallb (fun e => negb (is_health_field e)) ev = true))
  /\ (forall (p : string) (b : Z) (s : State),
      open_succeeds host p b s = true ->
      let st := snd (after_info host p b s) in
      let ev := health_events host p b s in
      serial_fd st = cell_fd host p b s
      /\ (exists pre post : list Event,
            cell_events host p b s = pre ++ ev ++ post)
      /\ health_check_success (fst (testPort host p b s))
         = (command_answer host st MsgHealthTesting health_cmd =? 2)
           && header_ok 10
                (read_answer host st MsgHealthTesting health_cmd 1000)
      /\ health_check_success (fst (testPort host p b s))
         = answered (header_ok 10) ev).
Proof.
  split.
  - intros result s. cbn zeta.
    destruct (health_phase_exchange host result s) as [X1 X2].
    destruct (health_phase_run host result s) as (H1 & H2 & H3 & H4).
    auto 10.
  - intros p b s H. cbn zeta.
    destruct (cell_fd_cases host p b s) as [[K _] | [_ E]]; [congruence|].
    destruct (cell_events_split host p b s E) as (n & t1 & Hev & _).
    destruct (cell_flag_values host p b s E) as (_ & _ & F1 & F2).
    destruct (cell_stages host p b s) as (_ & _ & Hfd & _).
    cbn zeta in F1, F2.
    split; [exact Hfd|]. split; [|split; [exact F1 | exact F2]].
    rewrite Hev.
    exists ([EvClock (h_clock host (trace s)); EvCout (MsgTesting p b)]
              ++ closing (serial_fd s)
              ++ [EvOpen p (cell_fd host p b s);
                  EvConfigure (cell_fd host p b s) (speed_of_baudrate b)]
              ++ raw_events host p b s ++ info_events host p b s).
    eexists. rewrite <- !app_assoc. reflexivity.
Qed.

(** C4, as the code has it.  The device-info phase prints its announcement
    and writes GET_INFO (0xA5 0x50); when the write took both bytes it waits
    100 ms and makes one read, on the descriptor of the cell, with room for
    256 bytes and a time-out of one second, and it does nothing else but
    print.  It sets [device_info_success] exactly when this read was
    answered by at least 7 bytes that start with 0xA5 0x5A.  With at least
    20 bytes it prints the model (offset 7), the two firmware bytes (offsets
    8 and 9) and the hardware version (offset 10), all within the received
    bytes; with fewer it prints none of them and success stands.  Nothing
    that the phase prints depends on a byte past offset 10: the serial
    number is not extracted.  In a cell that opened, the flag of the result
    is the one this phase sets. *)
Theorem info_phase_sets_success :
  (forall (result : TestResult) (s : State),
     let r' := fst (testPort_info host result s) in
     let ev := events_of (testPort_info host result) s in
     let n := command_answer host s MsgInfoTesting info_cmd in
     let resp := read_answer host s MsgInfoTesting info_cmd 1000 in
     (exists msgs : list ConsoleMsg,
        ev = exchange (serial_fd s) MsgInfoTesting [xa5; x50] n 1000 resp
               ++ map EvCout msgs)
     /\ r' = (if (n =? 2) && header_ok 7 resp
              then set_device_info_success true result else result)
     /\ r' = (if answered (header_ok 7) ev
              then set_device_info_success true result else result)
     /\ (forall fd m t resp, In (EvRead fd m t resp) ev ->
         fd = serial_fd s /\ m = 256 /\ t = 1000)
     /\ (forall fd m t resp, In (EvRead fd m t resp) ev ->
         header_ok 7 resp = true ->
         let bytes := fst (read_returns 256 resp) in
         let buffer := snd (read_returns 256 resp) in
         (20 <= bytes ->
          (20 <= List.length buffer)%nat
          /\ In (EvCout (MsgModel (u8 (at_ buffer 7)))) ev
          /\ In (EvCout (MsgFirmware (u8 (at_ buffer 8))
                           (u8 (at_ buffer 9)))) ev
          /\ In (EvCout (MsgHardware (u8 (at_ buffer 10)))) ev)
         /\ (bytes < 20 ->
             forallb (fun e => negb (is_info_field e)) ev = true))
     /\ (answered (header_ok 7) ev = false ->
         forallb (fun e => negb (is_info_field e)) ev = true)
     /\ (forall fd m t resp, In (EvRead fd m t resp) ev ->
         let bytes := fst (read_returns 256 resp) in
         let buffer := snd (read_returns 256 resp) in
         forall msg, In (EvCout msg) ev ->
         In msg [MsgInfoTesting; MsgInfoOk bytes;
                 MsgModel (u8 (at_ buffer 7));
                 MsgFirmware (u8 (at_ buffer 8)) (u8 (at_ buffer 9));
                 MsgHardware (u8 (at_ buffer 10));
                 MsgInfoBadHeader (u8 (at_ buffer 0)) (u8 (at_ buffer 1));
                 MsgInfoInsufficient bytes]))
  /\ (forall (p : string) (b : Z) (s : State),
      open_succeeds host p b s = true ->
      let st := snd (after_raw host p b s) in
      let ev := info_events host p b s in
      serial_fd st = cell_fd host p b s
      /\ (exists pre post : list Event,
            cell_events host p b s = pre ++ ev ++ post)
      /\ device_info_success (fst (testPort host p b s))
         = (command_answer host st MsgInfoTesting info_cmd =? 2)
           && header_ok 7 (read_answer host st MsgInfoTesting info_cmd 1000)
      /\ device_info_success (fst (testPort host p b s))
         = answered (header_ok 7) ev).
Proof.
  split.
  - intros result s. cbn zeta.
    destruct (info_phase_exchange host result s) as [X1 X2].
    destruct (info_phase_run host result s) as (H1 & H2 & H3 & H4 & H5).
    auto 10.
  - intros p b s H. cbn zeta.
    destruct (cell_fd_cases host p b s) as [[K _] | [_ E]]; [congruence|].
    destruct (cell_events_split host p b s E) as (n & t1 & Hev & _).
    destruct (cell_flag_values host p b s E) as (_ & (F1 & F2) & _).
    destruct (cell_stages host p b s) as (_ & Hfd & _).
    cbn zeta in F1, F2.
    split; [exact Hfd|]. split; [|split; [exact F1 | exact F2]].
    rewrite Hev.
    exists ([EvClock (h_clock host (trace s)); EvCout (MsgTesting p b)]
              ++ closing (serial_fd s)
              ++ [EvOpen p (cell_fd host p b s);
                  EvConfigure (cell_fd host p b s) (speed_of_baudrate b)]
              ++ raw_events host p b s).
    eexists. rewrite <- !app_assoc. reflexivity.
Qed.

End ProbeClaims.

Lemma health_phase_sets_success_witness :
  open_succeeds (host_lidar x11) "/dev/ttyUSB0" 115200
    (constructed (host_lidar x11)) = true
  /\ health_check_success
       (fst (testPort (host_lidar x11) "/dev/ttyUSB0" 115200
               (constructed (host_lidar x11)))) = true.
Proof.
  split; [reflexivity|].
  pose proof (proj2 (health_phase_sets_success (host_lidar x11))
                "/dev/ttyUSB0"%string 115200 (constructed (host_lidar x11))
                eq_refl) as H.
  cbv zeta in H. destruct H as (_ & _ & _ & H).
  exact (eq_trans H eq_refl).
Defined.

Lemma info_phase_sets_success_witness :
  open_succeeds (host_lidar x11) "/dev/ttyUSB0" 115200
    (constructed (host_lidar x11)) = true
  /\ device_info_success
       (fst (testPort (host_lidar x11) "/dev/ttyUSB0" 115200
               (constructed (host_lidar x11)))) = true.
Proof.
  split; [reflexivity|].
  pose proof (proj2 (info_phase_sets_success (host_lidar x11))
                "/dev/ttyUSB0"%string 115200 (constructed (host_lidar x11))
                eq_refl) as H.
  cbv zeta in H. destruct H as (_ & _ & _ & H).
  exact (eq_trans H eq_refl).
Defined.

(** ** A command that the line does not take *)

Section Refusal.

Variable host : Host.

(** X5.  When [write] does not accept the two bytes of its command, a
    probe ends there: it has printed its announcement and made this one
    write, it does not sleep and does not read, and the result is the one
    it was given.  This holds for each of the four probes. *)
Theorem refused_command_ends_probe (result : TestResult) (s : State) :
  let fd := serial_fd s in
  let answer (m : ConsoleMsg) (cmd : list byte) :=
    h_write host (trace s ++ [EvCout m]) fd cmd in
  let ended (m : ConsoleMsg) (cmd : list byte) :=
    (result,
     set_trace (trace s ++ [EvCout m; EvWrite fd cmd (answer m cmd)]) s) in
  (answer MsgRawTesting reset_cmd <> 2 ->
   testPort_raw host result s = ended MsgRawTesting reset_cmd)
  /\ (answer MsgInfoTesting info_cmd <> 2 ->
      testPort_info host result s = ended MsgInfoTesting info_cmd)
  /\ (answer MsgHealthTesting health_cmd <> 2 ->
      testPort_health host result s = ended MsgHealthTesting health_cmd)
  /\ (answer MsgScanTesting scan_cmd <> 2 ->
      testPort_scan host result s = ended MsgScanTesting scan_cmd).
Proof.
  cbn zeta.
  split; [|split; [|split]]; intros H;
    [unfold testPort_raw | unfold testPort_info | unfold testPort_health
    | unfold testPort_scan];
    unfold bind at 1; unfold cout at 1, emit, modify;
    unfold bind at 1; unfold writeData at 1;
    unfold bind at 1; unfold get; unfold bind at 1;
    unfold sys_write, ret at 1;
    cbn [trace set_trace serial_fd];
    match goal with |- context [?n =? Z.of_nat ?k] =>
      change (Z.of_nat k) with 2; destruct (Z.eqb_spec n 2) as [K|K] end;
    try contradiction; unfold ret; norm_state; reflexivity.
Qed.

End Refusal.

Lemma refused_command_ends_probe_witness :
  h_write host_open_fails
    (trace (constructed host_open_fails) ++ [EvCout MsgRawTesting])
    (serial_fd (constructed host_open_fails)) reset_cmd <> 2
  /\ fst (testPort_raw host_open_fails (initial_result "/dev/ttyUSB0" 115200)
            (constructed host_open_fails))
     = initial_result "/dev/ttyUSB0" 115200.
Proof.
  assert (H : h_write host_open_fails
                (trace (constructed host_open_fails) ++ [EvCout MsgRawTesting])
                (serial_fd (constructed host_open_fails)) reset_cmd <> 2)
    by (cbn; lia).
  split; [exact H|].
  rewrite (proj1 (refused_command_ends_probe host_open_fails
                    (initial_result "/dev/ttyUSB0" 115200)
                    (constructed host_open_fails)) H).
  reflexivity.
Defined.

(** ** The line speed *)

Section LineSpeed.

(** X2.  [openSerial] configures the line at the requested bit rate when
    this is one of the five rates of the matrix, and at 115200 for any other
    request.  It configures the descriptor once when [open] succeeded and
    not at all when [open] returned -1, and it reports success exactly when
    the descriptor it stored is not -1. *)
Theorem baud_rate_selects_the_line_speed :
  (forall b : Z,
     baud_of_speed (speed_of_baudrate b)
     = if existsb (Z.eqb b) baudrates then b else 115200)
  /\ (forall (host : Host) (p : string) (b : Z) (s : State),
      let s' := snd (openSerial host p b s) in
      fst (openSerial host p b s) = negb (serial_fd s' =? -1)
      /\ filter is_configure (events_of (openSerial host p b) s)
         = if fst (openSerial host p b s)
           then [EvConfigure (serial_fd s') (speed_of_baudrate b)]
           else []).
Proof.
  split.
  - intros b. unfold speed_of_baudrate, baudrates. cbn [existsb].
    repeat match goal with
           | |- context [b =? ?k] => destruct (Z.eqb_spec b k)
           end; subst; cbn; try reflexivity; try lia.
  - intros host p b s. cbn zeta. unfold events_of.
    rewrite openSerial_run.
    cbn [fst snd trace set_trace serial_fd set_serial_fd].
    rewrite <- app_assoc, skipn_length_app, filter_app.
    assert (C : filter is_configure (closing (serial_fd s)) = []).
    { unfold closing. now destruct (serial_fd s =? -1). }
    rewrite C. split; [reflexivity|].
    now destruct (_ =? -1).
Qed.

End LineSpeed.

(** ** Discovery, call by call *)

Section DiscoveryCalls.

Variable host : Host.

Lemma accessed_app (a b : list Event) :
  accessed (a ++ b) = accessed a ++ accessed b.
Proof. apply flat_map_app. Qed.

Lemma found_of_app (a b : list Event) :
  found_of (a ++ b) = found_of a ++ found_of b.
Proof. unfold found_of. now rewrite accessed_app, filter_app, map_app. Qed.

Lemma findSerialPorts_inner_calls (prefix : string) (idx : list Z) :
  forall (ports : list string) (s : State),
  exists evs : list Event,
    for_each idx (findSerialPorts_try host prefix) ports s
    = (ports ++ found_of evs, set_trace (trace s ++ evs) s)
    /\ evs = map access_event (accessed evs)
    /\ map fst (accessed evs) = map (fun i => prefix +++ to_string i) idx.
Proof.
  induction idx as [|i idx IH]; intros ports s; cbn [for_each].
  - exists []. unfold ret. cbn. rewrite !app_nil_r, set_trace_same. auto.
  - unfold bind at 1. unfold findSerialPorts_try at 1.
    unfold bind at 1. unfold sys_access at 1.
    set (name := prefix +++ to_string i).
    destruct (h_access host (trace s) name) eqn:Hf;
      unfold ret at 1;
      match goal with |- context [for_each idx _ ?acc ?st] =>
        destruct (IH acc st) as (evs & -> & He & Hn) end.
    + exists (EvAccess name true :: evs). norm_state.
      unfold found_of in *. cbn [accessed flat_map app filter snd map fst].
      fold (accessed evs). rewrite <- He, Hn. auto.
    + exists (EvAccess name false :: evs). norm_state.
      unfold found_of in *. cbn [accessed flat_map app filter snd map fst].
      fold (accessed evs). rewrite <- He, Hn. auto.
Qed.

Lemma findSerialPorts_outer_calls (pre : list string) :
  forall (ports : list string) (s : State),
  exists evs : list Event,
    for_each pre (fun prefix ports =>
      for_each [0; 1; 2; 3; 4; 5; 6; 7; 8; 9]
        (findSerialPorts_try host prefix) ports) ports s
    = (ports ++ found_of evs, set_trace (trace s ++ evs) s)
    /\ evs = map access_event (accessed evs)
    /\ map fst (accessed evs)
       = flat_map (fun prefix =>
                     map (fun i => prefix +++ to_string i)
                       [0; 1; 2; 3; 4; 5; 6; 7; 8; 9]) pre.
Proof.
  induction pre as [|prefix pre IH]; intros ports s.
  - exists []. cbn. unfold ret. rewrite !app_nil_r, set_trace_same. auto.
  - rewrite for_each_cons. cbn [flat_map]. unfold bind at 1.
    destruct (findSerialPorts_inner_calls prefix
                [0; 1; 2; 3; 4; 5; 6; 7; 8; 9] ports s)
      as (e1 & -> & He1 & Hn1).
    destruct (IH (ports ++ found_of e1) (set_trace (trace s ++ e1) s))
      as (e2 & -> & He2 & Hn2).
    exists (e1 ++ e2). norm_state.
    rewrite found_of_app, accessed_app, !map_app, <- He1, <- He2, Hn1, Hn2.
    auto.
Qed.

(** X1.  [findSerialPorts] asks [access] about each of the thirty names
    /dev/ttyUSB0..9, /dev/ttyACM0..9, /dev/ttyS0..9, once and in this order,
    and does nothing else.  It returns the names for which the answer was
    yes, in the order asked, so at most thirty names and none twice.  The
    object is left as it was. *)
Theorem discovery_probes_every_candidate (s : State) :
  let ports := fst (findSerialPorts host s) in
  let ev := events_of (findSerialPorts host) s in
  snd (findSerialPorts host s) = set_trace (trace s ++ ev) s
  /\ ev = map access_event (accessed ev)
  /\ map fst (accessed ev) = candidates
  /\ ports = map fst (filter snd (accessed ev))
  /\ NoDup ports
  /\ (List.length ports <= 30)%nat.
Proof.
  cbn zeta.
  destruct (findSerialPorts_outer_calls prefixes [] s) as (evs & H & He & Hn).
  fold (findSerialPorts host) in H. fold candidates in Hn.
  destruct (events_of_run _ _ _ _ H) as [-> _].
  rewrite H. cbn [fst snd app].
  destruct (findSerialPorts_run host s) as (ports & evs' & H' & Hsub & _).
  rewrite H in H'. injection H' as <- _.
  split; [reflexivity|]. split; [exact He|]. split; [exact Hn|].
  split; [reflexivity|]. split.
  - eapply subseq_NoDup; [exact Hsub | exact (candidates_NoDup)].
  - apply subseq_length in Hsub. exact Hsub.
Qed.

End DiscoveryCalls.

(** ** The console summary *)

Section ConsoleSummary.

Lemma console_couts (ms : list ConsoleMsg) : console (map EvCout ms) = ms.
Proof.
  induction ms as [|m ms IH]; [reflexivity|].
  cbn [map]. change (console (EvCout m :: map EvCout ms))
    with (m :: console (map EvCout ms)). now rewrite IH.
Qed.

Lemma printSummary_working_exact (rs : list TestResult) (s : State) :
  printSummary_working rs s
  = (match find scan_start_success rs with Some _ => true | None => false end,
     set_trace
       (trace s ++ match find scan_start_success rs with
                   | Some r => [EvCout (working_line r)]
                   | None => []
                   end) s).
Proof.
  induction rs as [|r rs IH]; cbn [printSummary_working find].
  - unfold ret. now rewrite app_nil_r, set_trace_same.
  - destruct (scan_start_success r); [|exact IH].
    unfold_prims. reflexivity.
Qed.

Lemma printSummary_partials_exact (rs : list TestResult) : forall s : State,
  for_each rs (fun result (_ : unit) =>
    if device_info_success result || health_check_success result
       || raw_communication result
    then cout (MsgPartialLine (port result) (baudrate result)
                 (device_info_success result)
                 (health_check_success result)
                 (raw_communication result))
    else ret tt) tt s
  = (tt, set_trace
           (trace s ++ map EvCout (map partial_line (filter any_outcome rs)))
           s).
Proof.
  induction rs as [|r rs IH]; intros s.
  - cbn. unfold ret. now rewrite app_nil_r, set_trace_same.
  - rewrite for_each_cons. unfold bind at 1. cbn [filter].
    unfold any_outcome at 1.
    destruct (device_info_success r || health_check_success r
              || raw_communication r).
    + unfold cout at 1, emit, modify. rewrite IH. norm_state. reflexivity.
    + unfold ret at 1. apply IH.
Qed.

Lemma printSummary_exact (s : State) :
  printSummary s
  = (tt, set_trace (trace s ++ map EvCout (summary_console (results s))) s).
Proof.
  unfold printSummary, summary_console.
  unfold bind at 1. unfold cout at 1, emit, modify.
  unfold bind at 1. unfold get at 1. cbn [results set_trace].
  unfold bind at 1. rewrite printSummary_working_exact.
  unfold bind at 1.
  destruct (find scan_start_success (results s)) as [r|]; cbn [negb].
  - unfold_prims. norm_state. reflexivity.
  - unfold bind at 1. unfold cout at 1, emit, modify. norm_state.
    rewrite printSummary_partials_exact.
    unfold_prims. norm_state. cbn [map app]. rewrite map_app.
    reflexivity.
Qed.

Lemma first_working_found (pre post : list TestResult) (r : TestResult) :
  forallb (fun r => negb (scan_start_success r)) pre = true ->
  scan_start_success r = true ->
  find scan_start_success (pre ++ r :: post) = Some r.
Proof.
  induction pre as [|x pre IH]; cbn [forallb app find]; intros H Hr.
  - now rewrite Hr.
  - apply andb_prop in H as [Hx Hp]. apply negb_true_iff in Hx.
    rewrite Hx. now apply IH.
Qed.

Lemma no_working_found (rs : list TestResult) :
  forallb (fun r => negb (scan_start_success r)) rs = true ->
  find scan_start_success rs = None.
Proof.
  induction rs as [|x rs IH]; cbn [forallb find]; intros H; [reflexivity|].
  apply andb_prop in H as [Hx Hp]. apply negb_true_iff in Hx.
  rewrite Hx. now apply IH.
Qed.

(** X9.  [printSummary] prints to the console and changes nothing else.
    When some result has [scan_start_success] it reports the first such
    result in the order of the matrix, with its port, baud rate and points,
    and no other result.  When none has, it says so and prints one line for
    every result that has one of the three other outcomes, in order. *)
Theorem summary_reports_first_working (s : State) :
  let out := console (events_of printSummary s) in
  snd (printSummary s) = set_trace (trace s ++ map EvCout out) s
  /\ (forall (pre post : list TestResult) (r : TestResult),
      results s = pre ++ r :: post ->
      forallb (fun r => negb (scan_start_success r)) pre = true ->
      scan_start_success r = true ->
      out = [MsgSummaryBanner;
             MsgWorkingFound (port r) (baudrate r) (scan_points_received r);
             MsgSaved])
  /\ (forallb (fun r => negb (scan_start_success r)) (results s) = true ->
      out = [MsgSummaryBanner; MsgNoWorking]
              ++ map (fun r => MsgPartialLine (port r) (baudrate r)
                                 (device_info_success r)
                                 (health_check_success r)
                                 (raw_communication r))
                   (filter (fun r => device_info_success r
                                     || health_check_success r
                                     || raw_communication r) (results s))
              ++ [MsgSaved]).
Proof.
  cbn zeta.
  destruct (events_of_run _ _ _ _ (printSummary_exact s)) as [-> _].
  rewrite console_couts, printSummary_exact. cbn [snd].
  split; [reflexivity|]. unfold summary_console. split.
  - intros pre post r -> Hpre Hr. now rewrite (first_working_found pre post r Hpre Hr).
  - intros H. now rewrite (no_working_found _ H).
Qed.

End ConsoleSummary.

Lemma summary_reports_first_working_witness :
  forallb (fun r => negb (scan_start_success r)) [] = true
  /\ console (events_of printSummary three_results)
     = [MsgSummaryBanner; MsgWorkingFound "/dev/ttyUSB0" 115200 15; MsgSaved].
Proof.
  split; [reflexivity|].
  apply (proj1 (proj2 (summary_reports_first_working three_results))
           [] (tl (results three_results)) (hd (initial_result EmptyString 0)
                                               (results three_results)));
    reflexivity.
Defined.

Section SummaryAgreement.

Lemma first_working_or_none (rs : list TestResult) :
  match find scan_start_success rs with
  | Some _ => 0 < working_count rs
  | None => working_count rs = 0
            /\ filter is_partial rs = filter any_outcome rs
  end.
Proof.
  unfold working_count.
  induction rs as [|r rs IH]; cbn [find filter]; [auto|].
  change (is_working r) with (scan_start_success r).
  change (is_partial r) with (negb (scan_start_success r) && any_outcome r).
  destruct (scan_start_success r); cbn [negb andb List.length]; [lia|].
  destruct (find scan_start_success rs); [exact IH|].
  destruct IH as [I1 I2]. split; [exact I1|]. now rewrite I2.
Qed.

Lemma partial_lines_count (rs : list TestResult) :
  filter is_partial_line (map partial_line rs) = map partial_line rs.
Proof. induction rs as [|r rs IH]; cbn; [|rewrite IH]; reflexivity. Qed.

(** X10.  The console summary and the summary of the report agree.
    [printSummary] prints that no working configuration was found exactly
    when the count of working configurations is 0; it then prints as many
    partial lines as the count of partial configurations.  Otherwise it
    prints one working configuration, however many there are, and no
    partial line, however many partial configurations are counted. *)
Theorem summary_agrees_with_report_counts (s : State) :
  let out := console (events_of printSummary s) in
  let rs := results s in
  existsb is_no_working out = (working_count rs =? 0)
  /\ Z.of_nat (List.length (filter is_working_line out))
     = (if working_count rs =? 0 then 0 else 1)
  /\ Z.of_nat (List.length (filter is_partial_line out))
     = (if working_count rs =? 0 then partial_count rs else 0).
Proof.
  cbn zeta.
  destruct (events_of_run _ _ _ _ (printSummary_exact s)) as [-> _].
  rewrite console_couts. unfold summary_console.
  pose proof (first_working_or_none (results s)) as H.
  destruct (find scan_start_success (results s)) as [r|].
  - assert (K : (working_count (results s) =? 0) = false) by lia.
    rewrite K. cbn. auto.
  - destruct H as [H1 H2]. rewrite H1. unfold partial_count. rewrite H2.
    cbn [app existsb is_no_working orb filter is_working_line
         is_partial_line].
    rewrite !filter_app, partial_lines_count.
    cbn [filter is_partial_line is_working_line].
    assert (W : filter is_working_line
                  (map partial_line (filter any_outcome (results s))) = []).
    { clear. induction (filter any_outcome (results s)) as [|x l IH];
        [reflexivity | exact IH]. }
    rewrite W, !app_nil_r, length_map. cbn. auto.
Qed.

End SummaryAgreement.

(** ** The report while the matrix runs *)

Section ReportGrowth.

Variable host : Host.

Lemma entries_snoc (rs : list TestResult) (r : TestResult) :
  forall first : bool,
  entries first (rs ++ [r])
  = entries first rs ++ separator (first && no_results rs)
      ++ json_of_result r.
Proof.
  induction rs as [|x rs IH]; intros first; cbn [app entries no_results].
  - now rewrite andb_true_r, app_nil_r.
  - rewrite IH, andb_false_r. cbn [andb]. now rewrite <- !app_assoc.
Qed.


End ReportGrowth.


(** ** A report that is not open *)

Section ClosedReport.

(** X12.  What is written to a report that is not open is dropped:
    [writeResultToJson] and [finalizeLogs] then leave the object and the
    outside world exactly as they were.  [finalizeLogs] always leaves the
    report closed, so a second [finalizeLogs] adds no second summary and
    closes no file. *)
Theorem closed_report_takes_no_writes :
  (forall (r : TestResult) (s : State),
     log_is_open s = false -> writeResultToJson r s = (tt, s))
  /\ (forall s : State, log_is_open s = false -> finalizeLogs s = (tt, s))
  /\ (forall s : State, log_is_open (snd (finalizeLogs s)) = false)
  /\ (forall s : State,
      finalizeLogs (snd (finalizeLogs s)) = (tt, snd (finalizeLogs s))).
Proof.
  assert (C : forall s : State, log_is_open (snd (finalizeLogs s)) = false).
  { intros s. destruct (log_is_open s) eqn:O.
    - now rewrite (finalizeLogs_run s O).
    - now rewrite (finalizeLogs_closed s O). }
  split; [|split; [|split]].
  - intros r s O. unfold writeResultToJson. rewrite log_puts_run.
    now rewrite O.
  - exact finalizeLogs_closed.
  - exact C.
  - intros s. apply finalizeLogs_closed. apply C.
Qed.

End ClosedReport.

Lemma closed_report_takes_no_writes_witness :
  log_is_open (snd (main host_no_ports 0)) = false
  /\ finalizeLogs (snd (main host_no_ports 0))
     = (tt, snd (main host_no_ports 0)).
Proof.
  split; [reflexivity|].
  apply (proj1 (proj2 closed_report_takes_no_writes)). reflexivity.
Defined.

(** ** The entry of a cell *)

Section CellEntry.

Variable host : Host.


End CellEntry.


(** ** The whole run, cell by cell *)

Section RunBlocks.

Variable host : Host.

Lemma verdicts_app (a b : list Event) :
  verdicts (a ++ b) = verdicts a ++ verdicts b.
Proof. unfold verdicts. now rewrite console_app, filter_app. Qed.

Lemma phase_events_no_verdict (fd : Z) (evs : list Event) :
  forallb (phase_event fd) evs = true -> verdicts evs = [].
Proof.
  induction evs as [|e evs IH]; cbn [forallb]; intros H; [reflexivity|].
  apply andb_prop in H as [He Hd]. specialize (IH Hd).
  change (e :: evs) with ([e] ++ evs). rewrite verdicts_app, IH, app_nil_r.
  destruct e; try reflexivity. destruct m; cbn in He; try discriminate;
    reflexivity.
Qed.

Lemma cell_events_no_verdict (p : string) (b : Z) (s : State) :
  verdicts (cell_events host p b s) = [].
Proof.
  assert (C : verdicts (closing (serial_fd s)) = []).
  { unfold closing. now destruct (serial_fd s =? -1). }
  destruct (cell_fd_cases host p b s) as [[_ E] | [_ E]].
  - destruct (cell_events_failed host p b s E) as (t1 & _ & ->).
    rewrite !verdicts_app, C. reflexivity.
  - destruct (cell_events_grouped host p b s E)
      as (n & t1 & probes & -> & _ & P & _).
    rewrite !verdicts_app, C, (phase_events_no_verdict _ _ P). reflexivity.
Qed.

Lemma verdict_is_verdict (r : TestResult) : is_verdict (verdict r) = true.
Proof.
  unfold verdict.
  destruct (scan_start_success r),
    (device_info_success r || health_check_success r),
    (raw_communication r); reflexivity.
Qed.

(** One iteration of the inner loop, from a state in which the object holds
    [serial_fd s]. *)
Lemma cell_block_facts (c : string * Z) (s : State) :
  let blk := cell_block host c s in
  let r := fst (testPort host (fst c) (snd c) s) in
  opened blk = [fst c]
  /\ uses_open (held (serial_fd s)) blk = true
  /\ fold_left fd_step blk (held (serial_fd s)) = []
  /\ 0 <= waiting_total blk <= 9400
  /\ verdicts blk = [verdict r].
Proof.
  cbn zeta. unfold cell_block. destruct c as [p b]. cbn [fst snd].
  destruct (cell_descriptors host p b s) as [O U].
  destruct (cell_events_fds host p b s) as (F & _).
  pose proof (cell_waiting host p b s) as W.
  rewrite opened_app, uses_open_app, fold_left_app, waiting_total_app,
    verdicts_app, O, U, F, cell_events_no_verdict.
  unfold verdicts. cbn [console flat_map app filter is_verdict].
  rewrite verdict_is_verdict.
  cbn [opened flat_map app uses_open fold_left fd_step andb waiting_total
       fold_right waiting].
  repeat split; try lia.
  destruct (open_succeeds host p b s); lia.
Qed.

Lemma matrix_loop_blocks (cs : list (string * Z)) :
  forall (first : bool) (s : State),
  serial_fd s = -1 ->
  exists rbs : list (TestResult * list Event),
    results (snd (matrix_loop host cs first s)) = results s ++ map fst rbs
    /\ trace (snd (matrix_loop host cs first s))
       = trace s ++ List.concat (map snd rbs)
    /\ Forall2 (is_cell_of host) cs rbs.
Proof.
  unfold matrix_loop.
  induction cs as [|[p b] cs IH]; intros first s Hfd.
  - exists []. cbn. rewrite !app_nil_r. auto.
  - rewrite for_each_cons, bind_fst_snd. cbn [fst snd].
    rewrite runFullDiagnostic_cell_run. cbn [fst snd].
    set (r := fst (testPort host p b s)).
    set (s1 := mkState _ _ _ _ _).
    destruct (IH false s1 eq_refl) as (rbs & Hr & Ht & Hc).
    exists ((r, cell_block host (p, b) s) :: rbs).
    rewrite Hr, Ht. subst s1. cbn [results trace map List.concat fst snd].
    unfold cell_block. cbn [fst snd]. fold r.
    rewrite <- !app_assoc. split; [reflexivity|]. split; [reflexivity|].
    constructor; [|exact Hc].
    exists s. auto.
Qed.

Lemma runFullDiagnostic_blocks (s : State) :
  serial_fd s = -1 ->
  let ports := fst (findSerialPorts host (snd (cout MsgBanner s))) in
  exists (access : list Event) (rbs : list (TestResult * list Event)),
    trace (snd (runFullDiagnostic host s))
    = trace s ++ [EvCout MsgBanner] ++ access
        ++ match ports with
           | [] => [EvCout MsgNoPorts]
           | _ => EvCout (MsgFoundPorts ports) :: List.concat (map snd rbs)
                    ++ map EvCout
                         (summary_console (results s ++ map fst rbs))
           end
    /\ results (snd (runFullDiagnostic host s)) = results s ++ map fst rbs
    /\ access = map access_event (accessed access)
    /\ map fst (accessed access) = candidates
    /\ ports = found_of access
    /\ Forall2 (is_cell_of host) (cells ports) rbs.
Proof.
  intros Hfd. cbn zeta.
  assert (Hs0 : cout MsgBanner s
                = (tt, set_trace (trace s ++ [EvCout MsgBanner]) s))
    by reflexivity.
  rewrite Hs0. cbn [snd].
  destruct (runFullDiagnostic host s) as [u S] eqn:Hrun. cbn [snd].
  revert Hrun. unfold runFullDiagnostic.
  rewrite (bind_run _ _ _ _ _ Hs0). clear Hs0.
  set (s0 := set_trace (trace s ++ [EvCout MsgBanner]) s).
  destruct (findSerialPorts_outer_calls host prefixes [] s0)
    as (access & Hfind & Ha & Hn).
  fold (findSerialPorts host) in Hfind. fold candidates in Hn.
  cbn [app] in Hfind.
  rewrite (bind_run _ _ _ _ _ Hfind). rewrite Hfind. cbn [fst].
  clear Hfind.
  destruct (found_of access) as [|p0 ports'] eqn:Hports.
  - unfold_prims. intros Hrun. injection Hrun as _ <-.
    exists access, []. subst s0. norm_state.
    cbn [map cells flat_map]. rewrite !app_nil_r.
    repeat split; auto.
  - set (ports := p0 :: ports') in *.
    unfold bind at 1. unfold cout at 1, emit, modify.
    rewrite bind_fst_snd, printSummary_exact.
    assert (Hl : forall (first : bool) (st : State),
              for_each ports (fun port first_result =>
                for_each baudrates (fun baudrate first_result =>
                  runFullDiagnostic_cell host port baudrate first_result)
                  first_result) first st
              = matrix_loop host (cells ports) first st)
      by (intros; apply nested_loops_flat).
    rewrite !Hl. clear Hl.
    match goal with |- context [matrix_loop host _ true ?st] =>
      set (s1 := st) end.
    destruct (matrix_loop_blocks (cells ports) true s1)
      as (rbs & Hr & Ht & Hc); [subst s1 s0; exact Hfd|].
    set (L := snd (matrix_loop host (cells ports) true s1)) in *.
    intros Hrun. apply (f_equal snd) in Hrun. cbn [snd] in Hrun.
    subst S. exists access, rbs.
    cbn [results trace set_trace]. rewrite Hr, Ht.
    subst s1 s0. cbn [results trace set_trace]. rewrite <- !app_assoc.
    cbn [app]. repeat split; auto.
Qed.

Lemma main_tail (fd0 : Z) :
  let run := snd (runFullDiagnostic host (constructed host)) in
  trace (snd (main host fd0))
  = trace run ++ file_closing (report_opened host)
  /\ results (snd (main host fd0)) = results run
  /\ log_file (snd (main host fd0))
     = if report_opened host
       then report (report_time host) (results run)
       else [].
Proof.
  cbn zeta.
  destruct (main host fd0) as [z F] eqn:Hm. cbn [snd]. revert Hm.
  destruct (runFullDiagnostic_run host (constructed host))
    as (rs' & access' & matrix' & Hrun & _).
  unfold main. unfold bind at 1.
  assert (Hc : constructor host (fresh_object fd0) = (tt, constructed host)).
  { rewrite <- (constructed_eq host fd0).
    now destruct (constructor host (fresh_object fd0)) as [[] ?]. }
  rewrite Hc. rewrite bind_fst_snd. rewrite Hrun. cbn [fst snd].
  unfold constructed. rewrite constructor_run.
  cbn [snd serial_fd log_is_open log_file results trace fresh_object app].
  fold (report_opened host). fold (report_time host).
  assert (Hfd : forall l : list string,
            match l with [] => -1 | _ => -1 end = -1) by (now destruct l).
  rewrite Hfd.
  unfold destructor, bind. rewrite closeSerial_run.
  cbn [serial_fd log_is_open log_file results trace set_trace
       set_serial_fd].
  change (closing (-1)) with (@nil Event). rewrite app_nil_r.
  destruct (report_opened host) eqn:O.
  - rewrite finalizeLogs_run by reflexivity. unfold ret. intros Hm.
    apply (f_equal snd) in Hm. cbn [snd] in Hm. subst F.
    cbn [snd trace results log_file serial_fd file_closing set_serial_fd
         set_trace app].
    unfold report. rewrite <- !app_assoc. auto.
  - rewrite finalizeLogs_closed by reflexivity. unfold ret. intros Hm.
    apply (f_equal snd) in Hm. cbn [snd] in Hm. subst F.
    cbn [snd trace results log_file serial_fd file_closing set_serial_fd
         set_trace app].
    rewrite app_nil_r. auto.
Qed.

(** The shape of every run: the report file is opened, the banner printed,
    the thirty names are probed, then either the message that there is no
    port, or the list of ports, one block per cell and the summary; closing
    the report, when it is open, is the last event. *)
Lemma main_blocks (fd0 : Z) :
  let ports := discovered host in
  exists (access : list Event) (rbs : list (TestResult * list Event)),
    trace (snd (main host fd0))
    = [EvFileOpen log_file_name (report_opened host);
       EvLocaltime (report_time host);
       EvCout MsgBanner] ++ access
        ++ match ports with
           | [] => [EvCout MsgNoPorts]
           | _ => EvCout (MsgFoundPorts ports) :: List.concat (map snd rbs)
                    ++ map EvCout (summary_console (map fst rbs))
           end
        ++ file_closing (report_opened host)
    /\ results (snd (main host fd0)) = map fst rbs
    /\ access = map access_event (accessed access)
    /\ map fst (accessed access) = candidates
    /\ ports = found_of access
    /\ Forall2 (is_cell_of host) (cells ports) rbs.
Proof.
  cbn zeta. destruct (main_tail fd0) as (Ht & Hr & _). cbn zeta in Ht, Hr.
  assert (Hfd : serial_fd (constructed host) = -1).
  { unfold constructed. now rewrite constructor_run. }
  destruct (runFullDiagnostic_blocks (constructed host) Hfd)
    as (access & rbs & Ht' & Hr' & Ha & Hn & Hp & Hc).
  fold (discovered host) in Ht', Hp, Hc.
  exists access, rbs. rewrite Ht, Hr, Ht', Hr'.
  unfold constructed. rewrite constructor_run.
  cbn [snd results trace fresh_object app].
  fold (report_opened host). fold (report_time host).
  rewrite <- !app_assoc. cbn [app]. repeat split; auto.
Qed.

End RunBlocks.

(** ** Properties of the whole run *)

Section RunProperties.

Variable host : Host.

Lemma off_line_events (evs : list Event) :
  forallb off_line evs = true ->
  opened evs = [] /\ waiting_total evs = 0
  /\ forall cur : list Z,
       uses_open cur evs = true /\ fold_left fd_step evs cur = cur.
Proof.
  induction evs as [|e evs IH]; cbn [forallb]; intros H.
  - repeat split.
  - apply andb_prop in H as [He Hd]. destruct (IH Hd) as (I1 & I2 & I3).
    destruct e; cbn in He; try discriminate;
      cbn [opened flat_map app waiting_total fold_right waiting uses_open
           fold_left fd_step andb];
      fold (opened evs); fold (waiting_total evs); rewrite I1, I2;
      (split; [reflexivity|]); (split; [reflexivity|]); intros cur;
      apply I3.
Qed.

Lemma accesses_off_line (l : list (string * bool)) :
  forallb off_line (map access_event l) = true.
Proof. induction l as [|a l IH]; [reflexivity | exact IH]. Qed.

Lemma couts_off_line (ms : list ConsoleMsg) :
  forallb off_line (map EvCout ms) = true.
Proof. induction ms as [|m ms IH]; [reflexivity | exact IH]. Qed.

Lemma summary_no_verdict (rs : list TestResult) :
  filter is_verdict (summary_console rs) = [].
Proof.
  unfold summary_console. cbn [filter is_verdict].
  rewrite filter_app. cbn [filter is_verdict]. rewrite app_nil_r.
  destruct (find scan_start_success rs); [reflexivity|].
  cbn [filter is_verdict].
  induction (filter any_outcome rs) as [|x l IH]; [reflexivity | exact IH].
Qed.

(** The blocks of the matrix, taken together. *)
Lemma blocks_facts (cs : list (string * Z))
    (rbs : list (TestResult * list Event)) :
  Forall2 (is_cell_of host) cs rbs ->
  let evs := List.concat (map snd rbs) in
  opened evs = map fst cs
  /\ uses_open [] evs = true
  /\ fold_left fd_step evs [] = []
  /\ 0 <= waiting_total evs <= 9400 * Z.of_nat (List.length cs)
  /\ verdicts evs = map verdict (map fst rbs).
Proof.
  induction 1 as [|c rb cs rbs (s & Hfd & Hr & Hb) _ IH]; cbn zeta.
  - cbn. repeat split; lia.
  - cbn zeta in IH. destruct IH as (I1 & I2 & I3 & I4 & I5).
    destruct (cell_block_facts host c s) as (B1 & B2 & B3 & B4 & B5).
    cbn zeta in B1, B2, B3, B4, B5. rewrite Hfd in B2, B3.
    change (held (-1)) with (@nil Z) in B2, B3.
    cbn [map List.concat List.length]. rewrite Hb, Hr.
    rewrite opened_app, uses_open_app, fold_left_app, waiting_total_app,
      verdicts_app, B1, B2, B3, B5, I1, I2, I3, I5.
    repeat split; try reflexivity; lia.
Qed.

Lemma summary_field_entry (key : string) (r : TestResult)
    (tail : list LogItem) :
  In key ["total_tests"; "working_configurations";
          "partial_configurations"]%string ->
  summary_field key (json_of_result r ++ tail) = summary_field key tail.
Proof.
  intros Hk. cbn [In] in Hk.
  destruct Hk as [<- | [<- | [<- | []]]];
    unfold json_of_result; cbn [app];
    destruct tail as [|[t|z|d] tail]; reflexivity.
Qed.

Lemma summary_field_entries (key : string) (rs : list TestResult) :
  In key ["total_tests"; "working_configurations";
          "partial_configurations"]%string ->
  forall (first : bool) (tail : list LogItem),
  summary_field key (entries first rs ++ tail) = summary_field key tail.
Proof.
  intros Hk. induction rs as [|r rs IH]; intros first tail; [reflexivity|].
  cbn [entries]. rewrite <- !app_assoc.
  assert (Hs : summary_field key
                 (separator first ++ json_of_result r
                    ++ entries false rs ++ tail)
               = summary_field key
                   (json_of_result r ++ entries false rs ++ tail)).
  { destruct first; [reflexivity|]. reflexivity. }
  rewrite Hs, summary_field_entry by exact Hk. apply IH.
Qed.

Lemma summary_field_report (ts : string) (rs : list TestResult) :
  let doc := report ts rs in
  summary_field "total_tests" doc = Some (Z.of_nat (List.length rs))
  /\ summary_field "working_configurations" doc = Some (working_count rs)
  /\ summary_field "partial_configurations" doc = Some (partial_count rs).
Proof.
  cbn zeta. unfold report.
  assert (Hh : forall key tail,
            summary_field key
              (report_header ts ++ entries true rs ++ tail)
            = summary_field key (entries true rs ++ tail)).
  { intros key tail. unfold report_header. cbn [app].
    destruct (entries true rs ++ tail) as [|[t|z|d] l]; reflexivity. }
  rewrite !Hh, !summary_field_entries by (cbn [In]; auto).
  repeat split.
Qed.

Lemma accesses_no_verdict (l : list (string * bool)) :
  verdicts (map access_event l) = [].
Proof. induction l as [|a l IH]; [reflexivity | exact IH]. Qed.

(** What a whole run adds up to. *)
Lemma main_measures (fd0 : Z) :
  let final := snd (main host fd0) in
  let ports := discovered host in
  opened (trace final) = map fst (cells ports)
  /\ uses_open [] (trace final) = true
  /\ fold_left fd_step (trace final) [] = []
  /\ 0 <= waiting_total (trace final)
       <= 9400 * Z.of_nat (List.length (cells ports))
  /\ verdicts (trace final) = map verdict (results final).
Proof.
  cbn zeta.
  destruct (main_blocks host fd0)
    as (access & rbs & Ht & Hr & Ha & _ & Hp & Hc).
  cbn zeta in Ht, Hc. rewrite Ht, Hr. clear Ht Hr.
  destruct (off_line_events access) as (A1 & A2 & A3).
  { rewrite Ha. apply accesses_off_line. }
  assert (A4 : verdicts access = [])
    by (rewrite Ha; apply accesses_no_verdict).
  destruct (blocks_facts _ _ Hc) as (B1 & B2 & B3 & B4 & B5).
  cbn zeta in B1, B2, B3, B4, B5.
  destruct (off_line_events
              (map EvCout (summary_console (map fst rbs))))
    as (S1 & S2 & S3); [apply couts_off_line|].
  assert (S4 : verdicts (map EvCout (summary_console (map fst rbs))) = []).
  { unfold verdicts. rewrite console_couts. apply summary_no_verdict. }
  destruct (off_line_events (file_closing (report_opened host)))
    as (C1 & C2 & C3); [now destruct (report_opened host)|].
  assert (C4 : verdicts (file_closing (report_opened host)) = [])
    by (now destruct (report_opened host)).
  rewrite !opened_app, !uses_open_app, !waiting_total_app, !verdicts_app,
    !fold_left_app, A1, A2, A4, C1, C2, C4, (proj1 (A3 _)), (proj2 (A3 _)),
    (proj2 (C3 _)).
  cbn [fold_left fd_step].
  destruct (discovered host) as [|p0 ports'] eqn:Hd.
  - cbn [cells flat_map] in *. inversion Hc; subst.
    rewrite (proj1 (C3 _)). cbn. repeat split; lia.
  - set (ports := p0 :: ports') in *.
    change (EvCout (MsgFoundPorts ports)
              :: List.concat (map snd rbs)
              ++ map EvCout (summary_console (map fst rbs)))
      with ([EvCout (MsgFoundPorts ports)]
              ++ List.concat (map snd rbs)
              ++ map EvCout (summary_console (map fst rbs))).
    rewrite !opened_app, !uses_open_app, !waiting_total_app, !verdicts_app,
      !fold_left_app.
    cbn [fold_left fd_step]. rewrite B1, B2, B3, B5, S1, S2, S4, !app_nil_r.
    rewrite (proj1 (S3 _)), (proj2 (S3 _)), (proj1 (C3 _)).
    cbn [opened flat_map app uses_open fd_step andb waiting_total
         fold_right waiting verdicts console filter is_verdict].
    repeat split; try reflexivity; lia.
Qed.

Lemma verdict_classes (rs : list TestResult) :
  filter is_working_verdict (map verdict rs)
  = map verdict (filter is_working rs)
  /\ filter is_partial_verdict (map verdict rs)
     = map verdict (filter is_partial rs).
Proof.
  induction rs as [|r rs [I1 I2]]; [split; reflexivity|].
  destruct r as [p b raw info health scan pts msg d].
  destruct raw, info, health, scan;
    cbn [map filter verdict is_working is_partial is_working_verdict
         is_partial_verdict scan_start_success device_info_success
         health_check_success raw_communication scan_points_received
         error_message negb andb orb];
    rewrite I1, I2; split; reflexivity.
Qed.

Lemma discovered_at_most_30 : (List.length (discovered host) <= 30)%nat.
Proof.
  destruct (main_run host 0) as (rs & access & matrix & _ & Hsub & _).
  apply subseq_length in Hsub. exact Hsub.
Qed.

(** X14.  Along a whole run every configure, write, read and close is on
    a descriptor that is open at that moment: the program never uses the
    transport while it is closed and never closes what is not open.  It
    calls [open] once per cell, on the port of the cell and in the order
    of the matrix, and when the run is over no serial descriptor is
    open. *)
Theorem run_uses_only_open_descriptors (fd0 : Z) :
  let tr := trace (snd (main host fd0)) in
  uses_open [] tr = true
  /\ open_fds tr = []
  /\ opened tr = map fst (cells (discovered host)).
Proof.
  cbn zeta. destruct (main_measures fd0) as (O & U & F & _).
  cbn zeta in O, U, F. unfold open_fds. auto.
Qed.


(** X16.  The time a whole run spends waiting on purpose is at most
    47 seconds for every port that discovery returned, so at most 1410
    seconds in all. *)
Theorem run_waiting_is_bounded (fd0 : Z) :
  let tr := trace (snd (main host fd0)) in
  0 <= waiting_total tr
    <= 47000 * Z.of_nat (List.length (discovered host))
  /\ waiting_total tr <= 1410000.
Proof.
  cbn zeta. destruct (main_measures fd0) as (_ & _ & _ & W & _).
  cbn zeta in W. rewrite cells_length in W.
  pose proof discovered_at_most_30 as H30. lia.
Qed.

End RunProperties.


(** ** The size of the point count *)

Section PointCount.

Variable host : Host.

Lemma read_returns_bound (m : Z) (resp : ReadOutcome) :
  0 <= m -> -1 <= fst (read_returns m resp) <= m.
Proof.
  intros Hm. destruct resp as [| |data]; cbn [read_returns fst]; try lia.
  pose proof (length_firstn (Z.to_nat m) data) as H. lia.
Qed.

Lemma scan_loop_bound (remaining : nat) :
  forall (attempts total : Z) (s : State),
  0 <= total <= 10 ->
  0 <= snd (fst (scan_loop host remaining attempts total s)) <= 419.
Proof.
  induction remaining as [|n IH]; intros attempts total s Ht.
  - cbn. lia.
  - cbn [scan_loop]. unfold_prims. cbn [trace set_trace serial_fd].
    set (r := h_read host (trace s) (serial_fd s) 2048 200).
    pose proof (read_returns_bound 2048 r ltac:(lia)) as Hb.
    destruct (read_returns 2048 r) as [bytes buffer]. cbn [fst] in Hb.
    destruct (bytes >? 0) eqn:Hpos.
    + assert (Hq : 0 <= Z.quot bytes 5 <= 409).
      { rewrite Z.quot_div_nonneg by lia. split.
        - apply Z.div_pos; lia.
        - apply (Z.le_trans _ (2048 / 5)); [|reflexivity].
          apply Z.div_le_mono; lia. }
      destruct (total + Z.quot bytes 5 >? 10) eqn:Hgt.
      * cbn [fst snd]. lia.
      * apply IH. lia.
    + apply IH. lia.
Qed.

Lemma testPort_scan_bound (result : TestResult) (s : State) :
  0 <= scan_points_received result <= 419 ->
  0 <= scan_points_received (fst (testPort_scan host result s)) <= 419.
Proof.
  intros Hr.
  destruct (testPort_scan host result s) as [r' s'] eqn:Hrun. cbn [fst].
  revert Hrun. unfold testPort_scan.
  unfold bind at 1. unfold cout, emit, modify.
  unfold bind at 1. unfold writeData at 1.
  unfold bind at 1. unfold get. unfold bind at 1. unfold sys_write, ret at 1.
  cbn [trace set_trace serial_fd].
  destruct (_ =? Z.of_nat (List.length scan_cmd)).
  - unfold bind at 1. unfold sleep_for, emit, modify.
    rewrite bind_fst_snd.
    match goal with |- context [scan_loop host ?k ?a ?t ?st] =>
      pose proof (scan_loop_bound k a t st ltac:(lia)) as Hb;
      destruct (fst (scan_loop host k a t st)) as [ok total] end.
    cbn [snd] in Hb.
    match goal with |- context [snd (scan_loop host ?k ?a ?t ?st0)] =>
      generalize (snd (scan_loop host k a t st0)) end.
    intros st.
    destruct (scan_start_success _); unfold bind, ret;
      intros Hrun; apply (f_equal fst) in Hrun; cbn [fst] in Hrun;
      subst r'; destruct ok; exact Hb.
  - unfold ret. intros Hrun. injection Hrun as <- _. exact Hr.
Qed.

(** X17.  The point count of a result lies between 0 and 419, whatever
    the device sends: a read delivers at most 2048 bytes, which count as at
    most 409 points, and the scan loop stops as soon as the total has passed
    10. *)
Theorem scan_points_are_bounded (p : string) (b : Z) (s : State) :
  0 <= scan_points_received (fst (testPort host p b s)) <= 419.
Proof.
  destruct (cell_fd_cases host p b s) as [[_ E] | [_ E]].
  - destruct (cell_events_failed host p b s E) as (t1 & -> & _). cbn. lia.
  - destruct (cell_events_split host p b s E) as (n & t1 & _ & ->).
    cbn [set_test_duration_ms scan_points_received].
    unfold after_scan. apply testPort_scan_bound.
    destruct (testPort_health_run host (fst (after_info host p b s))
                (snd (after_info host p b s))) as (o3 & d3 & H3 & _).
    fold (after_health host p b s) in H3. rewrite H3. cbn [fst].
    destruct (testPort_info_run host (fst (after_raw host p b s))
                (snd (after_raw host p b s))) as (o2 & d2 & H2 & _).
    fold (after_info host p b s) in H2. rewrite H2. cbn [fst].
    destruct (testPort_raw_run host (initial_result p b)
                (cell_opened host p b s)) as (o1 & d1 & H1 & _).
    fold (after_raw host p b s) in H1. rewrite H1. cbn [fst].
    destruct o1, o2, o3; cbn; lia.
Qed.

End PointCount.

(** ** Discovery within the run *)

Section RunDiscovery.

Variable host : Host.

Lemma phase_events_no_access (fd : Z) (evs : list Event) :
  forallb (phase_event fd) evs = true -> accessed evs = [].
Proof.
  induction evs as [|e evs IH]; cbn [forallb]; intros H; [reflexivity|].
  apply andb_prop in H as [He Hd]. specialize (IH Hd).
  destruct e; cbn in He; try discriminate; exact IH.
Qed.

Lemma cell_events_no_access (p : string) (b : Z) (s : State) :
  accessed (cell_events host p b s) = [].
Proof.
  assert (C : accessed (closing (serial_fd s)) = []).
  { unfold closing. now destruct (serial_fd s =? -1). }
  destruct (cell_fd_cases host p b s) as [[_ E] | [_ E]].
  - destruct (cell_events_failed host p b s E) as (t1 & _ & ->).
    rewrite !accessed_app, C. reflexivity.
  - destruct (cell_events_grouped host p b s E)
      as (n & t1 & probes & -> & _ & P & _).
    rewrite !accessed_app, C, (phase_events_no_access _ _ P). reflexivity.
Qed.

Lemma blocks_no_access (cs : list (string * Z))
    (rbs : list (TestResult * list Event)) :
  Forall2 (is_cell_of host) cs rbs ->
  accessed (List.concat (map snd rbs)) = [].
Proof.
  induction 1 as [|c rb cs rbs (s & _ & _ & Hb) _ IH]; [reflexivity|].
  cbn [map List.concat]. rewrite accessed_app, IH, Hb. unfold cell_block.
  rewrite accessed_app, cell_events_no_access. reflexivity.
Qed.

Lemma couts_no_access (ms : list ConsoleMsg) : accessed (map EvCout ms) = [].
Proof. induction ms as [|m ms IH]; [reflexivity | exact IH]. Qed.

(** X18.  A run asks [access] about each of the thirty candidate names
    exactly once, and it has asked all of them before it opens any port.
    The cells of the matrix are those of the names for which the answer was
    yes: the recorded results are, in order, the five baud rates for each
    of these names. *)
Theorem matrix_covers_the_ports_that_answered (fd0 : Z) :
  let final := snd (main host fd0) in
  map fst (accessed (trace final)) = candidates
  /\ map cell_of (results final) = cells (found_of (trace final))
  /\ exists before after : list Event,
       trace final = before ++ after
       /\ opened before = []
       /\ accessed after = [].
Proof.
  cbn zeta.
  destruct (main_blocks host fd0)
    as (access & rbs & Ht & Hr & Ha & Hn & Hp & Hc).
  cbn zeta in Ht, Hp, Hc.
  destruct (main_run host fd0)
    as (rs & acc' & matrix & Hm & _ & _ & Hcells & _).
  assert (Hres : map cell_of (results (snd (main host fd0)))
                 = cells (discovered host)) by now rewrite Hm.
  clear Hm Hcells rs acc' matrix.
  set (rest := match discovered host with
               | [] => [EvCout MsgNoPorts]
               | _ => EvCout (MsgFoundPorts (discovered host))
                        :: List.concat (map snd rbs)
                        ++ map EvCout (summary_console (map fst rbs))
               end) in *.
  assert (Hrest : accessed rest = []).
  { subst rest. destruct (discovered host); [reflexivity|].
    change (EvCout (MsgFoundPorts (s :: l)) :: ?x)
      with ([EvCout (MsgFoundPorts (s :: l))] ++ x).
    rewrite !accessed_app, (blocks_no_access _ _ Hc), couts_no_access.
    reflexivity. }
  assert (Hclose : accessed (file_closing (report_opened host)) = [])
    by (now destruct (report_opened host)).
  assert (Hacc : accessed (trace (snd (main host fd0))) = accessed access).
  { rewrite Ht, !accessed_app, Hrest, Hclose. cbn [accessed flat_map app].
    now rewrite app_nil_r. }
  split; [now rewrite Hacc|]. split.
  - rewrite Hres, Hp. unfold found_of. now rewrite Hacc.
  - exists ([EvFileOpen log_file_name (report_opened host);
             EvLocaltime (report_time host);
             EvCout MsgBanner] ++ access),
      (rest ++ file_closing (report_opened host)).
    split; [rewrite Ht; now rewrite <- !app_assoc|]. split.
    + rewrite opened_app, Ha.
      destruct (off_line_events _ (accesses_off_line (accessed access)))
        as (O & _).
      now rewrite O.
    + now rewrite accessed_app, Hrest, Hclose.
Qed.

End RunDiscovery.
